(** * YouTube P2P chat extension

    A shallow embedding of the messaging core of the extension:
    - [Js]: the few ECMAScript primitives the code relies on
      ([String.prototype.trim], truthiness, the stable [Array.prototype.sort]);
    - [Dexie]: the IndexedDB wrapper as the code uses it (declared indexes,
      auto-incremented primary keys, [where/equals], [orderBy], [reverse],
      [limit], [add], [put]);
    - [StorageService]: services/storage-service.js;
    - [P2PService]: services/p2p-service.js (the [P2PService] class);
    - [InputBox], [Content], [Background]: the two send paths of the user
      interface and the background worker.

    Asynchronous functions are modelled as run-to-completion state
    transformers; everything the environment decides (clock readings, fresh
    UUIDs, whether PeerJS opens, whether [io] throws) is an explicit argument.
    Strings are sequences of code units below 256. *)

From Stdlib Require Import ZArith NArith Ascii String List Sorted Permutation Lia Bool.
From stdpp Require Import gmap strings list sorting.

Local Open Scope string_scope.
Local Open Scope list_scope.

(* ===================================================================== *)
(** * ECMAScript primitives *)
(* ===================================================================== *)

Module Js.

(** WhiteSpace and LineTerminator code units below 256:
    TAB, LF, VT, FF, CR, SP and NBSP. *)
Definition isWhiteSpace (c : ascii) : bool :=
  match N_of_ascii c with
  | 9 | 10 | 11 | 12 | 13 | 32 | 160 => true
  | _ => false
  end%N.

Fixpoint trimStart (s : string) : string :=
  match s with
  | EmptyString => EmptyString
  | String c s' => if isWhiteSpace c then trimStart s' else s
  end.

Fixpoint trimEnd (s : string) : string :=
  match s with
  | EmptyString => EmptyString
  | String c s' =>
      match trimEnd s' with
      | EmptyString => if isWhiteSpace c then EmptyString else String c EmptyString
      | t => String c t
      end
  end.

(** [s.trim()] *)
Definition trim (s : string) : string := trimEnd (trimStart s).

(** A string every code unit of which is white space (the empty string
    included). *)
Fixpoint whitespaceOnly (s : string) : bool :=
  match s with
  | EmptyString => true
  | String c s' => isWhiteSpace c && whitespaceOnly s'
  end.

(** ToBoolean on a string: only the empty string is falsy. *)
Definition truthy (s : string) : bool :=
  match s with
  | EmptyString => false
  | String _ _ => true
  end.

(** ToBoolean on an optional string property ([undefined] is falsy). *)
Definition truthyProp (o : option string) : bool :=
  match o with
  | Some s => truthy s
  | None => false
  end.

(** [o || d] on an optional string property. *)
Definition orString (o : option string) (d : string) : string :=
  match o with
  | Some s => if truthy s then s else d
  | None => d
  end.

(** [o || d] on an optional numeric property: [undefined] and [0] are
    falsy. *)
Definition orNumber (o : option Z) (d : Z) : Z :=
  match o with
  | Some z => if (z =? 0)%Z then d else z
  | None => d
  end.

(** A property key that is an array index: the canonical decimal spelling of
    an integer from 0 to 2^32 - 2.  [OrdinaryOwnPropertyKeys] lists such keys
    first, in ascending numeric order, and the other string keys after them in
    the order in which they were created. *)
Definition digitValue (c : ascii) : option N :=
  let n := N_of_ascii c in
  if (48 <=? n)%N && (n <=? 57)%N then Some (n - 48)%N else None.

Fixpoint decimal (acc : N) (s : string) : option N :=
  match s with
  | EmptyString => Some acc
  | String c s' =>
      match digitValue c with
      | Some d => decimal (acc * 10 + d) s'
      | None => None
      end
  end.

Definition arrayIndex (key : string) : option N :=
  match key with
  | EmptyString => None
  | String c rest =>
      if Ascii.eqb c "0"
      then match rest with
           | EmptyString => Some 0%N
           | String _ _ => None
           end
      else match decimal 0 key with
           | Some n => if (n <=? 4294967294)%N then Some n else None
           | None => None
           end
  end.

(** The members every object literal inherits from [Object.prototype]: a
    property read finds them under these keys when the object has no own
    property of that name.  All of them are functions or objects, so truthy. *)
Definition objectPrototypeMembers : list string :=
  ["constructor"; "hasOwnProperty"; "isPrototypeOf"; "propertyIsEnumerable";
   "toLocaleString"; "toString"; "valueOf"; "__proto__";
   "__defineGetter__"; "__defineSetter__"; "__lookupGetter__"; "__lookupSetter__"].

Definition inherited (key : string) : bool :=
  existsb (String.eqb key) objectPrototypeMembers.

(** [Array.prototype.sort((a, b) => key(a) - key(b))].  The sort is stable:
    [insertBy] puts an element in front of the first one whose key is not
    smaller, so equal keys keep their order. *)
Section Sort.
Context {A : Type} (key : A -> Z).

Fixpoint insertBy (x : A) (l : list A) : list A :=
  match l with
  | [] => [x]
  | y :: l' => if (key x <=? key y)%Z then x :: y :: l' else y :: insertBy x l'
  end.

Fixpoint sortBy (l : list A) : list A :=
  match l with
  | [] => []
  | x :: l' => insertBy x (sortBy l')
  end.
End Sort.

End Js.

(* ===================================================================== *)
(** * Dexie tables *)
(* ===================================================================== *)

Module Dexie.

Inductive error : Type :=
| DatabaseClosedError
| SchemaError (keyPath : string).

(** The outcome of an awaited Dexie promise. *)
Inductive promise (A : Type) : Type :=
| Resolved (a : A)
| Rejected (e : error).
Arguments Resolved {A} a.
Arguments Rejected {A} e.

(** A store declaration such as ['++id, roomId, userId, timestamp']: the
    primary key, whether it is auto-incremented, and the secondary
    indexes. *)
Record TableSchema : Type := {
  primKey : string;
  autoIncrement : bool;
  indexes : list string
}.

(** The rows of a store declared with some [TableSchema].  Rows are kept in
    primary-key order; [keyGen] is the key generator of an
    auto-incremented store (IndexedDB starts it at 1 and never reuses a
    key). *)
Record Table (A : Type) : Type := {
  rows : list A;
  keyGen : N
}.
Arguments rows {A} t.
Arguments keyGen {A} t.

Definition emptyTable {A : Type} : Table A :=
  {| rows := []; keyGen := 1%N |}.

(** A key path can be queried when it is the primary key or a declared
    index. *)
Definition indexed (s : TableSchema) (keyPath : string) : bool :=
  String.eqb keyPath (primKey s) || existsb (String.eqb keyPath) (indexes s).

(** [table.where(index).equals(v)]: the rows whose indexed property is [v],
    in primary-key order.  A row without the property is not in the
    index. *)
Definition whereEquals {A : Type} (opened : bool) (s : TableSchema) (t : Table A)
    (index : string) (prop : A -> option string) (v : string)
  : promise (list A) :=
  if negb opened then Rejected DatabaseClosedError
  else if indexed s index
  then Resolved (List.filter (fun r => bool_decide (prop r = Some v)) (rows t))
  else Rejected (SchemaError index).

(** [table.orderBy(index)]: the rows by ascending index key, equal keys in
    primary-key order. *)
Definition orderBy {A : Type} (opened : bool) (s : TableSchema) (t : Table A)
    (index : string) (prop : A -> Z)
  : promise (list A) :=
  if negb opened then Rejected DatabaseClosedError
  else if indexed s index
  then Resolved (Js.sortBy prop (rows t))
  else Rejected (SchemaError index).

(** [collection.reverse()] and [collection.limit(n)]. *)
Definition reverse {A : Type} (c : promise (list A)) : promise (list A) :=
  match c with
  | Resolved l => Resolved (rev l)
  | Rejected e => Rejected e
  end.

Definition limit {A : Type} (n : nat) (c : promise (list A)) : promise (list A) :=
  match c with
  | Resolved l => Resolved (firstn n l)
  | Rejected e => Rejected e
  end.

(** [table.add(obj)] on an auto-incremented store, [obj] carrying no key:
    the generator's value becomes the key. *)
Definition add {A : Type} (opened : bool) (t : Table A) (mk : N -> A)
  : promise (N * Table A) :=
  if opened
  then Resolved (keyGen t,
                 {| rows := rows t ++ [mk (keyGen t)];
                    keyGen := N.succ (keyGen t) |})
  else Rejected DatabaseClosedError.

(** [table.where(index).below(bound).delete()]: removes the rows whose
    indexed number is below [bound] and resolves to how many there were. *)
Definition deleteBelow {A : Type} (opened : bool) (s : TableSchema) (t : Table A)
    (index : string) (prop : A -> Z) (bound : Z)
  : promise (nat * Table A) :=
  if negb opened then Rejected DatabaseClosedError
  else if indexed s index
  then Resolved (length (List.filter (fun r => (prop r <? bound)%Z) (rows t)),
                 {| rows := List.filter (fun r => negb (prop r <? bound)%Z) (rows t);
                    keyGen := keyGen t |})
  else Rejected (SchemaError index).

(** [table.put(obj)] on a store keyed by a string property: replaces the
    row with that key or inserts the row at its place. *)
Fixpoint putRow {A : Type} (key : A -> string) (r : A) (l : list A) : list A :=
  match l with
  | [] => [r]
  | x :: l' =>
      match String.compare (key r) (key x) with
      | Eq => r :: l'
      | Lt => r :: x :: l'
      | Gt => x :: putRow key r l'
      end
  end.

Definition put {A : Type} (opened : bool) (t : Table A) (key : A -> string) (r : A)
  : promise (Table A) :=
  if opened
  then Resolved {| rows := putRow key r (rows t);
                   keyGen := keyGen t |}
  else Rejected DatabaseClosedError.

(** [table.get(key)] on a store keyed by a string property: the row with
    that key, or [undefined]. *)
Definition get {A : Type} (opened : bool) (t : Table A) (key : A -> string) (k : string)
  : promise (option A) :=
  if opened
  then Resolved (List.find (fun r => String.eqb (key r) k) (rows t))
  else Rejected DatabaseClosedError.

End Dexie.

(* ===================================================================== *)
(** * services/storage-service.js *)
(* ===================================================================== *)

(** [DOMPurify.sanitize], restricted to strings. *)
Class DOMPurify : Type := sanitize : string -> string.

(** The argument of [saveMessage] and the wire message: a JS object any
    property of which may be missing. *)
Record MessageData : Type := {
  userId : option string;
  nickname : option string;
  roomId : option string;
  text : string;
  timestamp : option Z
}.

(** A row of [db.messages]. *)
Record StoredMessage : Type := {
  m_id : N;
  m_roomId : option string;
  m_userId : option string;
  m_nickname : string;
  m_text : string;
  m_timestamp : Z
}.

(** The argument of [saveRoom] and a row of [db.rooms]. *)
Record RoomData : Type := {
  rd_id : string;
  rd_name : option string;
  rd_videoId : option string;
  rd_createdAt : option Z
}.

Record RoomRecord : Type := {
  r_id : string;
  r_name : string;
  r_videoId : option string;
  r_createdAt : Z;
  r_lastActive : Z
}.

(** One hit of [fuse.search] (with [includeScore]); the score is kept in
    thousandths. *)
Record FuseResult : Type := {
  item : StoredMessage;
  refIndex : nat;
  score : N
}.

Record FuseOptions : Type := {
  keys : list string;
  includeScore : bool;
  threshold : N
}.

(** [new Fuse(docs, options).search(query)]. *)
Class Fuse : Type := fuseSearch : FuseOptions -> list StoredMessage -> string -> list FuseResult.

(** What the code relies on from Fuse.js: every hit is a document of the
    collection, and the empty pattern matches nothing. *)
Definition FuseHitsAreDocs (F : Fuse) : Prop :=
  forall opts docs q h, In h (fuseSearch opts docs q) -> In (item h) docs.

Definition FuseEmptyPattern (F : Fuse) : Prop :=
  forall opts docs, fuseSearch opts docs "" = [].

Module StorageService.

(** [db.version(1).stores({...})] *)
Definition messagesSchema : Dexie.TableSchema :=
  {| Dexie.primKey := "id"; Dexie.autoIncrement := true;
     Dexie.indexes := ["roomId"; "userId"; "timestamp"] |}.

Definition roomsSchema : Dexie.TableSchema :=
  {| Dexie.primKey := "id"; Dexie.autoIncrement := false;
     Dexie.indexes := ["name"; "createdAt"] |}.

Record Db : Type := {
  isOpen : bool;
  messages : Dexie.Table StoredMessage;
  rooms : Dexie.Table RoomRecord
}.

(** [new Dexie('YouTubeP2PChat')] with its stores declared. *)
Definition db0 (opens : bool) : Db :=
  {| isOpen := opens;
     messages := Dexie.emptyTable;
     rooms := Dexie.emptyTable |}.

Inductive SaveResult : Type :=
| SaveOk (id : N)              (* { success: true, id } *)
| SaveErr (e : Dexie.error).   (* { success: false, error } *)

Inductive RoomResult : Type :=
| RoomOk
| RoomErr (e : Dexie.error).

Inductive ClearResult : Type :=
| ClearOk (count : nat)
| ClearErr (e : Dexie.error).

Section WithLibraries.
Context {purify : DOMPurify} {fuse : Fuse}.

Definition saveMessage (db : Db) (messageData : MessageData) (now : Z)
  : Db * SaveResult :=
  let sanitizedText := sanitize (text messageData) in
  match Dexie.add (isOpen db) (messages db)
          (fun id => {| m_id := id;
                        m_roomId := roomId messageData;
                        m_userId := userId messageData;
                        m_nickname := Js.orString (nickname messageData) "Anonymous";
                        m_text := sanitizedText;
                        m_timestamp := Js.orNumber (timestamp messageData) now |})
  with
  | Dexie.Resolved (id, t) =>
      ({| isOpen := isOpen db; messages := t; rooms := rooms db |}, SaveOk id)
  | Dexie.Rejected e => (db, SaveErr e)
  end.

Definition getMessagesForRoom (db : Db) (roomId : string) (limit : nat)
  : list StoredMessage :=
  match Dexie.limit limit
          (Dexie.reverse
             (Dexie.whereEquals (isOpen db) messagesSchema (messages db) "roomId" m_roomId roomId))
  with
  | Dexie.Resolved messages => rev messages
  | Dexie.Rejected _ => []
  end.

Definition searchOptions : FuseOptions :=
  {| keys := ["text"; "nickname"]; includeScore := true; threshold := 400 |}.

Definition searchMessages (db : Db) (roomId : string) (query : string)
  : list StoredMessage :=
  match Dexie.whereEquals (isOpen db) messagesSchema (messages db) "roomId" m_roomId roomId with
  | Dexie.Resolved messages =>
      let results := fuseSearch searchOptions messages query in
      Js.sortBy m_timestamp (map item results)
  | Dexie.Rejected _ => []
  end.

Definition saveRoom (db : Db) (roomData : RoomData) (now : Z) : Db * RoomResult :=
  match Dexie.put (isOpen db) (rooms db) r_id
          {| r_id := rd_id roomData;
             r_name := Js.orString (rd_name roomData)
                         ("Room for " +:+ default "undefined" (rd_videoId roomData));
             r_videoId := rd_videoId roomData;
             r_createdAt := Js.orNumber (rd_createdAt roomData) now;
             r_lastActive := now |}
  with
  | Dexie.Resolved t =>
      ({| isOpen := isOpen db; messages := messages db; rooms := t |}, RoomOk)
  | Dexie.Rejected e => (db, RoomErr e)
  end.

Definition getRooms (db : Db) : list RoomRecord :=
  match Dexie.reverse (Dexie.orderBy (isOpen db) roomsSchema (rooms db) "lastActive" r_lastActive) with
  | Dexie.Resolved l => l
  | Dexie.Rejected _ => []
  end.

(** Numbers are integers here and the arithmetic is exact; that is the
    code's arithmetic as long as the clock reading, [daysToKeep * 86400000]
    and their difference are safe integers (below 2^53 in magnitude), beyond
    which the code's doubles round. *)
Definition clearOldMessages (db : Db) (daysToKeep : Z) (now : Z) : Db * ClearResult :=
  let cutoffTime := (now - daysToKeep * 24 * 60 * 60 * 1000)%Z in
  match Dexie.deleteBelow (isOpen db) messagesSchema (messages db) "timestamp" m_timestamp cutoffTime with
  | Dexie.Resolved (count, t) =>
      ({| isOpen := isOpen db; messages := t; rooms := rooms db |}, ClearOk count)
  | Dexie.Rejected e => (db, ClearErr e)
  end.

End WithLibraries.

End StorageService.

(* ===================================================================== *)
(** * services/p2p-service.js *)
(* ===================================================================== *)

Module P2PService.
Import StorageService.

(** A PeerJS data connection, as far as the service looks at it. *)
Record DataConnection : Type := {
  conn_peer : string;
  conn_open : bool
}.

(** [this.peer]: the PeerJS object and whether its ['connection'] listener
    was installed ([setupPeerEventListeners]). *)
Record PeerObject : Type := {
  peer_id : option string;
  peer_listening : bool
}.

(** [this.socket]: the Socket.IO client with the query it was opened with. *)
Record SocketObject : Type := {
  query_peerId : option string;
  query_roomId : option string
}.

(** What the service does to the outside: calls into PeerJS and Socket.IO and
    invocations of the registered callbacks, in program order.
    [EmitChatMessage base spread] is
    [socket.emit('chat-message', { roomId: base, ...spread })]: the effect
    keeps the two parts of the object literal apart; in the object that goes
    out, a [roomId] property of [spread] replaces [base]. *)
Inductive Effect : Type :=
| NewPeer (id : option string)
| PeerConnect (remote : string)
| ConnSend (remote : string) (data : MessageData)
| Io (peerId roomId : option string)
| EmitJoinRoom (roomId peerId : option string)
| EmitChatMessage (base : option string) (spread : MessageData)
| Callback (callback : nat) (data : MessageData)
| PeerDestroy
| SocketDisconnect.

(** The fields of [class P2PService].  [connections] is a JS object used as
    a map from peer id to connection; it is kept as a list with one entry per
    peer, in the order in which the properties were created ([values] below
    gives the order in which [Object.values] lists them). *)
Record Service : Type := {
  peerId : option string;
  peer : option PeerObject;
  connections : list DataConnection;
  roomId : option string;
  videoId : option string;
  socket : option SocketObject;
  messageCallbacks : list nat;
  useWebSocketFallback : bool;
  serverUrl : string
}.

(** The singleton together with what it reaches: the Dexie database,
    [chrome.storage.local] and the effects performed so far. *)
Record World : Type := {
  p2pService : Service;
  db : Db;
  storageLocal : gmap string string;
  effects : list Effect
}.

Definition constructor : Service :=
  {| peerId := None; peer := None; connections := []; roomId := None;
     videoId := None; socket := None; messageCallbacks := [];
     useWebSocketFallback := false;
     serverUrl := "https://your-peerserver.com" |}.

Definition world0 (database : Db) (stored : gmap string string) : World :=
  {| p2pService := constructor; db := database; storageLocal := stored; effects := [] |}.

(** ** Field updates *)

Definition withService (f : Service -> Service) (w : World) : World :=
  {| p2pService := f (p2pService w); db := db w;
     storageLocal := storageLocal w; effects := effects w |}.

Definition withDb (d : Db) (w : World) : World :=
  {| p2pService := p2pService w; db := d;
     storageLocal := storageLocal w; effects := effects w |}.

Definition withStorageLocal (m : gmap string string) (w : World) : World :=
  {| p2pService := p2pService w; db := db w; storageLocal := m; effects := effects w |}.

Definition perform (e : Effect) (w : World) : World :=
  {| p2pService := p2pService w; db := db w;
     storageLocal := storageLocal w; effects := effects w ++ [e] |}.

Definition setPeerId (v : option string) (s : Service) : Service :=
  {| peerId := v; peer := peer s; connections := connections s; roomId := roomId s;
     videoId := videoId s; socket := socket s; messageCallbacks := messageCallbacks s;
     useWebSocketFallback := useWebSocketFallback s; serverUrl := serverUrl s |}.

Definition setPeer (v : option PeerObject) (s : Service) : Service :=
  {| peerId := peerId s; peer := v; connections := connections s; roomId := roomId s;
     videoId := videoId s; socket := socket s; messageCallbacks := messageCallbacks s;
     useWebSocketFallback := useWebSocketFallback s; serverUrl := serverUrl s |}.

Definition setConnections (v : list DataConnection) (s : Service) : Service :=
  {| peerId := peerId s; peer := peer s; connections := v; roomId := roomId s;
     videoId := videoId s; socket := socket s; messageCallbacks := messageCallbacks s;
     useWebSocketFallback := useWebSocketFallback s; serverUrl := serverUrl s |}.

Definition setRoomId (v : option string) (s : Service) : Service :=
  {| peerId := peerId s; peer := peer s; connections := connections s; roomId := v;
     videoId := videoId s; socket := socket s; messageCallbacks := messageCallbacks s;
     useWebSocketFallback := useWebSocketFallback s; serverUrl := serverUrl s |}.

Definition setVideoId (v : option string) (s : Service) : Service :=
  {| peerId := peerId s; peer := peer s; connections := connections s; roomId := roomId s;
     videoId := v; socket := socket s; messageCallbacks := messageCallbacks s;
     useWebSocketFallback := useWebSocketFallback s; serverUrl := serverUrl s |}.

Definition setSocket (v : option SocketObject) (s : Service) : Service :=
  {| peerId := peerId s; peer := peer s; connections := connections s; roomId := roomId s;
     videoId := videoId s; socket := v; messageCallbacks := messageCallbacks s;
     useWebSocketFallback := useWebSocketFallback s; serverUrl := serverUrl s |}.

Definition setMessageCallbacks (v : list nat) (s : Service) : Service :=
  {| peerId := peerId s; peer := peer s; connections := connections s; roomId := roomId s;
     videoId := videoId s; socket := socket s; messageCallbacks := v;
     useWebSocketFallback := useWebSocketFallback s; serverUrl := serverUrl s |}.

Definition setUseWebSocketFallback (v : bool) (s : Service) : Service :=
  {| peerId := peerId s; peer := peer s; connections := connections s; roomId := roomId s;
     videoId := videoId s; socket := socket s; messageCallbacks := messageCallbacks s;
     useWebSocketFallback := v; serverUrl := serverUrl s |}.

(** ** The [connections] object *)

(** [connections[conn.peer] = conn]: an existing property keeps its place. *)
Fixpoint assign (conn : DataConnection) (l : list DataConnection) : list DataConnection :=
  match l with
  | [] => [conn]
  | c :: l' =>
      if String.eqb (conn_peer c) (conn_peer conn) then conn :: l'
      else c :: assign conn l'
  end.

(** [delete connections[p]] *)
Definition remove (p : string) (l : list DataConnection) : list DataConnection :=
  List.filter (fun c => negb (String.eqb (conn_peer c) p)) l.

(** [connections] has an own entry under [p] *)
Definition has (p : string) (l : list DataConnection) : bool :=
  existsb (fun c => String.eqb (conn_peer c) p) l.

(** [connections[p]] is truthy: an own entry, or a member that the object
    literal inherits. *)
Definition known (p : string) (l : list DataConnection) : bool :=
  has p l || Js.inherited p.

(** [Object.values(connections)]: the connections under array-index keys
    first, by ascending index, then the others in creation order. *)
Definition isIndexed (c : DataConnection) : bool :=
  match Js.arrayIndex (conn_peer c) with
  | Some _ => true
  | None => false
  end.

Definition indexOf (c : DataConnection) : Z :=
  match Js.arrayIndex (conn_peer c) with
  | Some n => Z.of_N n
  | None => 0
  end.

Definition values (l : list DataConnection) : list DataConnection :=
  Js.sortBy indexOf (List.filter isIndexed l)
  ++ List.filter (fun c => negb (isIndexed c)) l.

(** PeerJS sets [conn.open] before it emits ['open']. *)
Definition markOpen (p : string) (l : list DataConnection) : list DataConnection :=
  map (fun c => if String.eqb (conn_peer c) p
                then {| conn_peer := conn_peer c; conn_open := true |} else c) l.

(** What the environment decides during [initialize]. *)
Record InitEnv : Type := {
  uuidPeer : string;     (* the uuidv4() drawn for the peer id, if one is drawn *)
  uuidRoom : string;     (* the uuidv4() drawn for the room id *)
  peerOpens : bool;      (* PeerJS emits 'open' (true) or 'error' (false) *)
  ioReturns : bool       (* io(...) returns (true) or throws (false) *)
}.

Inductive InitResult : Type :=
| InitOk (peerId roomId : option string) (usingFallback : bool)
| InitErr.

Inductive SendError : Type :=
| SocketIsNull.

Inductive SendResult : Type :=
| SendOk                      (* { success: true } *)
| SendErr (e : SendError).    (* { success: false, error } *)

Inductive JoinResult : Type :=
| JoinOk (roomId : string) (messages : list StoredMessage)
| JoinErr (e : SendError).

Section WithLibraries.
Context {purify : DOMPurify} {fuse : Fuse}.

(** [initializePeerJS]: resolves ([true]) or rejects ([false]). *)
Definition initializePeerJS (w : World) (opens : bool) : World * bool :=
  let id := peerId (p2pService w) in
  let w := perform (NewPeer id) w in
  if opens
  then (withService (setPeer (Some {| peer_id := id; peer_listening := true |})) w, true)
  else (withService (setPeer (Some {| peer_id := id; peer_listening := false |})) w, false).

Definition initializeWebSocketFallback (w : World) (returns : bool)
  : World * InitResult :=
  let s := p2pService w in
  let w := perform (Io (peerId s) (roomId s)) w in
  if returns
  then
    let w := withService
               (setSocket (Some {| query_peerId := peerId s; query_roomId := roomId s |})) w in
    (w, InitOk (peerId s) (roomId s) true)
  else (w, InitErr).

Definition initialize (w : World) (video : string) (env : InitEnv)
  : World * InitResult :=
  let w := withService (setVideoId (Some video)) w in
  let storedPeerId := storageLocal w !! "peerId" in
  let id := Js.orString storedPeerId (uuidPeer env) in
  let w := withService (setPeerId (Some id)) w in
  let w := if Js.truthyProp storedPeerId then w
           else withStorageLocal (<["peerId" := id]> (storageLocal w)) w in
  let room := "yt-" +:+ video +:+ "-" +:+ String.substring 0 8 (uuidRoom env) in
  let w := withService (setRoomId (Some room)) w in
  let '(w, opened) := initializePeerJS w (peerOpens env) in
  if opened
  then (w, InitOk (peerId (p2pService w)) (roomId (p2pService w)) false)
  else if negb (useWebSocketFallback (p2pService w))
  then initializeWebSocketFallback
         (withService (setUseWebSocketFallback true) w) (ioReturns env)
  else (w, InitErr).

(** [this.connections[conn.peer] = conn].  The key [__proto__], which is not
    a PeerJS id, would set the object's prototype instead of an entry; the
    model has no such connection event in mind. *)
Definition handleConnection (w : World) (conn : DataConnection) : World :=
  withService (fun s => setConnections (assign conn (connections s)) s) w.

(** [this.peer.connect] on a null [peer] throws out of [connectToPeer],
    which leaves the state as it was. *)
Definition connectToPeer (w : World) (remotePeerId : string) : World :=
  if known remotePeerId (connections (p2pService w)) then w
  else
    match peer (p2pService w) with
    | None => w
    | Some _ =>
        handleConnection (perform (PeerConnect remotePeerId) w)
          {| conn_peer := remotePeerId; conn_open := false |}
    end.

Definition sendToOpen (messageData : MessageData) (w : World) (conn : DataConnection)
  : World :=
  if conn_open conn then perform (ConnSend (conn_peer conn) messageData) w else w.

Definition sendMessage (w : World) (messageData : MessageData) (now : Z)
  : World * SendResult :=
  let w := withDb (fst (saveMessage (db w) messageData now)) w in
  if useWebSocketFallback (p2pService w)
  then
    match socket (p2pService w) with
    | Some _ =>
        (perform (EmitChatMessage (roomId (p2pService w)) messageData) w, SendOk)
    | None => (w, SendErr SocketIsNull)
    end
  else
    (fold_left (sendToOpen messageData) (values (connections (p2pService w))) w, SendOk).

Definition joinRoom (w : World) (room : string) : World * JoinResult :=
  let w := withService (setRoomId (Some room)) w in
  let joined :=
    if useWebSocketFallback (p2pService w)
    then
      match socket (p2pService w) with
      | Some _ => Some (perform (EmitJoinRoom (Some room) (peerId (p2pService w))) w)
      | None => None
      end
    else Some w in
  match joined with
  | Some w => (w, JoinOk room (getMessagesForRoom (db w) room 50))
  | None => (w, JoinErr SocketIsNull)
  end.

Definition notify (data : MessageData) (w : World) (callback : nat) : World :=
  perform (Callback callback data) w.

Definition handleIncomingMessage (w : World) (data : MessageData) (now : Z) : World :=
  let w := withDb (fst (saveMessage (db w) data now)) w in
  fold_left (notify data) (messageCallbacks (p2pService w)) w.

Definition onMessage (w : World) (callback : nat) : World :=
  withService (fun s => setMessageCallbacks (messageCallbacks s ++ [callback]) s) w.

Definition cleanup (w : World) : World :=
  let w := match peer (p2pService w) with
           | Some _ => perform PeerDestroy w
           | None => w
           end in
  let w := match socket (p2pService w) with
           | Some _ => perform SocketDisconnect w
           | None => w
           end in
  withService (setConnections []) w.

(** ** Events *)

(** The calls a client can make and the events PeerJS and Socket.IO can
    deliver to the listeners the service installed. *)
Inductive Op : Type :=
| Initialize (video : string) (env : InitEnv)
| SendMessage (messageData : MessageData) (now : Z)
| JoinRoom (room : string)
| OnMessage (callback : nat)
| Cleanup
| ConnectToPeer (remotePeerId : string)
| PeerConnection (conn : DataConnection)      (* peer.on('connection') *)
| ConnOpen (remote : string)                  (* conn.on('open') *)
| ConnData (remote : string) (data : MessageData) (now : Z)
| ConnClose (remote : string)
| ConnError (remote : string)
| SocketConnect                               (* socket.on('connect') *)
| SocketUserConnected (remote : string)
| SocketUserDisconnected (remote : string)
| SocketChatMessage (data : MessageData) (now : Z)
| SocketError.

Definition step (w : World) (op : Op) : World :=
  match op with
  | Initialize video env => fst (initialize w video env)
  | SendMessage messageData now => fst (sendMessage w messageData now)
  | JoinRoom room => fst (joinRoom w room)
  | OnMessage callback => onMessage w callback
  | Cleanup => cleanup w
  | ConnectToPeer remotePeerId => connectToPeer w remotePeerId
  | PeerConnection conn =>
      match peer (p2pService w) with
      | Some p => if peer_listening p then handleConnection w conn else w
      | None => w
      end
  | ConnOpen remote =>
      withService (fun s => setConnections (markOpen remote (connections s)) s) w
  | ConnData _ data now => handleIncomingMessage w data now
  | ConnClose remote | ConnError remote =>
      withService (fun s => setConnections (remove remote (connections s)) s) w
  | SocketConnect =>
      match socket (p2pService w) with
      | Some _ =>
          perform (EmitJoinRoom (roomId (p2pService w)) (peerId (p2pService w))) w
      | None => w
      end
  | SocketUserConnected _ | SocketUserDisconnected _ | SocketError => w
  | SocketChatMessage data now => handleIncomingMessage w data now
  end.

Definition run (w : World) (ops : list Op) : World := fold_left step ops w.

End WithLibraries.

End P2PService.

(* ===================================================================== *)
(** * The background worker and the two send paths of the interface *)
(* ===================================================================== *)

Module Background.

Inductive Response : Type :=
| Success               (* { success: true } *)
| Failure.              (* { success: false, error } *)

(** The [chrome.runtime.onInstalled] listener: draws a user id unless a
    truthy one is stored. *)
Definition onInstalled (stored : gmap string string) (uuid : string)
  : gmap string string :=
  if negb (Js.truthyProp (stored !! "userId"))
  then <["userId" := uuid]> stored
  else stored.

(** [sendMessageToPeers]: the body only answers. *)
Definition sendMessageToPeers (messageData : MessageData) : Response := Success.

(** The worker's module variable [peerId] and [chrome.storage.local]. *)
Record Worker : Type := {
  worker_peerId : option string;
  worker_local : gmap string string
}.

Inductive RoomResponse : Type :=
| Initialized (peerId roomId : string)     (* { success: true, peerId, roomId } *)
| Joined (roomId : string).                (* { success: true, roomId } *)

(** [initializeP2P]: draws a peer id and a room id and records the room. *)
Definition initializeP2P (b : Worker) (videoId uuidPeer uuidRoom : string)
  : Worker * RoomResponse :=
  let roomId := "yt-" +:+ videoId +:+ "-" +:+ String.substring 0 8 uuidRoom in
  ({| worker_peerId := Some uuidPeer;
      worker_local := <["currentVideo" := videoId]>
                        (<["currentRoom" := roomId]> (worker_local b)) |},
   Initialized uuidPeer roomId).

(** [joinRoom]: records the room. *)
Definition joinRoom (b : Worker) (roomId : string) : Worker * RoomResponse :=
  ({| worker_peerId := worker_peerId b;
      worker_local := <["currentRoom" := roomId]> (worker_local b) |},
   Joined roomId).

End Background.

(** The [InputBox] component of the React interface. *)
Module InputBox.

Record Props : Type := {
  props_nickname : string;
  props_roomId : option string
}.

(** The component's [messageText], the list its [onMessageSent] extends
    (the [messages] of [ChatContainer]) and the service it calls. *)
Record State : Type := {
  world : P2PService.World;
  messageText : string;
  messages : list MessageData
}.

Section WithLibraries.
Context {purify : DOMPurify} {fuse : Fuse}.

(** [now] is the clock reading for the message, [later] the one
    [saveMessage] would take. *)
Definition sendMessage (props : Props) (s : State) (now later : Z) : State :=
  if negb (Js.truthy (Js.trim (messageText s))) then s
  else
    let messageData :=
      {| userId := P2PService.storageLocal (world s) !! "userId";
         nickname := Some (props_nickname props);
         roomId := props_roomId props;
         text := messageText s;
         timestamp := Some now |} in
    match P2PService.sendMessage (world s) messageData later with
    | (w, P2PService.SendOk) =>
        {| world := w; messageText := ""; messages := messages s ++ [messageData] |}
    | (w, P2PService.SendErr _) =>
        {| world := w; messageText := messageText s; messages := messages s |}
    end.
End WithLibraries.

End InputBox.

(** The content script (content/index.js). *)
Module Content.

(** The children the script appends to the messages area. *)
Inductive Node : Type :=
| SystemMessage (textContent : string)
| ErrorMessage (textContent : string)
| ChatMessage (isOwnMessage : bool) (messageData : MessageData).

Record Page : Type := {
  inputValue : string;
  messagesArea : list Node;
  sentToBackground : list MessageData
}.

Definition displayMessage (area : list Node) (messageData : MessageData)
    (isOwnMessage : bool) : list Node :=
  area ++ [ChatMessage isOwnMessage messageData].

Definition sendMessage (stored : gmap string string) (page : Page) (now : Z) : Page :=
  let messageText := Js.trim (inputValue page) in
  if negb (Js.truthy messageText) then page
  else
    let messageData :=
      {| userId := stored !! "userId";
         nickname := Some (Js.orString (stored !! "nickname") "Anonymous");
         roomId := None;
         text := messageText;
         timestamp := Some now |} in
    match Background.sendMessageToPeers messageData with
    | Background.Success =>
        {| inputValue := "";
           messagesArea := displayMessage (messagesArea page) messageData true;
           sentToBackground := sentToBackground page ++ [messageData] |}
    | Background.Failure =>
        {| inputValue := inputValue page;
           messagesArea := messagesArea page
                             ++ [ErrorMessage "Failed to send message. Please try again."];
           sentToBackground := sentToBackground page ++ [messageData] |}
    end.

End Content.

(* ===================================================================== *)
(** * The users store, the chat container, its header and the popup *)
(* ===================================================================== *)

(** [updateUser] and [getUser] of services/storage-service.js, over the
    [users] store of the same database. *)
Module Users.

Record UserData : Type := {
  ud_id : string;
  ud_nickname : option string
}.

Record UserRecord : Type := {
  u_id : string;
  u_nickname : option string;
  u_lastSeen : Z
}.

(** [users: 'id, nickname, lastSeen'] *)
Definition usersSchema : Dexie.TableSchema :=
  {| Dexie.primKey := "id"; Dexie.autoIncrement := false;
     Dexie.indexes := ["nickname"; "lastSeen"] |}.

Inductive UpdateResult : Type :=
| UpdateOk
| UpdateErr (e : Dexie.error).

Definition updateUser (opened : bool) (users : Dexie.Table UserRecord)
    (userData : UserData) (now : Z)
  : Dexie.Table UserRecord * UpdateResult :=
  match Dexie.put opened users u_id
          {| u_id := ud_id userData;
             u_nickname := ud_nickname userData;
             u_lastSeen := now |}
  with
  | Dexie.Resolved t => (t, UpdateOk)
  | Dexie.Rejected e => (users, UpdateErr e)
  end.

(** [null] and [undefined] are both [None]. *)
Definition getUser (opened : bool) (users : Dexie.Table UserRecord) (userId : string)
  : option UserRecord :=
  match Dexie.get opened users u_id userId with
  | Dexie.Resolved r => r
  | Dexie.Rejected _ => None
  end.

End Users.

(** The [ChatContainer] component: mounting, searching, and what it hands to
    [MessageList]. *)
Module ChatContainer.

(** An element of the component's [messages]: a stored row loaded on mount
    or a message object appended as it comes. *)
Inductive Shown : Type :=
| FromStore (m : StoredMessage)
| FromWire (d : MessageData).

Record Props : Type := {
  props_videoId : string;
  props_roomId : option string
}.

Record State : Type := {
  service : P2PService.World;
  messages : list Shown;
  isConnected : bool;
  error : option string;
  searchQuery : string;
  searchResults : list StoredMessage;
  isSearching : bool
}.

Definition mounted (w : P2PService.World) : State :=
  {| service := w; messages := []; isConnected := false; error := None;
     searchQuery := ""; searchResults := []; isSearching := false |}.

Section WithLibraries.
Context {purify : DOMPurify} {fuse : Fuse}.

(** [result.success] and [result.roomId] of either call. *)
Definition connect (props : Props) (w : P2PService.World) (env : P2PService.InitEnv)
  : P2PService.World * option (option string) :=
  if Js.truthyProp (props_roomId props)
  then
    match P2PService.joinRoom w (default "" (props_roomId props)) with
    | (w', P2PService.JoinOk room _) => (w', Some (Some room))
    | (w', P2PService.JoinErr _) => (w', None)
    end
  else
    match P2PService.initialize w (props_videoId props) env with
    | (w', P2PService.InitOk _ room _) => (w', Some room)
    | (w', P2PService.InitErr) => (w', None)
    end.

(** [getMessagesForRoom(result.roomId)]; a null room id is not a key, the
    query throws and the handler returns the empty list. *)
Definition previousMessages (db : StorageService.Db) (room : option string)
  : list StoredMessage :=
  match room with
  | Some r => StorageService.getMessagesForRoom db r 50
  | None => []
  end.

(** [initializeChat]; [callback] names the closure it registers. *)
Definition initializeChat (props : Props) (s : State) (callback : nat)
    (env : P2PService.InitEnv) : State :=
  match connect props (service s) env with
  | (w, Some room) =>
      {| service := P2PService.onMessage w callback;
         messages := map FromStore (previousMessages (P2PService.db w) room);
         isConnected := true;
         error := error s;
         searchQuery := searchQuery s;
         searchResults := searchResults s;
         isSearching := isSearching s |}
  | (w, None) =>
      {| service := w;
         messages := messages s;
         isConnected := isConnected s;
         error := Some "Failed to connect to chat";
         searchQuery := searchQuery s;
         searchResults := searchResults s;
         isSearching := isSearching s |}
  end.

(** The registered closure: [setMessages(prev => [...prev, data])]. *)
Definition onData (s : State) (data : MessageData) : State :=
  {| service := service s;
     messages := messages s ++ [FromWire data];
     isConnected := isConnected s;
     error := error s;
     searchQuery := searchQuery s;
     searchResults := searchResults s;
     isSearching := isSearching s |}.

(** [searchMessages(roomId || p2pService.roomId, searchQuery)]; a null room
    id makes the query throw inside [searchMessages], which returns the empty
    list. *)
Definition searchRoom (props : Props) (s : State) : option string :=
  if Js.truthyProp (props_roomId props) then props_roomId props
  else P2PService.roomId (P2PService.p2pService (service s)).

Definition handleSearch (props : Props) (s : State) : State :=
  if negb (Js.truthy (Js.trim (searchQuery s)))
  then
    {| service := service s; messages := messages s; isConnected := isConnected s;
       error := error s; searchQuery := searchQuery s;
       searchResults := []; isSearching := false |}
  else
    {| service := service s; messages := messages s; isConnected := isConnected s;
       error := error s; searchQuery := searchQuery s;
       searchResults :=
         match searchRoom props s with
         | Some r => StorageService.searchMessages (P2PService.db (service s)) r
                       (searchQuery s)
         | None => []
         end;
       isSearching := true |}.

Definition clearSearch (s : State) : State :=
  {| service := service s; messages := messages s; isConnected := isConnected s;
     error := error s; searchQuery := ""; searchResults := []; isSearching := false |}.

(** The [messages] prop of [MessageList]. *)
Definition listed (s : State) : list Shown :=
  if isSearching s then map FromStore (searchResults s) else messages s.

(** Unmounting runs [p2pService.cleanup()]. *)
Definition unmount (s : State) : P2PService.World := P2PService.cleanup (service s).

End WithLibraries.

End ChatContainer.

(** [saveNickname] of the [ChatHeader] component. *)
Module ChatHeader.

Record State : Type := {
  nickname : string;
  tempNickname : string;
  isSettingsOpen : bool;
  local : gmap string string
}.

Section WithLibraries.
Context {purify : DOMPurify}.

Definition saveNickname (s : State) : State :=
  let sanitizedNickname := sanitize (Js.trim (tempNickname s)) in
  if Js.truthy sanitizedNickname
  then {| nickname := sanitizedNickname; tempNickname := tempNickname s;
          isSettingsOpen := false;
          local := <["nickname" := sanitizedNickname]> (local s) |}
  else {| nickname := nickname s; tempNickname := tempNickname s;
          isSettingsOpen := false; local := local s |}.

End WithLibraries.

End ChatHeader.

(** The popup (popup/index.jsx): loading and saving the nickname. *)
Module Popup.

Record State : Type := {
  nickname : string;
  rooms : list RoomRecord;
  userId : option string;
  isLoading : bool
}.

(** [useState] initial values. *)
Definition initial : State :=
  {| nickname := "Anonymous"; rooms := []; userId := None; isLoading := true |}.

Definition loadData (db : StorageService.Db) (stored : gmap string string) (s : State)
  : State :=
  if Js.truthyProp (stored !! "userId")
  then {| nickname := if Js.truthyProp (stored !! "nickname")
                      then default "" (stored !! "nickname") else nickname s;
          rooms := StorageService.getRooms db;
          userId := stored !! "userId";
          isLoading := false |}
  else {| nickname := nickname s; rooms := rooms s; userId := userId s;
          isLoading := false |}.

Inductive Alert : Type :=
| NicknameSaved                (* alert('Nickname saved!') *)
| FailedToSaveNickname.        (* alert('Failed to save nickname') *)

(** [saveNickname]: [updateUser] answers with a result and never throws, so
    the first alert is the one shown. *)
Definition saveNickname (opened : bool) (users : Dexie.Table Users.UserRecord)
    (stored : gmap string string) (s : State) (now : Z)
  : gmap string string * Dexie.Table Users.UserRecord * Alert :=
  let stored := <["nickname" := nickname s]> stored in
  if Js.truthyProp (userId s)
  then
    (stored,
     fst (Users.updateUser opened users
            {| Users.ud_id := default "" (userId s);
               Users.ud_nickname := Some (nickname s) |} now),
     NicknameSaved)
  else (stored, users, NicknameSaved).

End Popup.

(* ===================================================================== *)
(** * Stand-ins for the two libraries, for closed examples *)
(* ===================================================================== *)

Module Reference.

(** A sanitizer that drops every [<script>...</script>] element with its
    content (an unclosed one with all that follows) and leaves everything
    else.  On the texts of the examples below (plain text, [<b>] and [<i>]
    markup, a script element after plain text) this is what
    [DOMPurify.sanitize] returns in its default configuration.  [skip] counts
    the code units of a tag that are still to be passed over. *)
Fixpoint scrub (inScript : bool) (skip : nat) (s : string) : string :=
  match s with
  | EmptyString => EmptyString
  | String c s' =>
      match skip with
      | S k => scrub inScript k s'
      | O =>
          if inScript
          then if String.prefix "</script>" s then scrub false 8 s' else scrub true 0 s'
          else if String.prefix "<script>" s then scrub true 7 s'
               else String c (scrub false 0 s')
      end
  end.

Definition dropScripts : DOMPurify := scrub false 0.

(** [pattern] occurs in [s]. *)
Definition contains (pattern s : string) : bool :=
  match String.index 0 pattern s with
  | Some _ => true
  | None => false
  end.

Definition matches (query : string) (m : StoredMessage) : bool :=
  contains query (m_text m) || contains query (m_nickname m).

Fixpoint hits (query : string) (i : nat) (docs : list StoredMessage) : list FuseResult :=
  match docs with
  | [] => []
  | m :: docs' =>
      if matches query m
      then {| item := m; refIndex := i;
              score := N.of_nat (String.length (m_text m) - String.length query) |}
             :: hits query (S i) docs'
      else hits query (S i) docs'
  end.

(** An exact-substring searcher over [text] and [nickname] that ranks the
    shorter text first and finds nothing for the empty pattern. *)
Definition substringSearch : Fuse :=
  fun _ docs query =>
    if Js.truthy query
    then Js.sortBy (fun h => Z.of_N (score h)) (hits query 0 docs)
    else [].

End Reference.

(* ===================================================================== *)
(** * Vocabulary of the properties *)
(* ===================================================================== *)

(** Ascending timestamps. *)
Definition byTimestamp (a b : StoredMessage) : Prop :=
  (m_timestamp a <= m_timestamp b)%Z.

(** The stored messages of a room, in storage order. *)
Definition roomMessages (db : StorageService.Db) (room : string) : list StoredMessage :=
  List.filter (fun m => bool_decide (m_roomId m = Some room))
    (Dexie.rows (StorageService.messages db)).


(** Storage order is primary-key order: the keys of [db.messages] ascend
    along the rows and stay below the key generator. *)
Definition KeyOrdered (db : StorageService.Db) : Prop :=
  StronglySorted N.lt (map m_id (Dexie.rows (StorageService.messages db)))
  /\ Forall (fun m => (m_id m < Dexie.keyGen (StorageService.messages db))%N)
       (Dexie.rows (StorageService.messages db)).

(** The row [saveMessage] builds for a message under key [id], the clock
    reading [now]. *)
Definition recordOf {purify : DOMPurify} (id : N) (d : MessageData) (now : Z)
  : StoredMessage :=
  {| m_id := id;
     m_roomId := roomId d;
     m_userId := userId d;
     m_nickname := Js.orString (nickname d) "Anonymous";
     m_text := sanitize (text d);
     m_timestamp := Js.orNumber (timestamp d) now |}.

(** A text that came out of the sanitizer. *)
Definition isSanitized {purify : DOMPurify} (t : string) : Prop :=
  exists raw, t = sanitize raw.

(** Every stored message carries sanitized text. *)
Definition SanitizedStore {purify : DOMPurify} (db : StorageService.Db) : Prop :=
  Forall (fun m => isSanitized (m_text m)) (Dexie.rows (StorageService.messages db)).

(** The de-duplication key of the specification: room, sender, timestamp. *)
Definition sameKey (d : MessageData) (m : StoredMessage) : bool :=
  bool_decide (m_roomId m = roomId d)
  && bool_decide (m_userId m = userId d)
  && bool_decide (Some (m_timestamp m) = timestamp d).

Definition storedCopies (d : MessageData) (db : StorageService.Db) : nat :=
  length (List.filter (sameKey d) (Dexie.rows (StorageService.messages db))).

Global Instance MessageData_eq_dec : EqDecision MessageData.
Proof. solve_decision. Defined.

Global Instance Effect_eq_dec : EqDecision P2PService.Effect.
Proof. solve_decision. Defined.

(** How often a callback was invoked with a message. *)
Definition notifications (callback : nat) (d : MessageData) (l : list P2PService.Effect)
  : nat :=
  length (List.filter (fun e => bool_decide (e = P2PService.Callback callback d)) l).

(** The calls that open the relay transport, and the sends over the mesh. *)
Definition isIo (e : P2PService.Effect) : bool :=
  match e with
  | P2PService.Io _ _ => true
  | _ => false
  end.

Definition isConnSend (e : P2PService.Effect) : bool :=
  match e with
  | P2PService.ConnSend _ _ => true
  | _ => false
  end.

Definition relayAttempts (l : list P2PService.Effect) : nat :=
  length (List.filter isIo l).

(** No connection of the service is open. *)
Definition noOpenConnection (s : P2PService.Service) : Prop :=
  Forall (fun c => P2PService.conn_open c = false) (P2PService.connections s).

(** ** Example data *)

Module Sample.

Definition wire (room user name body : string) (t : Z) : MessageData :=
  {| userId := Some user; nickname := Some name; roomId := Some room;
     text := body; timestamp := Some t |}.

(** Saves the messages one after the other (the clock reads 1000). *)
Definition saveAll (db : StorageService.Db) (l : list MessageData) : StorageService.Db :=
  fold_left
    (fun d m => fst (StorageService.saveMessage (purify := Reference.dropScripts) d m 1000))
    l db.

(** Five messages of room R stored in the order they were written. *)
Definition inOrder : StorageService.Db :=
  saveAll (StorageService.db0 true)
    [wire "R" "u1" "Ann" "one" 1; wire "R" "u2" "Bob" "two" 2;
     wire "R" "u1" "Ann" "three" 3; wire "R" "u2" "Bob" "four" 4;
     wire "R" "u1" "Ann" "five" 5].

(** Two messages of room R, the one written later (t=5) received and
    stored before the one written earlier (t=1). *)
Definition skewed : StorageService.Db :=
  saveAll (StorageService.db0 true)
    [wire "R" "u1" "Ann" "written at five" 5; wire "R" "u2" "Bob" "written at one" 1].

(** Two messages in room R and one in room S. *)
Definition twoRooms : StorageService.Db :=
  saveAll (StorageService.db0 true)
    [wire "R" "u2" "Bob" "hello there" 2; wire "S" "u3" "Cid" "hello" 3;
     wire "R" "u1" "Ann" "hello world" 1].

(** A fresh service with one subscriber. *)
Definition subscribed : P2PService.World :=
  P2PService.onMessage (P2PService.world0 (StorageService.db0 true) ∅) 7.

(** A fresh service with an open connection to peer p. *)
Definition meshed : P2PService.World :=
  P2PService.handleConnection (P2PService.world0 (StorageService.db0 true) ∅)
    {| P2PService.conn_peer := "p"; P2PService.conn_open := true |}.

(** A fresh service with no connection at all. *)
Definition lonely : P2PService.World :=
  P2PService.world0 (StorageService.db0 true) ∅.

(** PeerJS fails and [io] returns; PeerJS opens. *)
Definition meshDown : P2PService.InitEnv :=
  {| P2PService.uuidPeer := "11111111-aaaa-4bbb-8ccc-000000000001";
     P2PService.uuidRoom := "22222222-aaaa-4bbb-8ccc-000000000002";
     P2PService.peerOpens := false;
     P2PService.ioReturns := true |}.

Definition meshUp : P2PService.InitEnv :=
  {| P2PService.uuidPeer := "33333333-aaaa-4bbb-8ccc-000000000003";
     P2PService.uuidRoom := "44444444-aaaa-4bbb-8ccc-000000000004";
     P2PService.peerOpens := true;
     P2PService.ioReturns := true |}.

(** One room saved into an open database. *)
Definition oneRoom : StorageService.Db :=
  fst (StorageService.saveRoom (StorageService.db0 true)
         {| rd_id := "yt-vid-22222222"; rd_name := None;
            rd_videoId := Some "vid"; rd_createdAt := None |} 1000).

(** A session that fell back to the relay while [io] threw: the flag is
    set and there is no socket. *)
Definition relayDown : P2PService.World :=
  fst (P2PService.initialize lonely "vid"
         {| P2PService.uuidPeer := "77777777-aaaa-4bbb-8ccc-000000000007";
            P2PService.uuidRoom := "88888888-aaaa-4bbb-8ccc-000000000008";
            P2PService.peerOpens := false;
            P2PService.ioReturns := false |}).

(** A session on the relay with its socket. *)
Definition relayed : P2PService.World :=
  fst (P2PService.initialize lonely "vid" meshDown).

(** A service with one subscriber whose database does not open. *)
Definition closedWorld : P2PService.World :=
  P2PService.onMessage (P2PService.world0 (StorageService.db0 false) ∅) 7.

Definition markup : MessageData := wire "R" "u9" "Eve" "<b>hi</b>" 5.

(** A message whose text ends in a script element. *)
Definition scripted : MessageData := wire "R" "u9" "Eve" "hi<script>alert(1)</script>" 5.

End Sample.

(** An effect that is neither an opening of the relay nor a send over the
    mesh. *)
Definition staysOnRelay (e : P2PService.Effect) : Prop :=
  isIo e = false /\ isConnSend e = false.

(** Relay attempts a session may still make: one while it is on the mesh,
    none once it fell back. *)
Definition relayBudget (w : P2PService.World) : nat :=
  if P2PService.useWebSocketFallback (P2PService.p2pService w) then 0 else 1.

(** The declaration of [rooms] with the index [getRooms] asks for. *)
Definition roomsSchemaWithLastActive : Dexie.TableSchema :=
  {| Dexie.primKey := "id"; Dexie.autoIncrement := false;
     Dexie.indexes := ["name"; "createdAt"; "lastActive"] |}.

(** Descending last activity. *)
Definition byLastActiveDesc (a b : RoomRecord) : Prop :=
  (r_lastActive b <= r_lastActive a)%Z.

(** ** Vocabulary of the further properties *)

(** The calls that write [db.messages]. *)
Inductive StorageOp : Type :=
| Save (messageData : MessageData) (now : Z)
| Clear (daysToKeep : Z) (now : Z).

Definition storageStep {purify : DOMPurify} (db : StorageService.Db) (op : StorageOp)
  : StorageService.Db :=
  match op with
  | Save messageData now => fst (StorageService.saveMessage db messageData now)
  | Clear daysToKeep now => fst (StorageService.clearOldMessages db daysToKeep now)
  end.

Definition storageRun {purify : DOMPurify} (db : StorageService.Db) (ops : list StorageOp)
  : StorageService.Db :=
  fold_left storageStep ops db.

(** The peers the service holds a connection for. *)
Definition peersOf (s : P2PService.Service) : list string :=
  map P2PService.conn_peer (P2PService.connections s).

(** The mesh sends of a message to the given connections. *)
Definition sendsTo (d : MessageData) (conns : list P2PService.DataConnection)
  : list P2PService.Effect :=
  map (fun c => P2PService.ConnSend (P2PService.conn_peer c) d) conns.

(** The invocations of the given callbacks with a message. *)
Definition callsOf (d : MessageData) (callbacks : list nat) : list P2PService.Effect :=
  map (fun cb => P2PService.Callback cb d) callbacks.

(** The transport the session sends on can take a message: the mesh always,
    the relay when its socket was created. *)
Definition canSend (s : P2PService.Service) : Prop :=
  P2PService.useWebSocketFallback s = true -> P2PService.socket s <> None.

(** The message object the input box builds. *)
Definition typedMessage (props : InputBox.Props) (s : InputBox.State) (now : Z)
  : MessageData :=
  {| userId := P2PService.storageLocal (InputBox.world s) !! "userId";
     nickname := Some (InputBox.props_nickname props);
     roomId := InputBox.props_roomId props;
     text := InputBox.messageText s;
     timestamp := Some now |}.

(** A string that is empty or starts with a code unit that is not white
    space. *)
Definition startsClean (s : string) : Prop :=
  match s with
  | EmptyString => True
  | String c _ => Js.isWhiteSpace c = false
  end.

(** The nickname stored in [chrome.storage.local] is absent or non-empty. *)
Definition nicknameNotEmpty (stored : gmap string string) : Prop :=
  match stored !! "nickname" with
  | Some n => Js.truthy n = true
  | None => True
  end.

(** The result of [joinRoom] is a success. *)
Definition isJoinOk (r : P2PService.JoinResult) : bool :=
  match r with
  | P2PService.JoinOk _ _ => true
  | P2PService.JoinErr _ => false
  end.

(** A safe integer: one the code's doubles hold and compute with exactly. *)
Definition safeInteger (z : Z) : Prop := (- 2 ^ 53 < z < 2 ^ 53)%Z.

(** The ids [saveMessage] answered with in the course of a run, in order. *)
Fixpoint issuedIds {purify : DOMPurify} (db : StorageService.Db) (ops : list StorageOp)
  : list N :=
  match ops with
  | [] => []
  | op :: ops' =>
      match op with
      | Save messageData now =>
          match snd (StorageService.saveMessage db messageData now) with
          | StorageService.SaveOk id => [id]
          | StorageService.SaveErr _ => []
          end
      | Clear _ _ => []
      end ++ issuedIds (storageStep db op) ops'
  end.
(* ===================================================================== *)
(** * Properties *)
(* ===================================================================== *)

(** ** The stable sort *)

Section SortFacts.
Context {A : Type} (key : A -> Z).

Let le (a b : A) : Prop := (key a <= key b)%Z.

Lemma insertBy_Permutation (x : A) (l : list A) :
  Permutation (Js.insertBy key x l) (x :: l).
Proof.
  induction l as [|y l IH]; simpl; [reflexivity|].
  destruct (key x <=? key y)%Z; [reflexivity|].
  rewrite IH. apply perm_swap.
Qed.

Lemma sortBy_Permutation (l : list A) : Permutation (Js.sortBy key l) l.
Proof.
  induction l as [|x l IH]; simpl; [reflexivity|].
  rewrite insertBy_Permutation. by constructor.
Qed.

Lemma insertBy_StronglySorted (x : A) (l : list A) :
  StronglySorted le l -> StronglySorted le (Js.insertBy key x l).
Proof.
  induction l as [|y l IH]; intros Hl; simpl.
  - repeat constructor.
  - apply StronglySorted_inv in Hl as [Hl Hy].
    destruct (key x <=? key y)%Z eqn:Hxy.
    + apply Z.leb_le in Hxy.
      constructor; [by constructor|].
      constructor; [exact Hxy|].
      eapply List.Forall_impl; [|exact Hy].
      intros z Hz; unfold le in *; simpl in *; lia.
    + apply Z.leb_gt in Hxy.
      constructor; [by apply IH|].
      rewrite (insertBy_Permutation x l).
      constructor; [unfold le; lia | exact Hy].
Qed.

Lemma sortBy_StronglySorted (l : list A) : StronglySorted le (Js.sortBy key l).
Proof.
  induction l as [|x l IH]; simpl; [constructor|].
  by apply insertBy_StronglySorted.
Qed.

(** Sorting an ascending list changes nothing. *)
Lemma sortBy_sorted_id (l : list A) : StronglySorted le l -> Js.sortBy key l = l.
Proof.
  induction l as [|x l IH]; intros Hl; simpl; [done|].
  apply StronglySorted_inv in Hl as [Hl Hx].
  rewrite (IH Hl). destruct l as [|y l']; simpl; [done|].
  apply Forall_inv in Hx. unfold le in Hx.
  by apply Z.leb_le in Hx as ->.
Qed.

Lemma filter_StronglySorted (R : A -> A -> Prop) (f : A -> bool) (l : list A) :
  StronglySorted R l -> StronglySorted R (List.filter f l).
Proof.
  induction 1 as [|x l Hl IH Hx]; simpl; [constructor|].
  destruct (f x); [|exact IH].
  constructor; [exact IH|].
  apply List.Forall_forall. intros y Hy. apply List.filter_In in Hy as [Hy _].
  revert y Hy. by apply List.Forall_forall.
Qed.

Lemma skipn_StronglySorted (R : A -> A -> Prop) (n : nat) (l : list A) :
  StronglySorted R l -> StronglySorted R (skipn n l).
Proof.
  intros Hl. rewrite <- (firstn_skipn n l) in Hl.
  by apply StronglySorted_app_1_r in Hl.
Qed.
End SortFacts.

(** ** Dexie queries *)

Lemma messages_roomId_indexed :
  Dexie.indexed StorageService.messagesSchema "roomId" = true.
Proof. reflexivity. Qed.

Lemma rooms_lastActive_not_indexed :
  Dexie.indexed StorageService.roomsSchema "lastActive" = false.
Proof. reflexivity. Qed.

Lemma rev_firstn_rev {A : Type} (n : nat) (l : list A) :
  rev (firstn n (rev l)) = skipn (length l - n) l.
Proof. by rewrite firstn_rev, rev_involutive. Qed.

Lemma getMessagesForRoom_open (db : StorageService.Db) (room : string) (limit : nat) :
  StorageService.isOpen db = true ->
  StorageService.getMessagesForRoom db room limit
  = skipn (length (roomMessages db room) - limit) (roomMessages db room).
Proof.
  intros Hopen.
  unfold StorageService.getMessagesForRoom, Dexie.whereEquals.
  rewrite Hopen. simpl. apply rev_firstn_rev.
Qed.

(** ** Reading a room *)

Example getMessagesForRoom_inOrder :
  map m_timestamp (StorageService.getMessagesForRoom Sample.inOrder "R" 3) = [3; 4; 5]%Z.
Proof. reflexivity. Qed.

Example getMessagesForRoom_closed (room : string) (limit : nat) :
  StorageService.getMessagesForRoom (StorageService.db0 false) room limit = [].
Proof. reflexivity. Qed.

(** X1: what the query computes: with the database open, the [limit] most
    recently stored messages of the room, in the order in which they were
    stored.  When the room's messages were stored in non-decreasing timestamp
    order, this is ascending timestamp order and no message left out is newer
    than a message returned. *)
Lemma getMessagesForRoom_latest_stored
    (db : StorageService.Db) (room : string) (limit : nat) :
  StorageService.isOpen db = true ->
  let stored := roomMessages db room in
  let result := StorageService.getMessagesForRoom db room limit in
  result = skipn (length stored - limit) stored
  /\ length result = Nat.min limit (length stored)
  /\ (StronglySorted byTimestamp stored ->
      StronglySorted byTimestamp result
      /\ forall older m,
           In older (firstn (length stored - limit) stored) -> In m result ->
           byTimestamp older m).
Proof.
  intros Hopen stored result.
  assert (Hres : result = skipn (length stored - limit) stored)
    by (by apply getMessagesForRoom_open).
  split; [exact Hres|]. split.
  - rewrite Hres, length_skipn. lia.
  - intros Hsorted. rewrite Hres. split.
    + by apply skipn_StronglySorted.
    + intros older m Ho Hm.
      rewrite <- (firstn_skipn (length stored - limit) stored) in Hsorted.
      eapply StronglySorted_app_1_elem_of; [exact Hsorted| |];
        by apply list_elem_of_In.
Qed.

Lemma getMessagesForRoom_latest_stored_witness :
  let stored := roomMessages Sample.inOrder "R" in
  let result := StorageService.getMessagesForRoom Sample.inOrder "R" 3 in
  result = skipn (length stored - 3) stored
  /\ length result = Nat.min 3 (length stored)
  /\ (StronglySorted byTimestamp stored ->
      StronglySorted byTimestamp result
      /\ forall older m,
           In older (firstn (length stored - 3) stored) -> In m result ->
           byTimestamp older m).
Proof. apply (getMessagesForRoom_latest_stored Sample.inOrder "R" 3). reflexivity. Defined.

(** C1: the claim is right and [getMessagesForRoom] misses it when messages
    are stored out of timestamp order.  The query walks the [roomId] index,
    which orders a room's messages by primary key; with the message written
    at t=5 stored before the one written at t=1, reading two messages returns
    [t=5, t=1], which is not the chronological order the function announces,
    and reading one returns t=1 although t=5 is the most recent. *)
Theorem getMessagesForRoom_not_by_timestamp :
  map m_timestamp (StorageService.getMessagesForRoom Sample.skewed "R" 2) = [5; 1]%Z
  /\ ~ StronglySorted byTimestamp (StorageService.getMessagesForRoom Sample.skewed "R" 2)
  /\ map m_timestamp (StorageService.getMessagesForRoom Sample.skewed "R" 1) = [1]%Z.
Proof.
  split; [reflexivity|]. split; [|reflexivity].
  intros H. cbv -[Z.le] in H.
  apply StronglySorted_inv in H as [_ H].
  apply Forall_inv in H. lia.
Qed.

(** ** Searching a room *)

Lemma searchMessages_open (F : Fuse) (db : StorageService.Db) (room query : string) :
  StorageService.isOpen db = true ->
  StorageService.searchMessages db room query
  = Js.sortBy m_timestamp
      (map item (fuseSearch StorageService.searchOptions (roomMessages db room) query)).
Proof.
  intros Hopen. unfold StorageService.searchMessages, Dexie.whereEquals.
  by rewrite Hopen.
Qed.

Lemma searchMessages_closed (F : Fuse) (db : StorageService.Db) (room query : string) :
  StorageService.isOpen db = false ->
  StorageService.searchMessages db room query = [].
Proof.
  intros Hclosed. unfold StorageService.searchMessages, Dexie.whereEquals.
  by rewrite Hclosed.
Qed.

Lemma roomMessages_In (db : StorageService.Db) (room : string) (m : StoredMessage) :
  In m (roomMessages db room) <->
  In m (Dexie.rows (StorageService.messages db)) /\ m_roomId m = Some room.
Proof.
  unfold roomMessages. rewrite List.filter_In.
  by rewrite bool_decide_eq_true.
Qed.

Lemma reference_hits_are_docs (query : string) (docs : list StoredMessage) (i : nat)
    (h : FuseResult) :
  In h (Reference.hits query i docs) -> In (item h) docs.
Proof.
  revert i. induction docs as [|m docs IH]; intros i; simpl; [done|].
  destruct (Reference.matches query m); simpl.
  - intros [<- | Hin]; [by left | right; by eapply IH].
  - intros Hin. right. by eapply IH.
Qed.

Lemma substringSearch_hits_are_docs : FuseHitsAreDocs Reference.substringSearch.
Proof.
  intros opts docs q h. unfold fuseSearch, Reference.substringSearch.
  destruct (Js.truthy q); [|done].
  intros Hin. eapply reference_hits_are_docs.
  eapply Permutation_in; [apply sortBy_Permutation | exact Hin].
Qed.

Lemma substringSearch_empty_pattern : FuseEmptyPattern Reference.substringSearch.
Proof. intros opts docs. reflexivity. Qed.

Example searchMessages_twoRooms :
  map m_text (StorageService.searchMessages (fuse := Reference.substringSearch)
                Sample.twoRooms "R" "hello")
  = ["hello world"; "hello there"]
  /\ StorageService.searchMessages (fuse := Reference.substringSearch)
       Sample.twoRooms "R" "" = [].
Proof. split; reflexivity. Qed.

(** C2: whatever the room and the query, [searchMessages] returns only
    stored messages of that room, selected by the Fuse search over [text] and
    [nickname] and put in ascending timestamp order whatever order the search
    ranked them in; and the empty query returns the empty list.  Fuse.js is
    taken with what the code relies on: hits are documents of the collection
    it was built from, and the empty pattern has no hit. *)
Theorem searchMessages_scoped_and_ordered
    (F : Fuse) (db : StorageService.Db) (room query : string) :
  FuseHitsAreDocs F ->
  FuseEmptyPattern F ->
  let result := StorageService.searchMessages db room query in
  (forall m, In m result ->
     m_roomId m = Some room /\ In m (Dexie.rows (StorageService.messages db)))
  /\ StronglySorted byTimestamp result
  /\ (StorageService.isOpen db = true ->
      Permutation result
        (map item (fuseSearch StorageService.searchOptions (roomMessages db room) query)))
  /\ keys StorageService.searchOptions = ["text"; "nickname"]
  /\ StorageService.searchMessages db room "" = [].
Proof.
  intros Hdocs Hempty result. subst result.
  destruct (StorageService.isOpen db) eqn:Hopen.
  - rewrite !searchMessages_open by done. repeat split.
    + apply Permutation_in with (l' := map item
        (fuseSearch StorageService.searchOptions (roomMessages db room) query)) in H;
        [|apply sortBy_Permutation].
      apply List.in_map_iff in H as (h & <- & Hh).
      apply Hdocs in Hh. by apply roomMessages_In in Hh as [_ ?].
    + apply Permutation_in with (l' := map item
        (fuseSearch StorageService.searchOptions (roomMessages db room) query)) in H;
        [|apply sortBy_Permutation].
      apply List.in_map_iff in H as (h & <- & Hh).
      apply Hdocs in Hh. by apply roomMessages_In in Hh as [? _].
    + apply (sortBy_StronglySorted m_timestamp).
    + intros _. apply sortBy_Permutation.
    + by rewrite Hempty.
  - rewrite !searchMessages_closed by done. repeat split; try done.
    constructor.
Qed.

Lemma searchMessages_scoped_and_ordered_witness :
  let result := StorageService.searchMessages (fuse := Reference.substringSearch)
                  Sample.twoRooms "R" "hello" in
  (forall m, In m result ->
     m_roomId m = Some "R"
     /\ In m (Dexie.rows (StorageService.messages Sample.twoRooms)))
  /\ StronglySorted byTimestamp result
  /\ (StorageService.isOpen Sample.twoRooms = true ->
      Permutation result
        (map item (fuseSearch (Fuse := Reference.substringSearch)
                     StorageService.searchOptions
                     (roomMessages Sample.twoRooms "R") "hello")))
  /\ keys StorageService.searchOptions = ["text"; "nickname"]
  /\ StorageService.searchMessages (fuse := Reference.substringSearch)
       Sample.twoRooms "R" "" = [].
Proof.
  apply (searchMessages_scoped_and_ordered Reference.substringSearch
           Sample.twoRooms "R" "hello").
  - exact substringSearch_hits_are_docs.
  - exact substringSearch_empty_pattern.
Defined.

(** ** The service: how each function changes the world *)

Section ServiceFacts.
Context {purify : DOMPurify}.

Lemma saveMessage_open (db : StorageService.Db) (d : MessageData) (now : Z) :
  StorageService.isOpen db = true ->
  StorageService.saveMessage db d now
  = ({| StorageService.isOpen := true;
        StorageService.messages :=
          {| Dexie.rows := Dexie.rows (StorageService.messages db)
                           ++ [recordOf (Dexie.keyGen (StorageService.messages db)) d now];
             Dexie.keyGen := N.succ (Dexie.keyGen (StorageService.messages db)) |};
        StorageService.rooms := StorageService.rooms db |},
     StorageService.SaveOk (Dexie.keyGen (StorageService.messages db))).
Proof.
  intros Hopen. unfold StorageService.saveMessage, Dexie.add.
  by rewrite Hopen.
Qed.

Lemma saveMessage_closed (db : StorageService.Db) (d : MessageData) (now : Z) :
  StorageService.isOpen db = false ->
  StorageService.saveMessage db d now
  = (db, StorageService.SaveErr Dexie.DatabaseClosedError).
Proof.
  intros Hclosed. unfold StorageService.saveMessage, Dexie.add.
  by rewrite Hclosed.
Qed.

Lemma fold_notify (d : MessageData) (callbacks : list nat) (w : P2PService.World) :
  fold_left (P2PService.notify d) callbacks w
  = {| P2PService.p2pService := P2PService.p2pService w;
       P2PService.db := P2PService.db w;
       P2PService.storageLocal := P2PService.storageLocal w;
       P2PService.effects :=
         P2PService.effects w ++ map (fun cb => P2PService.Callback cb d) callbacks |}.
Proof.
  revert w. induction callbacks as [|cb callbacks IH]; intros [s database m l]; simpl.
  - by rewrite app_nil_r.
  - rewrite IH. simpl. by rewrite <- app_assoc.
Qed.

Lemma fold_sendToOpen (d : MessageData) (conns : list P2PService.DataConnection)
    (w : P2PService.World) :
  fold_left (P2PService.sendToOpen d) conns w
  = {| P2PService.p2pService := P2PService.p2pService w;
       P2PService.db := P2PService.db w;
       P2PService.storageLocal := P2PService.storageLocal w;
       P2PService.effects :=
         P2PService.effects w
         ++ map (fun c => P2PService.ConnSend (P2PService.conn_peer c) d)
              (List.filter P2PService.conn_open conns) |}.
Proof.
  revert w. induction conns as [|c conns IH]; intros [s database m l]; simpl.
  - by rewrite app_nil_r.
  - rewrite IH. unfold P2PService.sendToOpen.
    destruct (P2PService.conn_open c); simpl; [|done].
    by rewrite <- app_assoc.
Qed.

Lemma handleIncomingMessage_unfold (w : P2PService.World) (d : MessageData) (now : Z) :
  P2PService.handleIncomingMessage w d now
  = {| P2PService.p2pService := P2PService.p2pService w;
       P2PService.db := fst (StorageService.saveMessage (P2PService.db w) d now);
       P2PService.storageLocal := P2PService.storageLocal w;
       P2PService.effects :=
         P2PService.effects w
         ++ map (fun cb => P2PService.Callback cb d)
              (P2PService.messageCallbacks (P2PService.p2pService w)) |}.
Proof. unfold P2PService.handleIncomingMessage. by rewrite fold_notify. Qed.

End ServiceFacts.

(** ** Storage order *)

Lemma KeyOrdered_db0 (opens : bool) : KeyOrdered (StorageService.db0 opens).
Proof. split; constructor. Qed.

Lemma saveMessage_KeyOrdered
    (purify : DOMPurify) (db : StorageService.Db) (d : MessageData) (now : Z) :
  KeyOrdered db -> KeyOrdered (fst (StorageService.saveMessage db d now)).
Proof.
  intros [Hsorted Hbelow]. destruct (StorageService.isOpen db) eqn:Hopen.
  - rewrite saveMessage_open by done. unfold KeyOrdered; simpl. split.
    + rewrite map_app. apply StronglySorted_app_2; [|exact Hsorted|repeat constructor].
      intros a b Ha Hb. apply list_elem_of_In in Ha, Hb.
      apply List.in_map_iff in Ha as (m & <- & Hm). destruct Hb as [<- | []].
      simpl. revert m Hm. by apply List.Forall_forall.
    + apply Forall_app. split.
      * eapply List.Forall_impl; [|exact Hbelow]. intros m Hm. simpl in Hm. lia.
      * repeat constructor. simpl. lia.
  - by rewrite saveMessage_closed.
Qed.

Lemma clearOldMessages_KeyOrdered
    (db : StorageService.Db) (days now : Z) :
  KeyOrdered db -> KeyOrdered (fst (StorageService.clearOldMessages db days now)).
Proof.
  intros [Hsorted Hbelow]. unfold StorageService.clearOldMessages, Dexie.deleteBelow.
  destruct (StorageService.isOpen db); simpl; [|by split].
  unfold KeyOrdered; simpl. split.
  - induction (Dexie.rows (StorageService.messages db)) as [|m l IH]; simpl; [constructor|].
    apply StronglySorted_inv in Hsorted as [Hl Hm]. apply Forall_cons in Hbelow as [_ Hb].
    destruct (negb _); simpl; [|by apply IH].
    constructor; [by apply IH|].
    apply List.Forall_forall. intros k Hk. apply List.in_map_iff in Hk as (x & <- & Hx).
    apply List.filter_In in Hx as [Hx _].
    revert Hm. rewrite List.Forall_forall. intros Hm. apply Hm. by apply List.in_map.
  - apply List.Forall_forall. intros m Hm. apply List.filter_In in Hm as [Hm _].
    revert m Hm. by apply List.Forall_forall.
Qed.

(** ** Receiving the same message twice *)

(** C3 (as amended): the incoming-message handler does not de-duplicate.
    Delivering the same wire message twice invokes every registered callback
    twice with it; and it stores two records, under consecutive keys and
    otherwise built from the same message, when the database is open, and
    none when it is not. *)
Theorem handleIncomingMessage_twice
    (purify : DOMPurify) (w : P2PService.World) (data : MessageData) (now1 now2 : Z) :
  let w2 := P2PService.handleIncomingMessage
              (P2PService.handleIncomingMessage w data now1) data now2 in
  let k := Dexie.keyGen (StorageService.messages (P2PService.db w)) in
  let calls := map (fun cb => P2PService.Callback cb data)
                 (P2PService.messageCallbacks (P2PService.p2pService w)) in
  Dexie.rows (StorageService.messages (P2PService.db w2))
  = Dexie.rows (StorageService.messages (P2PService.db w))
    ++ (if StorageService.isOpen (P2PService.db w)
        then [recordOf k data now1; recordOf (N.succ k) data now2]
        else [])
  /\ P2PService.effects w2 = P2PService.effects w ++ calls ++ calls.
Proof.
  intros w2 k calls. subst w2 k calls.
  rewrite !handleIncomingMessage_unfold.
  destruct w as [s [o msgs rms] m l]; simpl in *.
  unfold StorageService.saveMessage, Dexie.add; simpl.
  destruct o; simpl.
  - split; by rewrite <- app_assoc.
  - split; [by rewrite app_nil_r | by rewrite <- app_assoc].
Qed.

(** C3 (as stated) fails: after the same message is delivered twice to a
    service with one subscriber, the store holds two records with the
    message's key and the subscriber was notified twice, not once. *)
Lemma handleIncomingMessage_no_dedup :
  let w2 := P2PService.handleIncomingMessage (purify := Reference.dropScripts)
              (P2PService.handleIncomingMessage (purify := Reference.dropScripts)
                 Sample.subscribed Sample.markup 10)
              Sample.markup 11 in
  storedCopies Sample.markup (P2PService.db w2) = 2
  /\ notifications 7 Sample.markup (P2PService.effects w2) = 2
  /\ ~ (storedCopies Sample.markup (P2PService.db w2) = 1
        /\ notifications 7 Sample.markup (P2PService.effects w2) = 1).
Proof.
  assert (H1 : storedCopies Sample.markup
                 (P2PService.db
                    (P2PService.handleIncomingMessage (purify := Reference.dropScripts)
                       (P2PService.handleIncomingMessage (purify := Reference.dropScripts)
                          Sample.subscribed Sample.markup 10)
                       Sample.markup 11)) = 2) by (vm_compute; reflexivity).
  assert (H2 : notifications 7 Sample.markup
                 (P2PService.effects
                    (P2PService.handleIncomingMessage (purify := Reference.dropScripts)
                       (P2PService.handleIncomingMessage (purify := Reference.dropScripts)
                          Sample.subscribed Sample.markup 10)
                       Sample.markup 11)) = 2) by (vm_compute; reflexivity).
  cbv zeta. rewrite H1, H2. repeat split; try done. intros [? _]. lia.
Qed.

(** ** Sanitized text in the store *)

Section StoreInvariant.
Context {purify : DOMPurify}.

Lemma recordOf_text (id : N) (d : MessageData) (now : Z) :
  m_text (recordOf id d now) = sanitize (text d).
Proof. reflexivity. Qed.

Lemma SanitizedStore_db0 (opens : bool) : SanitizedStore (StorageService.db0 opens).
Proof. constructor. Qed.

Lemma saveMessage_SanitizedStore (db : StorageService.Db) (d : MessageData) (now : Z) :
  SanitizedStore db -> SanitizedStore (fst (StorageService.saveMessage db d now)).
Proof.
  intros Hdb. destruct (StorageService.isOpen db) eqn:Hopen.
  - rewrite saveMessage_open by done. unfold SanitizedStore; simpl.
    apply Forall_app. split; [exact Hdb|].
    constructor; [|constructor]. by exists (text d).
  - by rewrite saveMessage_closed.
Qed.

Lemma clearOldMessages_SanitizedStore (db : StorageService.Db) (days now : Z) :
  SanitizedStore db -> SanitizedStore (fst (StorageService.clearOldMessages db days now)).
Proof.
  intros Hdb. unfold StorageService.clearOldMessages, Dexie.deleteBelow.
  destruct (StorageService.isOpen db); simpl; [|exact Hdb].
  unfold SanitizedStore in *; simpl.
  apply List.Forall_forall. intros m Hm. apply List.filter_In in Hm as [Hm _].
  revert m Hm. by apply List.Forall_forall.
Qed.

Lemma sendMessage_db (w : P2PService.World) (d : MessageData) (now : Z) :
  P2PService.db (fst (P2PService.sendMessage w d now))
  = fst (StorageService.saveMessage (P2PService.db w) d now).
Proof.
  unfold P2PService.sendMessage. simpl.
  destruct (P2PService.useWebSocketFallback (P2PService.p2pService w)).
  - by destruct (P2PService.socket (P2PService.p2pService w)).
  - by rewrite fold_sendToOpen.
Qed.

Lemma initialize_db (w : P2PService.World) (video : string) (env : P2PService.InitEnv) :
  P2PService.db (fst (P2PService.initialize w video env)) = P2PService.db w.
Proof.
  unfold P2PService.initialize, P2PService.initializePeerJS,
    P2PService.initializeWebSocketFallback.
  destruct (Js.truthyProp _), (P2PService.peerOpens env); simpl; try done;
    destruct (P2PService.useWebSocketFallback _); simpl; try done;
    by destruct (P2PService.ioReturns env).
Qed.

Lemma joinRoom_db (w : P2PService.World) (room : string) :
  P2PService.db (fst (P2PService.joinRoom w room)) = P2PService.db w.
Proof.
  unfold P2PService.joinRoom. simpl.
  destruct (P2PService.useWebSocketFallback _); [|done].
  by destruct (P2PService.socket _).
Qed.

Lemma step_db (w : P2PService.World) (op : P2PService.Op) :
  P2PService.db (P2PService.step w op) = P2PService.db w
  \/ exists d now,
       P2PService.db (P2PService.step w op)
       = fst (StorageService.saveMessage (P2PService.db w) d now).
Proof.
  destruct op; simpl.
  - left. apply initialize_db.
  - right. eexists _, _. apply sendMessage_db.
  - left. apply joinRoom_db.
  - by left.
  - left. unfold P2PService.cleanup.
    by destruct (P2PService.peer _), (P2PService.socket _).
  - left. unfold P2PService.connectToPeer.
    destruct (P2PService.known _ _); [done|]. by destruct (P2PService.peer _).
  - left. destruct (P2PService.peer _) as [p|]; [|done].
    by destruct (P2PService.peer_listening p).
  - by left.
  - right. eexists _, _. by rewrite handleIncomingMessage_unfold.
  - by left.
  - by left.
  - left. by destruct (P2PService.socket _).
  - by left.
  - by left.
  - right. eexists _, _. by rewrite handleIncomingMessage_unfold.
  - by left.
Qed.

Lemma step_SanitizedStore (w : P2PService.World) (op : P2PService.Op) :
  SanitizedStore (P2PService.db w) -> SanitizedStore (P2PService.db (P2PService.step w op)).
Proof.
  intros Hw. destruct (step_db w op) as [-> | (d & now & ->)]; [done|].
  by apply saveMessage_SanitizedStore.
Qed.

Lemma run_SanitizedStore (ops : list P2PService.Op) (w : P2PService.World) :
  SanitizedStore (P2PService.db w) -> SanitizedStore (P2PService.db (P2PService.run w ops)).
Proof.
  revert w. induction ops as [|op ops IH]; intros w Hw; simpl; [done|].
  apply IH. by apply step_SanitizedStore.
Qed.

Lemma InputBox_sendMessage_db (props : InputBox.Props) (s : InputBox.State) (now later : Z) :
  P2PService.db (InputBox.world (InputBox.sendMessage props s now later))
  = P2PService.db (InputBox.world s)
  \/ exists d,
       text d = InputBox.messageText s
       /\ P2PService.db (InputBox.world (InputBox.sendMessage props s now later))
          = fst (StorageService.saveMessage (P2PService.db (InputBox.world s)) d later).
Proof.
  unfold InputBox.sendMessage.
  destruct (negb _); [by left|].
  right. eexists. split; [|].
  2:{ destruct (P2PService.sendMessage _ _ _) as [w' r] eqn:Hsend.
      assert (Hdb : P2PService.db w' = P2PService.db (fst (P2PService.sendMessage
        (InputBox.world s) _ later))) by (by rewrite Hsend).
      rewrite sendMessage_db in Hdb. destruct r; simpl; exact Hdb. }
  reflexivity.
Qed.

End StoreInvariant.

Lemma InputBox_sendMessage_shows
    (purify : DOMPurify) (props : InputBox.Props) (s : InputBox.State) (now later : Z) :
  InputBox.messages (InputBox.sendMessage props s now later) = InputBox.messages s
  \/ InputBox.messages (InputBox.sendMessage props s now later)
     = InputBox.messages s ++ [typedMessage props s now].
Proof.
  unfold InputBox.sendMessage.
  destruct (negb _); [by left|].
  fold (typedMessage props s now).
  destruct (P2PService.sendMessage _ _ _) as [w' []]; simpl; [by right | by left].
Qed.

(** C4 (as amended): every message's text is sanitized before it is stored,
    on the path of locally authored messages ([sendMessage], reached from the
    input box) and on the path of received messages
    ([handleIncomingMessage]): the record either of them stores carries
    [sanitize text], and no record of the message store ever carries a text
    that did not come out of the sanitizer, whatever calls and events the
    service goes through.  What is handed on for display is the message as it
    came: the callbacks are invoked with the received message object and the
    input box appends the message object it built, whose text is the text as
    typed. *)
Theorem stored_text_is_sanitized (purify : DOMPurify) :
  (forall opens stored ops,
     SanitizedStore
       (P2PService.db
          (P2PService.run (P2PService.world0 (StorageService.db0 opens) stored) ops)))
  /\ (forall w op,
        SanitizedStore (P2PService.db w) ->
        SanitizedStore (P2PService.db (P2PService.step w op)))
  /\ (forall props s now later,
        SanitizedStore (P2PService.db (InputBox.world s)) ->
        SanitizedStore
          (P2PService.db (InputBox.world (InputBox.sendMessage props s now later))))
  /\ (forall w d now,
        StorageService.isOpen (P2PService.db w) = true ->
        Dexie.rows (StorageService.messages
                      (P2PService.db (fst (P2PService.sendMessage w d now))))
        = Dexie.rows (StorageService.messages (P2PService.db w))
          ++ [recordOf (Dexie.keyGen (StorageService.messages (P2PService.db w))) d now])
  /\ (forall w d now,
        StorageService.isOpen (P2PService.db w) = true ->
        Dexie.rows (StorageService.messages
                      (P2PService.db (P2PService.handleIncomingMessage w d now)))
        = Dexie.rows (StorageService.messages (P2PService.db w))
          ++ [recordOf (Dexie.keyGen (StorageService.messages (P2PService.db w))) d now])
  /\ (forall id d now, m_text (recordOf id d now) = sanitize (text d))
  /\ (forall w d now,
        P2PService.effects (P2PService.handleIncomingMessage w d now)
        = P2PService.effects w
          ++ map (fun cb => P2PService.Callback cb d)
               (P2PService.messageCallbacks (P2PService.p2pService w)))
  /\ (forall props s now later,
        (InputBox.messages (InputBox.sendMessage props s now later) = InputBox.messages s
         \/ InputBox.messages (InputBox.sendMessage props s now later)
            = InputBox.messages s ++ [typedMessage props s now])
        /\ text (typedMessage props s now) = InputBox.messageText s).
Proof.
  split; [|split; [|split; [|split; [|split; [|split; [|split]]]]]].
  - intros opens stored ops. apply run_SanitizedStore, SanitizedStore_db0.
  - intros w op. apply step_SanitizedStore.
  - intros props s now later Hs.
    destruct (InputBox_sendMessage_db props s now later) as [-> | (d & _ & ->)]; [done|].
    by apply saveMessage_SanitizedStore.
  - intros w d now Hopen. rewrite sendMessage_db, saveMessage_open by done. reflexivity.
  - intros w d now Hopen. rewrite handleIncomingMessage_unfold. simpl.
    rewrite saveMessage_open by done. reflexivity.
  - reflexivity.
  - intros w d now. by rewrite handleIncomingMessage_unfold.
  - intros props s now later. split; [apply InputBox_sendMessage_shows | reflexivity].
Qed.

Lemma stored_text_is_sanitized_witness :
  SanitizedStore (purify := Reference.dropScripts)
    (P2PService.db
       (P2PService.step (purify := Reference.dropScripts) Sample.subscribed
          (P2PService.ConnData "p" Sample.scripted 10)))
  /\ map m_text
       (Dexie.rows (StorageService.messages
          (P2PService.db
             (fst (P2PService.sendMessage (purify := Reference.dropScripts)
                     Sample.lonely Sample.scripted 10)))))
     = ["hi"].
Proof.
  destruct (stored_text_is_sanitized Reference.dropScripts) as (_ & Hstep & _ & Hsend & _).
  split.
  - apply Hstep. constructor.
  - rewrite Hsend by reflexivity. reflexivity.
Defined.

(** C4 (as stated) fails for what is displayed.  A received message whose
    text is [hi<script>alert(1)</script>] is stored with the text [hi], which
    is what sanitizing makes of it, while the callback of the subscriber is
    invoked with the message as received, script element included; and the
    input box appends the same text as typed to the displayed list. *)
Lemma displayed_text_not_sanitized :
  P2PService.effects
    (P2PService.handleIncomingMessage (purify := Reference.dropScripts)
       Sample.subscribed Sample.scripted 10)
  = [P2PService.Callback 7 Sample.scripted]
  /\ text Sample.scripted = "hi<script>alert(1)</script>"
  /\ sanitize (DOMPurify := Reference.dropScripts) (text Sample.scripted) = "hi"
  /\ sanitize (DOMPurify := Reference.dropScripts) (text Sample.scripted)
     <> text Sample.scripted
  /\ map m_text
       (Dexie.rows (StorageService.messages
          (P2PService.db
             (P2PService.handleIncomingMessage (purify := Reference.dropScripts)
                Sample.subscribed Sample.scripted 10))))
     = ["hi"]
  /\ map text
       (InputBox.messages
          (InputBox.sendMessage (purify := Reference.dropScripts)
             {| InputBox.props_nickname := "Eve"; InputBox.props_roomId := Some "R" |}
             {| InputBox.world := Sample.lonely;
                InputBox.messageText := "hi<script>alert(1)</script>";
                InputBox.messages := [] |} 5 6))
     = ["hi<script>alert(1)</script>"].
Proof. repeat split; try reflexivity. discriminate. Qed.

(** ** Choosing the transport *)

Section Transport.
Context {purify : DOMPurify}.

Local Abbreviation onFallback w :=
  (P2PService.useWebSocketFallback (P2PService.p2pService w)).

Lemma relayAttempts_sends (d : MessageData) (conns : list P2PService.DataConnection) :
  relayAttempts (map (fun c => P2PService.ConnSend (P2PService.conn_peer c) d) conns) = 0.
Proof. by induction conns. Qed.

Lemma relayAttempts_callbacks (d : MessageData) (callbacks : list nat) :
  relayAttempts (map (fun cb => P2PService.Callback cb d) callbacks) = 0.
Proof. by induction callbacks. Qed.

Local Ltac frame :=
  rewrite <- ?app_assoc; simpl;
  first [ exists []; split; [by rewrite app_nil_r|]
        | eexists; split; [reflexivity|] ].

Local Ltac close_frame :=
  unfold relayBudget, relayAttempts, staysOnRelay; simpl;
  repeat split; intros; try done; try lia; repeat constructor.

Lemma initialize_effects (w : P2PService.World) (video : string)
    (env : P2PService.InitEnv) :
  exists new,
    P2PService.effects (fst (P2PService.initialize w video env))
    = P2PService.effects w ++ new
    /\ (onFallback w = true ->
        onFallback (fst (P2PService.initialize w video env)) = true
        /\ Forall staysOnRelay new)
    /\ relayAttempts new + relayBudget (fst (P2PService.initialize w video env))
       <= relayBudget w.
Proof.
  unfold P2PService.initialize, P2PService.initializePeerJS,
    P2PService.initializeWebSocketFallback.
  destruct (Js.truthyProp _), (P2PService.peerOpens env); simpl;
    destruct (onFallback w) eqn:Hf; simpl;
    try destruct (P2PService.ioReturns env); simpl;
    frame; unfold relayBudget; simpl; rewrite ?Hf; close_frame.
Qed.

Lemma step_effects (w : P2PService.World) (op : P2PService.Op) :
  exists new,
    P2PService.effects (P2PService.step w op) = P2PService.effects w ++ new
    /\ (onFallback w = true ->
        onFallback (P2PService.step w op) = true /\ Forall staysOnRelay new)
    /\ relayAttempts new + relayBudget (P2PService.step w op) <= relayBudget w.
Proof.
  destruct op; simpl.
  - apply initialize_effects.
  - unfold P2PService.sendMessage; simpl.
    destruct (onFallback w) eqn:Hf.
    + destruct (P2PService.socket _); simpl; frame;
        unfold relayBudget; simpl; rewrite ?Hf; close_frame.
    + rewrite fold_sendToOpen; simpl. frame.
      split; [intros; congruence|].
      rewrite relayAttempts_sends. unfold relayBudget; simpl. by rewrite Hf.
  - unfold P2PService.joinRoom; simpl.
    destruct (onFallback w) eqn:Hf; simpl.
    + destruct (P2PService.socket _); simpl; frame;
        unfold relayBudget; simpl; rewrite ?Hf; close_frame.
    + frame. unfold relayBudget; simpl; rewrite ?Hf; close_frame.
  - frame. close_frame.
  - unfold P2PService.cleanup.
    destruct (P2PService.peer _), (P2PService.socket _); simpl; frame;
      unfold relayBudget; simpl; destruct (onFallback w); close_frame.
  - unfold P2PService.connectToPeer.
    destruct (P2PService.known _ _); [frame; close_frame|].
    destruct (P2PService.peer _); simpl; frame;
      unfold relayBudget; simpl; destruct (onFallback w); close_frame.
  - destruct (P2PService.peer _) as [p|]; [|frame; close_frame].
    destruct (P2PService.peer_listening p); simpl; frame;
      unfold relayBudget; simpl; destruct (onFallback w); close_frame.
  - frame. close_frame.
  - rewrite handleIncomingMessage_unfold; simpl. frame.
    split; [intros Hf; split; [done|]|].
    + apply Forall_fmap, Forall_true. intros cb. by split.
    + rewrite relayAttempts_callbacks. unfold relayBudget; simpl. lia.
  - frame. close_frame.
  - frame. close_frame.
  - destruct (P2PService.socket _); simpl; frame;
      unfold relayBudget; simpl; destruct (onFallback w); close_frame.
  - frame. close_frame.
  - frame. close_frame.
  - rewrite handleIncomingMessage_unfold; simpl. frame.
    split; [intros Hf; split; [done|]|].
    + apply Forall_fmap, Forall_true. intros cb. by split.
    + rewrite relayAttempts_callbacks. unfold relayBudget; simpl. lia.
  - frame. close_frame.
Qed.

Lemma relayAttempts_app (l1 l2 : list P2PService.Effect) :
  relayAttempts (l1 ++ l2) = relayAttempts l1 + relayAttempts l2.
Proof. unfold relayAttempts. by rewrite List.filter_app, length_app. Qed.

Lemma run_effects (ops : list P2PService.Op) (w : P2PService.World) :
  exists new,
    P2PService.effects (P2PService.run w ops) = P2PService.effects w ++ new
    /\ (onFallback w = true ->
        onFallback (P2PService.run w ops) = true /\ Forall staysOnRelay new)
    /\ relayAttempts new + relayBudget (P2PService.run w ops) <= relayBudget w.
Proof.
  revert w. induction ops as [|op ops IH]; intros w; simpl.
  - exists []. rewrite app_nil_r. repeat split; done.
  - destruct (step_effects w op) as (new1 & E1 & F1 & B1).
    destruct (IH (P2PService.step w op)) as (new2 & E2 & F2 & B2).
    exists (new1 ++ new2). rewrite E2, E1, <- app_assoc. split; [done|]. split.
    + intros Hf. destruct (F1 Hf) as [Hf1 H1]. destruct (F2 Hf1) as [Hf2 H2].
      split; [done|]. by apply Forall_app.
    + rewrite relayAttempts_app. lia.
Qed.

End Transport.

Example fallback_then_reinitialize :
  let w := P2PService.run (purify := Reference.dropScripts) Sample.lonely
             [P2PService.Initialize "vid" Sample.meshDown;
              P2PService.Initialize "vid" Sample.meshUp;
              P2PService.PeerConnection
                {| P2PService.conn_peer := "p"; P2PService.conn_open := true |};
              P2PService.SendMessage Sample.markup 10] in
  P2PService.useWebSocketFallback (P2PService.p2pService w) = true
  /\ P2PService.effects w
     = [P2PService.NewPeer (Some "11111111-aaaa-4bbb-8ccc-000000000001");
        P2PService.Io (Some "11111111-aaaa-4bbb-8ccc-000000000001") (Some "yt-vid-22222222");
        P2PService.NewPeer (Some "11111111-aaaa-4bbb-8ccc-000000000001");
        P2PService.EmitChatMessage (Some "yt-vid-44444444") Sample.markup].
Proof. vm_compute. split; reflexivity. Qed.

(** C5: the transport is selected at most once per session.  When PeerJS
    fails in a session that has not fallen back, [initialize] sets the
    fallback flag and opens the relay at once, as its next effect.  No call
    and no event ever clears the flag; from then on the session performs no
    send over a mesh connection and opens the relay no further time; and in
    any run from the constructed service the relay is opened at most once. *)
Theorem transport_selected_once (purify : DOMPurify) :
  (forall w video env,
     P2PService.useWebSocketFallback (P2PService.p2pService w) = false ->
     P2PService.peerOpens env = false ->
     P2PService.useWebSocketFallback
       (P2PService.p2pService (fst (P2PService.initialize w video env))) = true
     /\ exists id room,
          P2PService.effects (fst (P2PService.initialize w video env))
          = P2PService.effects w ++ [P2PService.NewPeer id; P2PService.Io id room]
          /\ snd (P2PService.initialize w video env)
             = if P2PService.ioReturns env
               then P2PService.InitOk id room true
               else P2PService.InitErr)
  /\ (forall w op,
        P2PService.useWebSocketFallback (P2PService.p2pService w) = true ->
        P2PService.useWebSocketFallback
          (P2PService.p2pService (P2PService.step w op)) = true)
  /\ (forall w ops,
        P2PService.useWebSocketFallback (P2PService.p2pService w) = true ->
        P2PService.useWebSocketFallback
          (P2PService.p2pService (P2PService.run w ops)) = true
        /\ exists new,
             P2PService.effects (P2PService.run w ops) = P2PService.effects w ++ new
             /\ Forall staysOnRelay new)
  /\ (forall database stored ops,
        relayAttempts
          (P2PService.effects
             (P2PService.run (P2PService.world0 database stored) ops)) <= 1).
Proof.
  split; [|split; [|split]].
  - intros w video env Hf Hfail.
    unfold P2PService.initialize, P2PService.initializePeerJS,
      P2PService.initializeWebSocketFallback.
    rewrite Hfail.
    destruct (Js.truthyProp _); simpl; rewrite Hf; simpl;
      destruct (P2PService.ioReturns env); simpl;
      (split; [done|]); eexists _, _; rewrite <- app_assoc; split; reflexivity.
  - intros w op Hf. destruct (step_effects w op) as (new & _ & F & _).
    by destruct (F Hf).
  - intros w ops Hf. destruct (run_effects ops w) as (new & E & F & _).
    destruct (F Hf) as [Hf' Hnew]. split; [done|]. by exists new.
  - intros database stored ops.
    destruct (run_effects ops (P2PService.world0 database stored)) as (new & E & _ & B).
    rewrite E. simpl. unfold relayBudget in B. simpl in B.
    destruct (P2PService.useWebSocketFallback _); lia.
Qed.

Lemma transport_selected_once_witness :
  P2PService.useWebSocketFallback
    (P2PService.p2pService
       (fst (P2PService.initialize Sample.lonely "vid" Sample.meshDown))) = true
  /\ P2PService.useWebSocketFallback
       (P2PService.p2pService
          (P2PService.step (purify := Reference.dropScripts)
             (fst (P2PService.initialize Sample.lonely "vid" Sample.meshDown))
             (P2PService.Initialize "vid" Sample.meshUp))) = true.
Proof.
  destruct (transport_selected_once Reference.dropScripts) as (Hinit & Hstep & _).
  assert (H : P2PService.useWebSocketFallback
                (P2PService.p2pService
                   (fst (P2PService.initialize Sample.lonely "vid" Sample.meshDown))) = true).
  { apply (Hinit Sample.lonely "vid" Sample.meshDown); reflexivity. }
  split; [exact H|]. apply Hstep. exact H.
Defined.

(** ** Blank input *)

Lemma trimEnd_empty (s : string) :
  Js.trimEnd s = "" <-> Js.whitespaceOnly s = true.
Proof.
  induction s as [|c s IH]; simpl; [done|].
  destruct (Js.trimEnd s) eqn:Ht.
  - destruct (Js.isWhiteSpace c); simpl.
    + split; [intros _; by apply IH | done].
    + split; [discriminate | discriminate].
  - split; [discriminate|].
    intros H. apply andb_true_iff in H as [_ H]. apply IH in H. discriminate.
Qed.

Lemma whitespaceOnly_trimStart (s : string) :
  Js.whitespaceOnly (Js.trimStart s) = Js.whitespaceOnly s.
Proof.
  induction s as [|c s IH]; simpl; [done|].
  destruct (Js.isWhiteSpace c) eqn:Hc; simpl; [exact IH|].
  by rewrite Hc.
Qed.

(** [!s.trim()] holds exactly for the strings made of white space. *)
Lemma trim_falsy_iff (s : string) :
  Js.truthy (Js.trim s) = false <-> Js.whitespaceOnly s = true.
Proof.
  unfold Js.trim. rewrite <- whitespaceOnly_trimStart, <- trimEnd_empty.
  destruct (Js.trimEnd (Js.trimStart s)); simpl; split; done.
Qed.

Example tab_and_nbsp_are_blank :
  Js.whitespaceOnly (String (ascii_of_nat 9) (String (ascii_of_nat 160) " ")) = true.
Proof. reflexivity. Qed.

Example trim_keeps_inner_space : Js.trim "  hi  there  " = "hi  there".
Proof. reflexivity. Qed.

Example content_sendMessage_sends_trimmed :
  Content.sendMessage ∅
    {| Content.inputValue := " hi "; Content.messagesArea := [];
       Content.sentToBackground := [] |} 5
  = {| Content.inputValue := "";
       Content.messagesArea :=
         [Content.ChatMessage true
            {| userId := None; nickname := Some "Anonymous"; roomId := None;
               text := "hi"; timestamp := Some 5%Z |}];
       Content.sentToBackground :=
         [{| userId := None; nickname := Some "Anonymous"; roomId := None;
             text := "hi"; timestamp := Some 5%Z |}] |}.
Proof. reflexivity. Qed.

(** C6: for a text that is empty or made of white space only, both
    [sendMessage] entry points return at once and change nothing: the
    database, the effects on the transports, [chrome.storage.local], the
    displayed list and the input are what they were. *)
Theorem sendMessage_rejects_blank (purify : DOMPurify) (blank : string) :
  Js.whitespaceOnly blank = true ->
  (forall props w shown now later,
     InputBox.sendMessage props
       {| InputBox.world := w; InputBox.messageText := blank; InputBox.messages := shown |}
       now later
     = {| InputBox.world := w; InputBox.messageText := blank; InputBox.messages := shown |})
  /\ (forall stored area sent now,
        Content.sendMessage stored
          {| Content.inputValue := blank; Content.messagesArea := area;
             Content.sentToBackground := sent |} now
        = {| Content.inputValue := blank; Content.messagesArea := area;
             Content.sentToBackground := sent |}).
Proof.
  intros Hblank. apply trim_falsy_iff in Hblank. split.
  - intros props w shown now later. unfold InputBox.sendMessage; simpl.
    by rewrite Hblank.
  - intros stored area sent now. unfold Content.sendMessage; simpl.
    by rewrite Hblank.
Qed.

Lemma sendMessage_rejects_blank_witness :
  InputBox.sendMessage (purify := Reference.dropScripts)
    {| InputBox.props_nickname := "Eve"; InputBox.props_roomId := Some "R" |}
    {| InputBox.world := Sample.meshed; InputBox.messageText := "   ";
       InputBox.messages := [] |} 5 6
  = {| InputBox.world := Sample.meshed; InputBox.messageText := "   ";
       InputBox.messages := [] |}.
Proof.
  apply (sendMessage_rejects_blank Reference.dropScripts "   "). reflexivity.
Defined.

(** ** Sending with nobody to receive *)

Lemma filter_none_open (conns : list P2PService.DataConnection) :
  Forall (fun c => P2PService.conn_open c = false) conns ->
  List.filter P2PService.conn_open conns = [].
Proof.
  induction 1 as [|c conns Hc _ IH]; simpl; [done|]. by rewrite Hc.
Qed.

(** [Object.values] lists every connection once. *)
Lemma filter_split_Permutation {A : Type} (f : A -> bool) (l : list A) :
  Permutation (List.filter f l ++ List.filter (fun x => negb (f x)) l) l.
Proof.
  induction l as [|x l IH]; simpl; [reflexivity|].
  destruct (f x); simpl.
  - by constructor.
  - rewrite <- Permutation_middle. by constructor.
Qed.

Lemma values_Permutation (l : list P2PService.DataConnection) :
  Permutation (P2PService.values l) l.
Proof.
  unfold P2PService.values. rewrite sortBy_Permutation.
  apply filter_split_Permutation.
Qed.

Lemma values_Forall (P : P2PService.DataConnection -> Prop)
    (l : list P2PService.DataConnection) :
  Forall P l -> Forall P (P2PService.values l).
Proof. intros Hl. by rewrite values_Permutation. Qed.

(** C7 (as amended): on the mesh transport with no open connection,
    [sendMessage] saves the message, sends it to nobody and returns the plain
    success result.  With the database open the message is persisted,
    sanitized, as the last record.  The success result is the one every send
    on the mesh returns, whether or not a peer was reached; and the only
    results of the call, in any state, are success and the failure of a
    missing relay socket: no result signals partial delivery. *)
Theorem sendMessage_without_peers
    (purify : DOMPurify) (w : P2PService.World) (d : MessageData) (now : Z) :
  P2PService.useWebSocketFallback (P2PService.p2pService w) = false ->
  noOpenConnection (P2PService.p2pService w) ->
  P2PService.sendMessage w d now
  = (P2PService.withDb (fst (StorageService.saveMessage (P2PService.db w) d now)) w,
     P2PService.SendOk)
  /\ (StorageService.isOpen (P2PService.db w) = true ->
      Dexie.rows (StorageService.messages
                    (P2PService.db (fst (P2PService.sendMessage w d now))))
      = Dexie.rows (StorageService.messages (P2PService.db w))
        ++ [recordOf (Dexie.keyGen (StorageService.messages (P2PService.db w))) d now])
  /\ (forall reached : P2PService.World,
        P2PService.useWebSocketFallback (P2PService.p2pService reached) = false ->
        snd (P2PService.sendMessage reached d now)
        = snd (P2PService.sendMessage w d now))
  /\ (forall (any : P2PService.World) (d' : MessageData) (now' : Z),
        snd (P2PService.sendMessage any d' now') = P2PService.SendOk
        \/ snd (P2PService.sendMessage any d' now')
           = P2PService.SendErr P2PService.SocketIsNull).
Proof.
  intros Hmesh Hnone.
  assert (Hrun : P2PService.sendMessage w d now
                 = (P2PService.withDb
                      (fst (StorageService.saveMessage (P2PService.db w) d now)) w,
                    P2PService.SendOk)).
  { unfold P2PService.sendMessage. simpl. rewrite Hmesh.
    rewrite fold_sendToOpen, filter_none_open by (by apply values_Forall).
    simpl. rewrite app_nil_r. reflexivity. }
  split; [exact Hrun|]. split; [|split].
  - intros Hopen. rewrite sendMessage_db, saveMessage_open by done. reflexivity.
  - intros reached Hreached. rewrite Hrun. simpl.
    unfold P2PService.sendMessage. simpl. by rewrite Hreached.
  - intros any d' now'. unfold P2PService.sendMessage. simpl.
    destruct (P2PService.useWebSocketFallback (P2PService.p2pService any));
      [|by left].
    destruct (P2PService.socket (P2PService.p2pService any)); [by left | by right].
Qed.

Lemma sendMessage_without_peers_witness :
  P2PService.sendMessage (purify := Reference.dropScripts) Sample.lonely Sample.markup 10
  = (P2PService.withDb
       (fst (StorageService.saveMessage (purify := Reference.dropScripts)
               (P2PService.db Sample.lonely) Sample.markup 10))
       Sample.lonely,
     P2PService.SendOk)
  /\ snd (P2PService.sendMessage (purify := Reference.dropScripts)
            Sample.meshed Sample.markup 10)
     = snd (P2PService.sendMessage (purify := Reference.dropScripts)
              Sample.lonely Sample.markup 10).
Proof.
  destruct (sendMessage_without_peers Reference.dropScripts Sample.lonely
              Sample.markup 10) as (H1 & _ & H3 & _).
  - reflexivity.
  - constructor.
  - split; [exact H1|]. apply H3. reflexivity.
Defined.

(** C7 (as stated) fails: the mesh send looks at [open] on every connection,
    yet a send that reached nobody returns the very result of a send that
    reached a peer, [{ success: true }]; nothing signals partial delivery. *)
Lemma sendMessage_no_partial_delivery_signal :
  P2PService.effects
    (fst (P2PService.sendMessage (purify := Reference.dropScripts)
            Sample.lonely Sample.markup 10)) = []
  /\ P2PService.effects
       (fst (P2PService.sendMessage (purify := Reference.dropScripts)
               Sample.meshed Sample.markup 10))
     = [P2PService.ConnSend "p" Sample.markup]
  /\ snd (P2PService.sendMessage (purify := Reference.dropScripts)
            Sample.lonely Sample.markup 10) = P2PService.SendOk
  /\ snd (P2PService.sendMessage (purify := Reference.dropScripts)
            Sample.lonely Sample.markup 10)
     = snd (P2PService.sendMessage (purify := Reference.dropScripts)
              Sample.meshed Sample.markup 10).
Proof. repeat split; reflexivity. Qed.

(** ** Identity *)

Lemma initialize_identity (w : P2PService.World) (video : string)
    (env : P2PService.InitEnv) :
  let id := Js.orString (P2PService.storageLocal w !! "peerId") (P2PService.uuidPeer env) in
  P2PService.peerId (P2PService.p2pService (fst (P2PService.initialize w video env)))
  = Some id
  /\ P2PService.storageLocal (fst (P2PService.initialize w video env))
     = (if Js.truthyProp (P2PService.storageLocal w !! "peerId")
        then P2PService.storageLocal w
        else <["peerId" := id]> (P2PService.storageLocal w))
  /\ forall p r f,
       snd (P2PService.initialize w video env) = P2PService.InitOk p r f -> p = Some id.
Proof.
  unfold P2PService.initialize, P2PService.initializePeerJS,
    P2PService.initializeWebSocketFallback.
  destruct (Js.truthyProp _), (P2PService.peerOpens env); simpl;
    try (destruct (P2PService.useWebSocketFallback _); simpl);
    try (destruct (P2PService.ioReturns env); simpl);
    repeat split; intros; congruence.
Qed.

Lemma orString_truthy (o : option string) (d : string) :
  Js.truthy d = true -> Js.truthy (Js.orString o d) = true.
Proof.
  intros Hd. destruct o as [s|]; simpl; [|done].
  by destruct (Js.truthy s) eqn:Hs.
Qed.

Lemma orString_stored (s d : string) :
  Js.truthy s = true -> Js.orString (Some s) d = s.
Proof. intros Hs. simpl. by rewrite Hs. Qed.

(** After [initialize], a truthy peer id is stored and it is the service's. *)
Lemma initialize_stores_identity (w : P2PService.World) (video : string)
    (env : P2PService.InitEnv) :
  Js.truthy (P2PService.uuidPeer env) = true ->
  exists id,
    Js.truthy id = true
    /\ P2PService.storageLocal (fst (P2PService.initialize w video env)) !! "peerId"
       = Some id
    /\ P2PService.peerId (P2PService.p2pService (fst (P2PService.initialize w video env)))
       = Some id.
Proof.
  intros Hu. destruct (initialize_identity w video env) as (Hid & Hst & _).
  exists (Js.orString (P2PService.storageLocal w !! "peerId") (P2PService.uuidPeer env)).
  split; [by apply orString_truthy|]. split; [|exact Hid].
  rewrite Hst. destruct (P2PService.storageLocal w !! "peerId") as [s|] eqn:Hs; simpl.
  - destruct (Js.truthy s) eqn:Ht; [by rewrite Hs|]. by rewrite lookup_insert_eq.
  - by rewrite lookup_insert_eq.
Qed.

Lemma initialize_result (w : P2PService.World) (video : string)
    (env : P2PService.InitEnv) :
  P2PService.peerOpens env = true ->
  exists room,
    snd (P2PService.initialize w video env)
    = P2PService.InitOk
        (Some (Js.orString (P2PService.storageLocal w !! "peerId")
                 (P2PService.uuidPeer env)))
        room false.
Proof.
  intros Hopens. unfold P2PService.initialize, P2PService.initializePeerJS.
  rewrite Hopens. destruct (Js.truthyProp _); simpl; by eexists.
Qed.

(** C8: creating the identity is idempotent.  [initialize] leaves a
    non-empty peer id in [chrome.storage.local] and in the service, the
    stored one if there was one and a fresh UUID otherwise, and answers with
    it when it succeeds (as it does when PeerJS opens); a second call ends
    with the same id, stores nothing and answers with that id again.  The
    install listener does the same for the user id.  Once a non-empty id is
    stored, a call returns it and stores nothing.  The ids [uuidv4] draws are
    non-empty strings. *)
Theorem identity_is_idempotent
    (w : P2PService.World) (video1 video2 : string) (env1 env2 : P2PService.InitEnv)
    (stored : gmap string string) (uuid1 uuid2 : string) :
  Js.truthy (P2PService.uuidPeer env1) = true ->
  Js.truthy uuid1 = true ->
  let w1 := fst (P2PService.initialize w video1 env1) in
  let w2 := fst (P2PService.initialize w1 video2 env2) in
  (exists id,
     Js.truthy id = true
     /\ id = Js.orString (P2PService.storageLocal w !! "peerId") (P2PService.uuidPeer env1)
     /\ P2PService.peerId (P2PService.p2pService w1) = Some id
     /\ P2PService.storageLocal w1 !! "peerId" = Some id
     /\ P2PService.peerId (P2PService.p2pService w2) = Some id
     /\ P2PService.storageLocal w2 !! "peerId" = Some id
     /\ P2PService.storageLocal w2 = P2PService.storageLocal w1
     /\ (forall p r f,
           snd (P2PService.initialize w video1 env1) = P2PService.InitOk p r f ->
           p = Some id)
     /\ (forall p r f,
           snd (P2PService.initialize w1 video2 env2) = P2PService.InitOk p r f ->
           p = Some id)
     /\ (P2PService.peerOpens env1 = true ->
         exists room,
           snd (P2PService.initialize w video1 env1)
           = P2PService.InitOk (Some id) room false)
     /\ (P2PService.peerOpens env2 = true ->
         exists room,
           snd (P2PService.initialize w1 video2 env2)
           = P2PService.InitOk (Some id) room false)
     /\ (forall known,
           P2PService.storageLocal w !! "peerId" = Some known -> Js.truthy known = true ->
           id = known /\ P2PService.storageLocal w1 = P2PService.storageLocal w))
  /\ (exists id,
        Js.truthy id = true
        /\ id = Js.orString (stored !! "userId") uuid1
        /\ Background.onInstalled stored uuid1 !! "userId" = Some id
        /\ Background.onInstalled (Background.onInstalled stored uuid1) uuid2 !! "userId"
           = Some id
        /\ Background.onInstalled (Background.onInstalled stored uuid1) uuid2
           = Background.onInstalled stored uuid1
        /\ (forall known,
              stored !! "userId" = Some known -> Js.truthy known = true ->
              id = known /\ Background.onInstalled stored uuid1 = stored)).
Proof.
  intros Hu Hu1 w1 w2. split.
  - destruct (initialize_stores_identity w video1 env1 Hu) as (id & Hid & Hst & Hp).
    destruct (initialize_identity w video1 env1) as (Hq & Hqs & Hqr).
    fold w1 in Hst, Hp, Hq, Hqs.
    assert (Eid : id = Js.orString (P2PService.storageLocal w !! "peerId")
                         (P2PService.uuidPeer env1)) by congruence.
    destruct (initialize_identity w1 video2 env2) as (Hp2 & Hst2 & Hres2).
    fold w2 in Hp2, Hst2. rewrite Hst in Hp2, Hst2, Hres2. simpl in Hst2.
    rewrite Hid in Hst2. rewrite orString_stored in Hp2, Hres2 by done.
    exists id.
    split; [exact Hid|]. split; [exact Eid|]. split; [exact Hp|].
    split; [exact Hst|]. split; [exact Hp2|].
    split; [by rewrite Hst2|]. split; [exact Hst2|].
    split; [intros p r f Hr; rewrite Eid; by eapply Hqr|].
    split; [exact Hres2|].
    split.
    { intros Hopens. rewrite Eid. by apply initialize_result. }
    split.
    { intros Hopens. destruct (initialize_result w1 video2 env2 Hopens) as (room & Hr).
      exists room. rewrite Hr. rewrite Hst. by rewrite orString_stored. }
    intros known Hknown Htruthy. split.
    + rewrite Eid, Hknown. by apply orString_stored.
    + rewrite Hqs, Hknown. simpl. by rewrite Htruthy.
  - exists (Js.orString (stored !! "userId") uuid1).
    split; [by apply orString_truthy|]. split; [done|].
    unfold Background.onInstalled.
    destruct (stored !! "userId") as [s|] eqn:Hs; simpl.
    + destruct (Js.truthy s) eqn:Ht; simpl.
      * rewrite Hs; simpl; rewrite Ht; simpl. rewrite Hs.
        split; [done|]. split; [done|]. split; [done|].
        intros known [= <-] _. done.
      * rewrite lookup_insert_eq; simpl; rewrite Hu1; simpl.
        rewrite lookup_insert_eq.
        split; [done|]. split; [done|]. split; [done|].
        intros known [= <-] Hk. congruence.
    + rewrite lookup_insert_eq; simpl; rewrite Hu1; simpl.
      rewrite lookup_insert_eq.
      split; [done|]. split; [done|]. split; [done|].
      intros known Hk. discriminate.
Qed.

Lemma identity_is_idempotent_witness :
  P2PService.peerId
    (P2PService.p2pService
       (fst (P2PService.initialize
               (fst (P2PService.initialize Sample.lonely "vid" Sample.meshDown))
               "other" Sample.meshUp)))
  = Some "11111111-aaaa-4bbb-8ccc-000000000001"
  /\ Background.onInstalled (Background.onInstalled ∅ "55555555-aaaa") "66666666-bbbb"
     !! "userId" = Some "55555555-aaaa".
Proof.
  destruct (identity_is_idempotent Sample.lonely "vid" "other"
              Sample.meshDown Sample.meshUp ∅ "55555555-aaaa" "66666666-bbbb")
    as [(id & _ & Eid & _ & _ & H & _) (id' & _ & Eid' & _ & H' & _)];
    [reflexivity | reflexivity |].
  split.
  - rewrite H, Eid. reflexivity.
  - rewrite H', Eid'. reflexivity.
Defined.

(** ** Listing the rooms *)

(** [getRooms] orders by [lastActive], which the declaration of [rooms] does
    not index: the query is rejected and the handler returns the empty
    list. *)
Lemma getRooms_rejected (db : StorageService.Db) : StorageService.getRooms db = [].
Proof.
  unfold StorageService.getRooms, Dexie.orderBy.
  rewrite rooms_lastActive_not_indexed. by destruct (StorageService.isOpen db).
Qed.

(** With the index declared, the same query returns the stored rooms by
    descending [lastActive]. *)
Lemma orderBy_lastActive_declared (db : StorageService.Db) :
  StorageService.isOpen db = true ->
  exists l,
    Dexie.reverse
      (Dexie.orderBy (StorageService.isOpen db) roomsSchemaWithLastActive
         (StorageService.rooms db) "lastActive" r_lastActive)
    = Dexie.Resolved l
    /\ Permutation l (Dexie.rows (StorageService.rooms db))
    /\ StronglySorted byLastActiveDesc l.
Proof.
  intros Hopen. unfold Dexie.orderBy. rewrite Hopen. simpl.
  eexists. split; [reflexivity|]. split.
  - rewrite <- Permutation_rev. apply sortBy_Permutation.
  - pose proof (sortBy_StronglySorted r_lastActive (Dexie.rows (StorageService.rooms db)))
      as Hs.
    induction Hs as [|x l Hl IH Hx]; simpl; [constructor|].
    apply StronglySorted_app_2; [| exact IH | repeat constructor].
    intros a b Ha Hb. apply list_elem_of_In, in_rev in Ha.
    apply list_elem_of_In in Hb. destruct Hb as [<- | []].
    revert a Ha. by apply List.Forall_forall.
Qed.

(** C9: the claim is right and [getRooms] misses it.  After one room was
    saved into an open database the room is stored, and [getRooms] returns
    the empty list instead of the stored rooms. *)
Theorem getRooms_loses_stored_rooms :
  map r_id (Dexie.rows (StorageService.rooms Sample.oneRoom)) = ["yt-vid-22222222"]
  /\ map r_lastActive (Dexie.rows (StorageService.rooms Sample.oneRoom)) = [1000%Z]
  /\ StorageService.getRooms Sample.oneRoom = [].
Proof. repeat split; reflexivity. Qed.

(** ** Joining a room *)

(** The one failing path of [joinRoom], a session on the relay whose socket
    was never created, fails for every room alike and still installs the
    room. *)
Lemma joinRoom_failure_ignores_room (w : P2PService.World) (room : string) :
  P2PService.useWebSocketFallback (P2PService.p2pService w) = true ->
  P2PService.socket (P2PService.p2pService w) = None ->
  snd (P2PService.joinRoom w room) = P2PService.JoinErr P2PService.SocketIsNull
  /\ P2PService.roomId (P2PService.p2pService (fst (P2PService.joinRoom w room)))
     = Some room.
Proof.
  intros Hf Hs. unfold P2PService.joinRoom. simpl. by rewrite Hf, Hs.
Qed.

Example joinRoom_unknown_room :
  snd (P2PService.joinRoom Sample.lonely "no such room")
  = P2PService.JoinOk "no such room" [].
Proof. reflexivity. Qed.

(** C10 (as amended): [joinRoom] validates nothing.  For every string it
    installs that string as the active room and leaves the database as it is,
    and whether it succeeds does not depend on the string.  On the mesh, and
    on the relay once its socket exists, it returns the success result
    carrying that room id and the messages stored for it, none when the
    database fails (a storage exception is not a failure path); on the relay
    without a socket it returns failure for every room id. *)
Theorem joinRoom_accepts_any_room (w : P2PService.World) (room : string) :
  P2PService.roomId (P2PService.p2pService (fst (P2PService.joinRoom w room))) = Some room
  /\ P2PService.db (fst (P2PService.joinRoom w room)) = P2PService.db w
  /\ (forall other,
        isJoinOk (snd (P2PService.joinRoom w other))
        = isJoinOk (snd (P2PService.joinRoom w room)))
  /\ (canSend (P2PService.p2pService w) ->
      snd (P2PService.joinRoom w room)
      = P2PService.JoinOk room
          (StorageService.getMessagesForRoom (P2PService.db w) room 50)
      /\ (StorageService.isOpen (P2PService.db w) = false ->
          snd (P2PService.joinRoom w room) = P2PService.JoinOk room []))
  /\ (P2PService.useWebSocketFallback (P2PService.p2pService w) = true ->
      P2PService.socket (P2PService.p2pService w) = None ->
      snd (P2PService.joinRoom w room) = P2PService.JoinErr P2PService.SocketIsNull).
Proof.
  unfold canSend, P2PService.joinRoom. simpl.
  destruct (P2PService.useWebSocketFallback (P2PService.p2pService w)) eqn:Hf; simpl.
  - destruct (P2PService.socket (P2PService.p2pService w)) eqn:Hs; simpl.
    + repeat split; try done.
      intros Hclosed. unfold StorageService.getMessagesForRoom, Dexie.whereEquals.
      by rewrite Hclosed.
    + split; [done|]. split; [done|]. split; [done|]. split; [|done].
      intros Hcan. by destruct (Hcan eq_refl).
  - repeat split; try done.
    intros Hclosed. unfold StorageService.getMessagesForRoom, Dexie.whereEquals.
    by rewrite Hclosed.
Qed.

Lemma joinRoom_accepts_any_room_witness :
  snd (P2PService.joinRoom Sample.relayed "<not a room id>")
  = P2PService.JoinOk "<not a room id>"
      (StorageService.getMessagesForRoom (P2PService.db Sample.relayed)
         "<not a room id>" 50)
  /\ snd (P2PService.joinRoom Sample.relayDown "<not a room id>")
     = P2PService.JoinErr P2PService.SocketIsNull.
Proof.
  destruct (joinRoom_accepts_any_room Sample.relayed "<not a room id>")
    as (_ & _ & _ & Hok & _).
  destruct (joinRoom_accepts_any_room Sample.relayDown "<not a room id>")
    as (_ & _ & _ & _ & Herr).
  destruct Hok as [Hok _]; [intros _; discriminate|].
  split; [exact Hok|]. apply Herr; reflexivity.
Defined.

(** C10 (as stated) fails: a session that fell back to the relay while [io]
    threw has the flag set and no socket, and there [joinRoom] returns
    failure, even for the room the session itself made; a storage failure, on
    the contrary, is no failure path: with the database closed the call
    succeeds with no messages. *)
Lemma joinRoom_fails_without_socket :
  P2PService.roomId (P2PService.p2pService Sample.relayDown) = Some "yt-vid-88888888"
  /\ snd (P2PService.joinRoom Sample.relayDown "yt-vid-88888888")
     = P2PService.JoinErr P2PService.SocketIsNull
  /\ snd (P2PService.joinRoom Sample.closedWorld "yt-vid-88888888")
     = P2PService.JoinOk "yt-vid-88888888" [].
Proof. repeat split; reflexivity. Qed.

(* ===================================================================== *)
(** * Further properties of the storage service *)
(* ===================================================================== *)

Lemma roomMessages_saved_same_room
    (purify : DOMPurify) (db : StorageService.Db) (d : MessageData) (now : Z)
    (room : string) :
  StorageService.isOpen db = true ->
  roomId d = Some room ->
  roomMessages (fst (StorageService.saveMessage db d now)) room
  = roomMessages db room
    ++ [recordOf (Dexie.keyGen (StorageService.messages db)) d now].
Proof.
  intros Hopen Hroom. rewrite saveMessage_open by done.
  unfold roomMessages; simpl. rewrite List.filter_app. simpl.
  by rewrite bool_decide_eq_true_2.
Qed.

Lemma roomMessages_saved_other_room
    (purify : DOMPurify) (db : StorageService.Db) (d : MessageData) (now : Z)
    (room : string) :
  roomId d <> Some room ->
  roomMessages (fst (StorageService.saveMessage db d now)) room = roomMessages db room.
Proof.
  intros Hroom. destruct (StorageService.isOpen db) eqn:Hopen.
  - rewrite saveMessage_open by done.
    unfold roomMessages; simpl. rewrite List.filter_app. simpl.
    rewrite bool_decide_eq_false_2 by done. by rewrite app_nil_r.
  - by rewrite saveMessage_closed.
Qed.

Lemma saveMessage_isOpen
    (purify : DOMPurify) (db : StorageService.Db) (d : MessageData) (now : Z) :
  StorageService.isOpen (fst (StorageService.saveMessage db d now))
  = StorageService.isOpen db.
Proof.
  destruct (StorageService.isOpen db) eqn:Hopen.
  - by rewrite saveMessage_open.
  - by rewrite saveMessage_closed.
Qed.

(** What a read depends on: whether the database is open and the rows of the
    room. *)
Lemma getMessagesForRoom_ext (db1 db2 : StorageService.Db) (room : string) (limit : nat) :
  StorageService.isOpen db1 = StorageService.isOpen db2 ->
  roomMessages db1 room = roomMessages db2 room ->
  StorageService.getMessagesForRoom db1 room limit
  = StorageService.getMessagesForRoom db2 room limit.
Proof.
  intros Ho Hr. unfold StorageService.getMessagesForRoom, Dexie.whereEquals.
  rewrite Ho. destruct (StorageService.isOpen db2); simpl; [|done].
  unfold roomMessages in Hr. by rewrite Hr.
Qed.

(** X2: a message saved into an open database is read back.  Reading
    [limit >= 1] messages of its room right after returns what reading
    [limit - 1] returned before, followed by the new record, whose key is the
    id [saveMessage] answered with. *)
Theorem saved_message_is_read_back
    (purify : DOMPurify) (db : StorageService.Db) (d : MessageData) (now : Z)
    (room : string) (limit : nat) :
  StorageService.isOpen db = true ->
  roomId d = Some room ->
  0 < limit ->
  snd (StorageService.saveMessage db d now)
  = StorageService.SaveOk (Dexie.keyGen (StorageService.messages db))
  /\ StorageService.getMessagesForRoom (fst (StorageService.saveMessage db d now)) room limit
     = StorageService.getMessagesForRoom db room (limit - 1)
       ++ [recordOf (Dexie.keyGen (StorageService.messages db)) d now].
Proof.
  intros Hopen Hroom Hlimit. split; [by rewrite saveMessage_open|].
  rewrite !getMessagesForRoom_open by (by rewrite ?saveMessage_isOpen).
  rewrite roomMessages_saved_same_room by done.
  rewrite length_app. simpl.
  set (l := roomMessages db room).
  rewrite skipn_app.
  replace (length l + 1 - limit) with (length l - (limit - 1)) by lia.
  replace (length l - (limit - 1) - length l) with 0 by lia.
  reflexivity.
Qed.

Lemma saved_message_is_read_back_witness :
  snd (StorageService.saveMessage (purify := Reference.dropScripts)
         Sample.inOrder Sample.markup 10)
  = StorageService.SaveOk (Dexie.keyGen (StorageService.messages Sample.inOrder))
  /\ StorageService.getMessagesForRoom
       (fst (StorageService.saveMessage (purify := Reference.dropScripts)
               Sample.inOrder Sample.markup 10)) "R" 3
     = StorageService.getMessagesForRoom Sample.inOrder "R" (3 - 1)
       ++ [recordOf (purify := Reference.dropScripts)
             (Dexie.keyGen (StorageService.messages Sample.inOrder)) Sample.markup 10].
Proof.
  apply (saved_message_is_read_back Reference.dropScripts Sample.inOrder Sample.markup 10
           "R" 3); [reflexivity | reflexivity | lia].
Defined.

(** X3: saving a message changes no other room: what [getMessagesForRoom]
    and [searchMessages] return for a room the message does not belong to is
    what they returned before, whether or not the save succeeded. *)
Theorem saveMessage_leaves_other_rooms
    (purify : DOMPurify) (F : Fuse) (db : StorageService.Db) (d : MessageData) (now : Z)
    (room query : string) (limit : nat) :
  roomId d <> Some room ->
  StorageService.getMessagesForRoom (fst (StorageService.saveMessage db d now)) room limit
  = StorageService.getMessagesForRoom db room limit
  /\ StorageService.searchMessages (fst (StorageService.saveMessage db d now)) room query
     = StorageService.searchMessages db room query.
Proof.
  intros Hroom. split.
  - apply getMessagesForRoom_ext; [apply saveMessage_isOpen|].
    by apply roomMessages_saved_other_room.
  - destruct (StorageService.isOpen db) eqn:Hopen.
    + rewrite !searchMessages_open by (by rewrite ?saveMessage_isOpen).
      by rewrite roomMessages_saved_other_room.
    + by rewrite saveMessage_closed.
Qed.

Lemma saveMessage_leaves_other_rooms_witness :
  StorageService.getMessagesForRoom
    (fst (StorageService.saveMessage (purify := Reference.dropScripts)
            Sample.twoRooms Sample.markup 10)) "S" 50
  = StorageService.getMessagesForRoom Sample.twoRooms "S" 50
  /\ StorageService.searchMessages (fuse := Reference.substringSearch)
       (fst (StorageService.saveMessage (purify := Reference.dropScripts)
               Sample.twoRooms Sample.markup 10)) "S" "hello"
     = StorageService.searchMessages (fuse := Reference.substringSearch)
         Sample.twoRooms "S" "hello".
Proof.
  apply (saveMessage_leaves_other_rooms Reference.dropScripts Reference.substringSearch
           Sample.twoRooms Sample.markup 10 "S" "hello" 50).
  discriminate.
Defined.

Lemma StronglySorted_lt_NoDup (l : list N) : StronglySorted N.lt l -> NoDup l.
Proof.
  induction 1 as [|x l Hl IH Hx]; constructor; [|exact IH].
  intros Hin. apply list_elem_of_In in Hin.
  revert Hx. rewrite List.Forall_forall. intros Hx. specialize (Hx x Hin). lia.
Qed.

Lemma storageRun_KeyOrdered
    (purify : DOMPurify) (ops : list StorageOp) (db : StorageService.Db) :
  KeyOrdered db -> KeyOrdered (storageRun db ops).
Proof.
  revert db. induction ops as [|op ops IH]; intros db Hdb; simpl; [done|].
  apply IH. destruct op; simpl.
  - by apply saveMessage_KeyOrdered.
  - by apply clearOldMessages_KeyOrdered.
Qed.

Lemma clearOldMessages_rows (db : StorageService.Db) (days now : Z) :
  Dexie.keyGen (StorageService.messages (fst (StorageService.clearOldMessages db days now)))
  = Dexie.keyGen (StorageService.messages db)
  /\ forall m,
       In m (Dexie.rows (StorageService.messages
                           (fst (StorageService.clearOldMessages db days now)))) ->
       In m (Dexie.rows (StorageService.messages db)).
Proof.
  unfold StorageService.clearOldMessages, Dexie.deleteBelow.
  destruct (StorageService.isOpen db); simpl; [|done].
  split; [done|]. intros m Hm. by apply List.filter_In in Hm as [Hm _].
Qed.

(** The ids answered in a run ascend strictly, start at the key generator
    and stay below where the run leaves it. *)
Lemma issuedIds_ascend
    (purify : DOMPurify) (ops : list StorageOp) (db : StorageService.Db) :
  StronglySorted N.lt (issuedIds db ops)
  /\ Forall (fun id =>
               (Dexie.keyGen (StorageService.messages db) <= id
                < Dexie.keyGen (StorageService.messages (storageRun db ops)))%N)
       (issuedIds db ops)
  /\ (Dexie.keyGen (StorageService.messages db)
      <= Dexie.keyGen (StorageService.messages (storageRun db ops)))%N.
Proof.
  revert db. induction ops as [|op ops IH]; intros db; simpl.
  - split; [constructor|]. split; [constructor | lia].
  - destruct (IH (storageStep db op)) as (Hs & Hb & Hk).
    destruct op as [d now | days now]; simpl in *.
    + destruct (StorageService.isOpen db) eqn:Hopen.
      * rewrite saveMessage_open in * by done. simpl in *.
        split; [|split].
        -- constructor; [exact Hs|].
           eapply List.Forall_impl; [|exact Hb]. intros id Hid. simpl in Hid. lia.
        -- constructor; [lia|].
           eapply List.Forall_impl; [|exact Hb]. intros id Hid. simpl in Hid. lia.
        -- lia.
      * rewrite saveMessage_closed in * by done. simpl in *. by repeat split.
    + destruct (clearOldMessages_rows db days now) as [Hgen _].
      rewrite Hgen in Hb, Hk. by repeat split.
Qed.

(** What a run leaves stored was stored before or got its id in the run. *)
Lemma stored_ids_were_issued
    (purify : DOMPurify) (ops : list StorageOp) (db : StorageService.Db) (m : StoredMessage) :
  In m (Dexie.rows (StorageService.messages (storageRun db ops))) ->
  In m (Dexie.rows (StorageService.messages db)) \/ In (m_id m) (issuedIds db ops).
Proof.
  revert db. induction ops as [|op ops IH]; intros db; simpl; [by left|].
  intros Hm. destruct (IH _ Hm) as [Hin | Hin].
  - destruct op as [d now | days now]; simpl in *.
    + destruct (StorageService.isOpen db) eqn:Hopen.
      * rewrite saveMessage_open in * by done. simpl in *.
        apply List.in_app_or in Hin as [Hin | [<- | []]]; [by left|].
        right. by left.
      * rewrite saveMessage_closed in * by done. by left.
    + left. by apply (clearOldMessages_rows db days now).
  - right. apply List.in_or_app. by right.
Qed.

(** X4: message ids are never reused.  In any sequence of saves and
    clean-ups on a new database, the ids [saveMessage] answers with ascend
    strictly, so no id is given twice, whether or not the message that had it
    was deleted since; every stored message carries one of these ids, the ids
    of the stored messages ascend strictly in storage order, and the next save
    gets an id above every id given so far. *)
Theorem message_ids_are_unique
    (purify : DOMPurify) (opens : bool) (ops : list StorageOp) :
  let db := storageRun (StorageService.db0 opens) ops in
  let issued := issuedIds (StorageService.db0 opens) ops in
  StronglySorted N.lt issued
  /\ NoDup issued
  /\ Forall (fun m => In (m_id m) issued) (Dexie.rows (StorageService.messages db))
  /\ StronglySorted N.lt (map m_id (Dexie.rows (StorageService.messages db)))
  /\ NoDup (map m_id (Dexie.rows (StorageService.messages db)))
  /\ forall d now id,
       snd (StorageService.saveMessage db d now) = StorageService.SaveOk id ->
       Forall (fun old => (old < id)%N) issued
       /\ Forall (fun m => (m_id m < id)%N) (Dexie.rows (StorageService.messages db)).
Proof.
  intros db issued.
  destruct (issuedIds_ascend purify ops (StorageService.db0 opens)) as (Hs & Hb & _).
  destruct (storageRun_KeyOrdered purify ops (StorageService.db0 opens)
              (KeyOrdered_db0 opens)) as [Hsorted Hbelow].
  fold db in Hb, Hsorted, Hbelow. fold issued in Hs, Hb.
  split; [exact Hs|]. split; [by apply StronglySorted_lt_NoDup|].
  split.
  { apply List.Forall_forall. intros m Hm.
    destruct (stored_ids_were_issued purify ops (StorageService.db0 opens) m Hm)
      as [[] | Hin]. exact Hin. }
  split; [exact Hsorted|]. split; [by apply StronglySorted_lt_NoDup|].
  intros d now id Hsave.
  destruct (StorageService.isOpen db) eqn:Hopen.
  - rewrite saveMessage_open in Hsave by done. simpl in Hsave.
    injection Hsave as <-. split; [|exact Hbelow].
    eapply List.Forall_impl; [|exact Hb]. intros old Hold. simpl in Hold. lia.
  - rewrite saveMessage_closed in Hsave by done. discriminate.
Qed.

Lemma message_ids_are_unique_witness :
  issuedIds (purify := Reference.dropScripts) (StorageService.db0 true)
    [Save Sample.markup 10; Clear 0 10; Save Sample.markup 11] = [1; 2]%N
  /\ NoDup
       (issuedIds (purify := Reference.dropScripts) (StorageService.db0 true)
          [Save Sample.markup 10; Clear 0 10; Save Sample.markup 11]).
Proof.
  destruct (message_ids_are_unique Reference.dropScripts true
              [Save Sample.markup 10; Clear 0 10; Save Sample.markup 11]) as (_ & H & _).
  split; [reflexivity | exact H].
Defined.

Example ids_after_cleanup :
  map m_id
    (Dexie.rows
       (StorageService.messages
          (storageRun (purify := Reference.dropScripts) (StorageService.db0 true)
             [Save (Sample.wire "R" "u1" "Ann" "old" 1) 10;
              Save (Sample.wire "R" "u1" "Ann" "new" 90000000000) 10;
              Clear 30 90000000000;
              Save (Sample.wire "R" "u2" "Bob" "newer" 90000000001) 10])))
  = [2; 3]%N.
Proof. reflexivity. Qed.

Lemma filter_filter_same {A : Type} (f : A -> bool) (l : list A) :
  List.filter f (List.filter f l) = List.filter f l.
Proof.
  induction l as [|x l IH]; simpl; [done|].
  destruct (f x) eqn:Hx; simpl; [|exact IH]. by rewrite Hx, IH.
Qed.

Lemma filter_negb_filter {A : Type} (f : A -> bool) (l : list A) :
  List.filter f (List.filter (fun x => negb (f x)) l) = [].
Proof.
  induction l as [|x l IH]; simpl; [done|].
  destruct (f x) eqn:Hx; simpl; [exact IH|]. by rewrite Hx.
Qed.

Lemma filter_split_length {A : Type} (f : A -> bool) (l : list A) :
  length (List.filter f l) + length (List.filter (fun x => negb (f x)) l) = length l.
Proof.
  induction l as [|x l IH]; simpl; [done|].
  destruct (f x); simpl; lia.
Qed.

(** X5: with the database open, and the clock reading, the retention
    [daysToKeep * 86400000] and their difference within the safe integers (so
    that the code's doubles compute the cutoff exactly), [clearOldMessages]
    removes exactly the messages whose timestamp is below
    [now - daysToKeep * 86400000], keeps the others in their order, and
    answers with the number removed; rooms and the key generator are
    untouched, and clearing again with the same clock removes nothing. *)
Theorem clearOldMessages_removes_the_old
    (db : StorageService.Db) (daysToKeep now : Z) :
  StorageService.isOpen db = true ->
  safeInteger now ->
  safeInteger (daysToKeep * 86400000) ->
  safeInteger (now - daysToKeep * 86400000) ->
  let cutoff := (now - daysToKeep * 86400000)%Z in
  let old := fun m => (m_timestamp m <? cutoff)%Z in
  let db' := fst (StorageService.clearOldMessages db daysToKeep now) in
  snd (StorageService.clearOldMessages db daysToKeep now)
  = StorageService.ClearOk
      (length (List.filter old (Dexie.rows (StorageService.messages db))))
  /\ Dexie.rows (StorageService.messages db')
     = List.filter (fun m => negb (old m)) (Dexie.rows (StorageService.messages db))
  /\ Forall (fun m => (cutoff <= m_timestamp m)%Z) (Dexie.rows (StorageService.messages db'))
  /\ length (List.filter old (Dexie.rows (StorageService.messages db)))
     + length (Dexie.rows (StorageService.messages db'))
     = length (Dexie.rows (StorageService.messages db))
  /\ Dexie.keyGen (StorageService.messages db') = Dexie.keyGen (StorageService.messages db)
  /\ StorageService.rooms db' = StorageService.rooms db
  /\ StorageService.clearOldMessages db' daysToKeep now = (db', StorageService.ClearOk 0).
Proof.
  intros Hopen _ _ _ cutoff old db'.
  assert (Hcut : (now - daysToKeep * 24 * 60 * 60 * 1000 = cutoff)%Z)
    by (unfold cutoff; lia).
  assert (Hrun : StorageService.clearOldMessages db daysToKeep now
                 = ({| StorageService.isOpen := true;
                       StorageService.messages :=
                         {| Dexie.rows := List.filter (fun m => negb (old m))
                                            (Dexie.rows (StorageService.messages db));
                            Dexie.keyGen := Dexie.keyGen (StorageService.messages db) |};
                       StorageService.rooms := StorageService.rooms db |},
                    StorageService.ClearOk
                      (length (List.filter old
                                 (Dexie.rows (StorageService.messages db)))))).
  { unfold StorageService.clearOldMessages, Dexie.deleteBelow.
    rewrite Hopen, Hcut. reflexivity. }
  subst db'. rewrite Hrun. simpl. repeat split.
  - apply List.Forall_forall. intros m Hm. apply List.filter_In in Hm as [_ Hm].
    apply negb_true_iff, Z.ltb_ge in Hm. exact Hm.
  - apply filter_split_length.
  - unfold StorageService.clearOldMessages, Dexie.deleteBelow. simpl. rewrite Hcut.
    fold old. rewrite filter_negb_filter.
    rewrite (filter_filter_same (fun m => negb (old m))). reflexivity.
Qed.

Lemma clearOldMessages_removes_the_old_witness :
  snd (StorageService.clearOldMessages Sample.inOrder 0 4)
  = StorageService.ClearOk 3
  /\ map m_timestamp
       (Dexie.rows (StorageService.messages
                      (fst (StorageService.clearOldMessages Sample.inOrder 0 4))))
     = [4; 5]%Z.
Proof.
  destruct (clearOldMessages_removes_the_old Sample.inOrder 0 4) as (H1 & H2 & _);
    [reflexivity | by vm_compute | by vm_compute | by vm_compute |].
  split.
  - rewrite H1. reflexivity.
  - rewrite H2. reflexivity.
Defined.

(** X6: when the database cannot be opened, every function of the storage
    service catches the error: the writers answer with a failure and leave
    the database as it was, the readers answer with the empty list (or no
    user). *)
Theorem closed_database_fails_softly
    (purify : DOMPurify) (F : Fuse) (db : StorageService.Db) :
  StorageService.isOpen db = false ->
  (forall d now,
     StorageService.saveMessage db d now
     = (db, StorageService.SaveErr Dexie.DatabaseClosedError))
  /\ (forall room limit, StorageService.getMessagesForRoom db room limit = [])
  /\ (forall room query, StorageService.searchMessages db room query = [])
  /\ (forall roomData now,
        StorageService.saveRoom db roomData now
        = (db, StorageService.RoomErr Dexie.DatabaseClosedError))
  /\ StorageService.getRooms db = []
  /\ (forall days now,
        StorageService.clearOldMessages db days now
        = (db, StorageService.ClearErr Dexie.DatabaseClosedError))
  /\ (forall users userData now,
        Users.updateUser false users userData now
        = (users, Users.UpdateErr Dexie.DatabaseClosedError))
  /\ (forall users userId, Users.getUser false users userId = None).
Proof.
  intros Hclosed. repeat split; intros.
  - by apply saveMessage_closed.
  - unfold StorageService.getMessagesForRoom, Dexie.whereEquals. by rewrite Hclosed.
  - by apply searchMessages_closed.
  - unfold StorageService.saveRoom, Dexie.put. by rewrite Hclosed.
  - apply getRooms_rejected.
  - unfold StorageService.clearOldMessages, Dexie.deleteBelow. by rewrite Hclosed.
Qed.

Lemma closed_database_fails_softly_witness :
  StorageService.saveMessage (purify := Reference.dropScripts)
    (StorageService.db0 false) Sample.markup 10
  = (StorageService.db0 false, StorageService.SaveErr Dexie.DatabaseClosedError).
Proof.
  destruct (closed_database_fails_softly Reference.dropScripts Reference.substringSearch
              (StorageService.db0 false)) as (H & _); [reflexivity|].
  apply H.
Defined.

(** X7: the popup never lists a room.  [getRooms] orders by [lastActive],
    which is not an index of [rooms], so for every database it returns the
    empty list; and after [loadData] the popup's room list is empty whatever
    was saved and whatever [chrome.storage.local] holds. *)
Theorem popup_never_lists_rooms (db : StorageService.Db) (stored : gmap string string) :
  StorageService.getRooms db = []
  /\ Popup.rooms (Popup.loadData db stored Popup.initial) = []
  /\ Popup.isLoading (Popup.loadData db stored Popup.initial) = false.
Proof.
  split; [apply getRooms_rejected|].
  unfold Popup.loadData. destruct (Js.truthyProp (stored !! "userId")); simpl.
  - split; [apply getRooms_rejected | done].
  - done.
Qed.

(** ** Users *)

Lemma find_putRow_same {A : Type} (key : A -> string) (r : A) (l : list A) :
  List.find (fun x => String.eqb (key x) (key r)) (Dexie.putRow key r l) = Some r.
Proof.
  induction l as [|x l IH]; simpl.
  - by rewrite String.eqb_refl.
  - destruct (String.compare (key r) (key x)) eqn:Hc; simpl.
    + by rewrite String.eqb_refl.
    + by rewrite String.eqb_refl.
    + destruct (String.eqb (key x) (key r)) eqn:He; [|exact IH].
      apply String.eqb_eq in He. rewrite He in Hc.
      pose proof (String.compare_antisym (key r) (key r)) as Hanti.
      rewrite Hc in Hanti. discriminate Hanti.
Qed.

Lemma find_putRow_other {A : Type} (key : A -> string) (r : A) (l : list A) (k : string) :
  k <> key r ->
  List.find (fun x => String.eqb (key x) k) (Dexie.putRow key r l)
  = List.find (fun x => String.eqb (key x) k) l.
Proof.
  intros Hk.
  assert (Hr : String.eqb (key r) k = false) by (apply String.eqb_neq; congruence).
  induction l as [|x l IH]; simpl.
  - by rewrite Hr.
  - destruct (String.compare (key r) (key x)) eqn:Hc; simpl.
    + apply String.compare_eq_iff in Hc. rewrite <- Hc. by rewrite Hr.
    + by rewrite Hr.
    + by rewrite IH.
Qed.

(** X8: [updateUser] followed by [getUser] is a round trip.  With the
    database open, the user just written is read back with the nickname given
    and the clock reading as [lastSeen], replacing any earlier record of that
    id; every other user reads as before. *)
Theorem updateUser_getUser_round_trip
    (users : Dexie.Table Users.UserRecord) (userData : Users.UserData) (now : Z) :
  let users' := fst (Users.updateUser true users userData now) in
  snd (Users.updateUser true users userData now) = Users.UpdateOk
  /\ Users.getUser true users' (Users.ud_id userData)
     = Some {| Users.u_id := Users.ud_id userData;
               Users.u_nickname := Users.ud_nickname userData;
               Users.u_lastSeen := now |}
  /\ (forall other,
        other <> Users.ud_id userData ->
        Users.getUser true users' other = Users.getUser true users other).
Proof.
  unfold Users.updateUser, Users.getUser, Dexie.put, Dexie.get. simpl. repeat split.
  - apply (find_putRow_same Users.u_id
             {| Users.u_id := Users.ud_id userData;
                Users.u_nickname := Users.ud_nickname userData;
                Users.u_lastSeen := now |}).
  - intros other Hother.
    by apply (find_putRow_other Users.u_id
                {| Users.u_id := Users.ud_id userData;
                   Users.u_nickname := Users.ud_nickname userData;
                   Users.u_lastSeen := now |}).
Qed.

Lemma updateUser_getUser_round_trip_witness :
  Users.getUser true
    (fst (Users.updateUser true
            (fst (Users.updateUser true Dexie.emptyTable
                    {| Users.ud_id := "u2"; Users.ud_nickname := Some "Bob" |} 5))
            {| Users.ud_id := "u1"; Users.ud_nickname := Some "Ann" |} 6))
    "u2"
  = Users.getUser true
      (fst (Users.updateUser true Dexie.emptyTable
              {| Users.ud_id := "u2"; Users.ud_nickname := Some "Bob" |} 5))
      "u2".
Proof.
  destruct (updateUser_getUser_round_trip
              (fst (Users.updateUser true Dexie.emptyTable
                      {| Users.ud_id := "u2"; Users.ud_nickname := Some "Bob" |} 5))
              {| Users.ud_id := "u1"; Users.ud_nickname := Some "Ann" |} 6)
    as (_ & _ & H).
  apply H. discriminate.
Defined.

(** ** Ties in the search order *)

Lemma insertBy_filter_key {A : Type} (key : A -> Z) (k : Z) (x : A) (l : list A) :
  List.filter (fun y => (key y =? k)%Z) (Js.insertBy key x l)
  = List.filter (fun y => (key y =? k)%Z) (x :: l).
Proof.
  induction l as [|y l IH]; simpl; [done|].
  destruct (key x <=? key y)%Z eqn:Hxy; simpl; [done|].
  rewrite IH. simpl. apply Z.leb_gt in Hxy.
  destruct (key x =? k)%Z eqn:Hx, (key y =? k)%Z eqn:Hy; try done.
  apply Z.eqb_eq in Hx, Hy. lia.
Qed.

Lemma sortBy_filter_key {A : Type} (key : A -> Z) (k : Z) (l : list A) :
  List.filter (fun y => (key y =? k)%Z) (Js.sortBy key l)
  = List.filter (fun y => (key y =? k)%Z) l.
Proof.
  induction l as [|x l IH]; simpl; [done|].
  rewrite insertBy_filter_key. simpl. by rewrite IH.
Qed.

(** X9: [searchMessages] reorders hits by timestamp only.  With the
    database open, the hits that carry one and the same timestamp come out in
    the order in which the Fuse search ranked them. *)
Theorem searchMessages_keeps_rank_among_ties
    (F : Fuse) (db : StorageService.Db) (room query : string) (t : Z) :
  StorageService.isOpen db = true ->
  List.filter (fun m => (m_timestamp m =? t)%Z)
    (StorageService.searchMessages db room query)
  = List.filter (fun m => (m_timestamp m =? t)%Z)
      (map item
         (fuseSearch StorageService.searchOptions (roomMessages db room) query)).
Proof.
  intros Hopen. rewrite searchMessages_open by done. apply sortBy_filter_key.
Qed.

Lemma searchMessages_keeps_rank_among_ties_witness :
  List.filter (fun m => (m_timestamp m =? 2)%Z)
    (StorageService.searchMessages (fuse := Reference.substringSearch)
       Sample.twoRooms "R" "hello")
  = List.filter (fun m => (m_timestamp m =? 2)%Z)
      (map item
         (fuseSearch (Fuse := Reference.substringSearch) StorageService.searchOptions
            (roomMessages Sample.twoRooms "R") "hello")).
Proof.
  apply (searchMessages_keeps_rank_among_ties Reference.substringSearch
           Sample.twoRooms "R" "hello" 2).
  reflexivity.
Defined.

(* ===================================================================== *)
(** * Further properties of the P2P service *)
(* ===================================================================== *)

Section ServiceFrames.
Context {purify : DOMPurify}.

Local Abbreviation svc w := (P2PService.p2pService w).

(** [initialize] touches neither the connections nor the callbacks. *)
Lemma initialize_frame (w : P2PService.World) (video : string) (env : P2PService.InitEnv) :
  P2PService.connections (svc (fst (P2PService.initialize w video env)))
  = P2PService.connections (svc w)
  /\ P2PService.messageCallbacks (svc (fst (P2PService.initialize w video env)))
     = P2PService.messageCallbacks (svc w).
Proof.
  unfold P2PService.initialize, P2PService.initializePeerJS,
    P2PService.initializeWebSocketFallback.
  destruct (Js.truthyProp _), (P2PService.peerOpens env); simpl; try done;
    destruct (P2PService.useWebSocketFallback _); simpl; try done;
    by destruct (P2PService.ioReturns env).
Qed.

Lemma sendMessage_service (w : P2PService.World) (d : MessageData) (now : Z) :
  svc (fst (P2PService.sendMessage w d now)) = svc w
  /\ P2PService.storageLocal (fst (P2PService.sendMessage w d now))
     = P2PService.storageLocal w.
Proof.
  unfold P2PService.sendMessage. simpl.
  destruct (P2PService.useWebSocketFallback (svc w)).
  - by destruct (P2PService.socket (svc w)).
  - by rewrite fold_sendToOpen.
Qed.

Lemma joinRoom_frame (w : P2PService.World) (room : string) :
  P2PService.connections (svc (fst (P2PService.joinRoom w room)))
  = P2PService.connections (svc w)
  /\ P2PService.messageCallbacks (svc (fst (P2PService.joinRoom w room)))
     = P2PService.messageCallbacks (svc w)
  /\ P2PService.storageLocal (fst (P2PService.joinRoom w room))
     = P2PService.storageLocal w.
Proof.
  unfold P2PService.joinRoom. simpl.
  destruct (P2PService.useWebSocketFallback _); [|done].
  by destruct (P2PService.socket _).
Qed.

Lemma step_connections (w : P2PService.World) (op : P2PService.Op) :
  let c := P2PService.connections (svc w) in
  let c' := P2PService.connections (svc (P2PService.step w op)) in
  c' = c
  \/ (exists conn, c' = P2PService.assign conn c)
  \/ (exists p, c' = P2PService.remove p c)
  \/ (exists p, c' = P2PService.markOpen p c)
  \/ c' = [].
Proof.
  destruct op; simpl.
  - left. apply initialize_frame.
  - left. by destruct (sendMessage_service w messageData now) as [-> _].
  - left. apply joinRoom_frame.
  - by left.
  - do 4 right. reflexivity.
  - unfold P2PService.connectToPeer.
    destruct (P2PService.known _ _); [by left|].
    destruct (P2PService.peer _); [|by left].
    right; left. by eexists.
  - destruct (P2PService.peer _) as [p|]; [|by left].
    destruct (P2PService.peer_listening p); [|by left].
    right; left. by eexists.
  - do 3 right. left. by eexists.
  - left. by rewrite handleIncomingMessage_unfold.
  - right; right; left. by eexists.
  - right; right; left. by eexists.
  - left. by destruct (P2PService.socket _).
  - by left.
  - by left.
  - left. by rewrite handleIncomingMessage_unfold.
  - by left.
Qed.

Lemma step_callbacks (w : P2PService.World) (op : P2PService.Op) :
  exists more,
    P2PService.messageCallbacks (svc (P2PService.step w op))
    = P2PService.messageCallbacks (svc w) ++ more.
Proof.
  destruct op; simpl;
    try (exists []; rewrite app_nil_r; reflexivity).
  - exists []. rewrite app_nil_r. apply initialize_frame.
  - exists []. rewrite app_nil_r.
    by destruct (sendMessage_service w messageData now) as [-> _].
  - exists []. rewrite app_nil_r. apply joinRoom_frame.
  - by eexists.
  - exists []. rewrite app_nil_r. unfold P2PService.cleanup.
    by destruct (P2PService.peer _), (P2PService.socket _).
  - exists []. rewrite app_nil_r. unfold P2PService.connectToPeer.
    destruct (P2PService.known _ _); [done|]. by destruct (P2PService.peer _).
  - exists []. rewrite app_nil_r. destruct (P2PService.peer _) as [p|]; [|done].
    by destruct (P2PService.peer_listening p).
  - exists []. rewrite app_nil_r. by rewrite handleIncomingMessage_unfold.
  - exists []. rewrite app_nil_r. by destruct (P2PService.socket _).
  - exists []. rewrite app_nil_r. by rewrite handleIncomingMessage_unfold.
Qed.

Lemma run_callbacks (ops : list P2PService.Op) (w : P2PService.World) :
  exists more,
    P2PService.messageCallbacks (svc (P2PService.run w ops))
    = P2PService.messageCallbacks (svc w) ++ more.
Proof.
  revert w. induction ops as [|op ops IH]; intros w; simpl.
  - exists []. by rewrite app_nil_r.
  - destruct (step_callbacks w op) as (m1 & E1).
    destruct (IH (P2PService.step w op)) as (m2 & E2).
    exists (m1 ++ m2). by rewrite E2, E1, <- app_assoc.
Qed.

Lemma step_storageLocal (w : P2PService.World) (op : P2PService.Op) :
  P2PService.storageLocal (P2PService.step w op) = P2PService.storageLocal w
  \/ (Js.truthyProp (P2PService.storageLocal w !! "peerId") = false
      /\ exists id,
           P2PService.storageLocal (P2PService.step w op)
           = <["peerId" := id]> (P2PService.storageLocal w)).
Proof.
  destruct op; simpl; try (by left).
  - destruct (initialize_identity w video env) as (_ & Hst & _). rewrite Hst.
    destruct (Js.truthyProp _) eqn:Ht; [by left|].
    right. split; [done|]. by eexists.
  - left. apply sendMessage_service.
  - left. apply joinRoom_frame.
  - left. unfold P2PService.cleanup.
    by destruct (P2PService.peer _), (P2PService.socket _).
  - left. unfold P2PService.connectToPeer.
    destruct (P2PService.known _ _); [done|]. by destruct (P2PService.peer _).
  - left. destruct (P2PService.peer _) as [p|]; [|done].
    by destruct (P2PService.peer_listening p).
  - left. by rewrite handleIncomingMessage_unfold.
  - left. by destruct (P2PService.socket _).
  - left. by rewrite handleIncomingMessage_unfold.
Qed.

End ServiceFrames.

(** ** The connections *)

Lemma peers_assign_elem (conn : P2PService.DataConnection)
    (l : list P2PService.DataConnection) (p : string) :
  p ∈ map P2PService.conn_peer (P2PService.assign conn l)
  <-> p = P2PService.conn_peer conn \/ p ∈ map P2PService.conn_peer l.
Proof.
  induction l as [|x l IH]; simpl.
  - rewrite list_elem_of_singleton. rewrite elem_of_nil. tauto.
  - destruct (String.eqb (P2PService.conn_peer x) (P2PService.conn_peer conn)) eqn:He;
      simpl; rewrite !elem_of_cons.
    + apply String.eqb_eq in He. rewrite He. tauto.
    + rewrite IH. tauto.
Qed.

Lemma peers_assign_NoDup (conn : P2PService.DataConnection)
    (l : list P2PService.DataConnection) :
  NoDup (map P2PService.conn_peer l) ->
  NoDup (map P2PService.conn_peer (P2PService.assign conn l)).
Proof.
  induction l as [|x l IH]; simpl; intros Hl.
  - apply NoDup_singleton.
  - apply NoDup_cons in Hl as [Hx Hl].
    destruct (String.eqb (P2PService.conn_peer x) (P2PService.conn_peer conn)) eqn:He;
      simpl; apply NoDup_cons.
    + apply String.eqb_eq in He. by rewrite <- He.
    + split; [|by apply IH].
      rewrite peers_assign_elem. apply String.eqb_neq in He.
      intros [Heq | Hin]; [by apply He | by apply Hx].
Qed.

Lemma peers_remove_NoDup (p : string) (l : list P2PService.DataConnection) :
  NoDup (map P2PService.conn_peer l) ->
  NoDup (map P2PService.conn_peer (P2PService.remove p l)).
Proof.
  unfold P2PService.remove.
  induction l as [|x l IH]; simpl; intros Hl; [done|].
  apply NoDup_cons in Hl as [Hx Hl].
  destruct (negb _); simpl; [|by apply IH].
  apply NoDup_cons. split; [|by apply IH].
  intros Hin. apply Hx. apply list_elem_of_In, List.in_map_iff in Hin as (y & Hy & Hin).
  apply List.filter_In in Hin as [Hin _].
  apply list_elem_of_In, List.in_map_iff. by exists y.
Qed.

Lemma peers_markOpen (p : string) (l : list P2PService.DataConnection) :
  map P2PService.conn_peer (P2PService.markOpen p l) = map P2PService.conn_peer l.
Proof.
  unfold P2PService.markOpen. induction l as [|x l IH]; simpl; [done|].
  rewrite IH. by destruct (String.eqb _ _).
Qed.



(** X10: the service holds at most one connection per peer.  In every
    state reached from the constructed service, whatever the calls and
    events, no two entries of [connections] are for the same peer id. *)
Theorem one_connection_per_peer
    (purify : DOMPurify) (database : StorageService.Db) (stored : gmap string string)
    (ops : list P2PService.Op) :
  NoDup (peersOf (P2PService.p2pService
                    (P2PService.run (P2PService.world0 database stored) ops))).
Proof.
  assert (Hinv : forall ops w,
             NoDup (peersOf (P2PService.p2pService w)) ->
             NoDup (peersOf (P2PService.p2pService (P2PService.run w ops)))).
  { clear ops. induction ops as [|op ops IH]; intros w Hw; simpl; [done|].
    apply IH. unfold peersOf in *.
    destruct (step_connections w op)
      as [-> | [(c & ->) | [(p & ->) | [(p & ->) | ->]]]].
    - done.
    - by apply peers_assign_NoDup.
    - by apply peers_remove_NoDup.
    - by rewrite peers_markOpen.
    - apply NoDup_nil_2. }
  apply Hinv. apply NoDup_nil_2.
Qed.


(** ** Sending *)

Lemma filter_Permutation_bool {A : Type} (f : A -> bool) (l l' : list A) :
  Permutation l l' -> Permutation (List.filter f l) (List.filter f l').
Proof.
  induction 1 as [|x l l' _ IH|x y l|l l' l'' _ IH1 _ IH2]; simpl.
  - reflexivity.
  - destruct (f x); [by constructor | exact IH].
  - destruct (f x), (f y); try reflexivity. apply perm_swap.
  - by transitivity (List.filter f l').
Qed.

Lemma values_not_indexed (l : list P2PService.DataConnection) :
  Forall (fun c => P2PService.isIndexed c = false) l -> P2PService.values l = l.
Proof.
  intros Hl.
  assert (Hboth : List.filter P2PService.isIndexed l = []
                  /\ List.filter (fun c => negb (P2PService.isIndexed c)) l = l).
  { induction Hl as [|c l Hc _ [IH1 IH2]]; simpl; [done|].
    rewrite Hc. simpl. by rewrite IH2. }
  destruct Hboth as [Hnone Hall].
  unfold P2PService.values. by rewrite Hnone, Hall.
Qed.

(** X12: on the mesh, [sendMessage] sends the message object it was given,
    once to every connection that is open and to no other, in the order
    [Object.values] lists the connections: those under an array-index peer id
    first, by ascending index, then the others in the order they were added.
    It answers success and changes nothing of the service but the stored
    messages.  The connections sent to are the open ones, whatever the order;
    and when no peer id is an array index, the order is the one the
    connections were added in. *)
Theorem sendMessage_reaches_the_open_connections
    (purify : DOMPurify) (w : P2PService.World) (d : MessageData) (now : Z) :
  P2PService.useWebSocketFallback (P2PService.p2pService w) = false ->
  P2PService.sendMessage w d now
  = ({| P2PService.p2pService := P2PService.p2pService w;
        P2PService.db := fst (StorageService.saveMessage (P2PService.db w) d now);
        P2PService.storageLocal := P2PService.storageLocal w;
        P2PService.effects :=
          P2PService.effects w
          ++ sendsTo d (List.filter P2PService.conn_open
                          (P2PService.values
                             (P2PService.connections (P2PService.p2pService w)))) |},
     P2PService.SendOk)
  /\ Permutation
       (List.filter P2PService.conn_open
          (P2PService.values (P2PService.connections (P2PService.p2pService w))))
       (List.filter P2PService.conn_open
          (P2PService.connections (P2PService.p2pService w)))
  /\ (Forall (fun c => P2PService.isIndexed c = false)
         (P2PService.connections (P2PService.p2pService w)) ->
      P2PService.values (P2PService.connections (P2PService.p2pService w))
      = P2PService.connections (P2PService.p2pService w)).
Proof.
  intros Hmesh. split; [|split].
  - unfold P2PService.sendMessage. simpl. rewrite Hmesh.
    by rewrite fold_sendToOpen.
  - apply filter_Permutation_bool, values_Permutation.
  - apply values_not_indexed.
Qed.

Lemma sendMessage_reaches_the_open_connections_witness :
  P2PService.effects
    (fst (P2PService.sendMessage (purify := Reference.dropScripts)
            (P2PService.handleConnection
               (P2PService.handleConnection
                  (P2PService.handleConnection
                     (P2PService.handleConnection Sample.lonely
                        {| P2PService.conn_peer := "b"; P2PService.conn_open := true |})
                     {| P2PService.conn_peer := "q"; P2PService.conn_open := false |})
                  {| P2PService.conn_peer := "1"; P2PService.conn_open := true |})
               {| P2PService.conn_peer := "a"; P2PService.conn_open := true |})
            Sample.markup 10))
  = [P2PService.ConnSend "1" Sample.markup; P2PService.ConnSend "b" Sample.markup;
     P2PService.ConnSend "a" Sample.markup].
Proof.
  destruct (sendMessage_reaches_the_open_connections Reference.dropScripts
              (P2PService.handleConnection
                 (P2PService.handleConnection
                    (P2PService.handleConnection
                       (P2PService.handleConnection Sample.lonely
                          {| P2PService.conn_peer := "b"; P2PService.conn_open := true |})
                       {| P2PService.conn_peer := "q"; P2PService.conn_open := false |})
                    {| P2PService.conn_peer := "1"; P2PService.conn_open := true |})
                 {| P2PService.conn_peer := "a"; P2PService.conn_open := true |})
              Sample.markup 10) as [H _]; [reflexivity|].
  rewrite H. reflexivity.
Defined.

(** X13: on the relay, when the socket exists, [sendMessage] emits one
    ['chat-message'] whose payload is the object literal
    [{ roomId: this.roomId, ...messageData }]: the service's room as the
    default and the fields of the message spread over it, so that a [roomId]
    of the message itself is the one emitted.  When the socket was never
    created it answers failure, after the message was saved: with the
    database open the store has grown by that message. *)
Theorem sendMessage_on_the_relay
    (purify : DOMPurify) (w : P2PService.World) (d : MessageData) (now : Z) :
  P2PService.useWebSocketFallback (P2PService.p2pService w) = true ->
  (P2PService.socket (P2PService.p2pService w) <> None ->
   snd (P2PService.sendMessage w d now) = P2PService.SendOk
   /\ P2PService.effects (fst (P2PService.sendMessage w d now))
      = P2PService.effects w
        ++ [P2PService.EmitChatMessage
              (P2PService.roomId (P2PService.p2pService w)) d])
  /\ (P2PService.socket (P2PService.p2pService w) = None ->
      snd (P2PService.sendMessage w d now) = P2PService.SendErr P2PService.SocketIsNull
      /\ P2PService.effects (fst (P2PService.sendMessage w d now)) = P2PService.effects w
      /\ (StorageService.isOpen (P2PService.db w) = true ->
          Dexie.rows (StorageService.messages
                        (P2PService.db (fst (P2PService.sendMessage w d now))))
          = Dexie.rows (StorageService.messages (P2PService.db w))
            ++ [recordOf (Dexie.keyGen (StorageService.messages (P2PService.db w)))
                  d now])).
Proof.
  intros Hrelay. split.
  - intros Hsocket. unfold P2PService.sendMessage. simpl. rewrite Hrelay.
    by destruct (P2PService.socket (P2PService.p2pService w)).
  - intros Hsocket. split; [|split].
    + unfold P2PService.sendMessage. simpl. by rewrite Hrelay, Hsocket.
    + unfold P2PService.sendMessage. simpl. by rewrite Hrelay, Hsocket.
    + intros Hopen. rewrite sendMessage_db, saveMessage_open by done. reflexivity.
Qed.

Lemma sendMessage_on_the_relay_witness :
  snd (P2PService.sendMessage (purify := Reference.dropScripts)
         Sample.relayDown Sample.markup 10)
  = P2PService.SendErr P2PService.SocketIsNull
  /\ map m_text
       (Dexie.rows (StorageService.messages
          (P2PService.db
             (fst (P2PService.sendMessage (purify := Reference.dropScripts)
                     Sample.relayDown Sample.markup 10)))))
     = ["<b>hi</b>"]
  /\ snd (P2PService.sendMessage (purify := Reference.dropScripts)
            Sample.relayed Sample.markup 10)
     = P2PService.SendOk.
Proof.
  destruct (sendMessage_on_the_relay Reference.dropScripts Sample.relayDown
              Sample.markup 10) as [_ Hdown]; [reflexivity|].
  destruct (sendMessage_on_the_relay Reference.dropScripts Sample.relayed
              Sample.markup 10) as [Hup _]; [reflexivity|].
  destruct Hdown as (H1 & _ & H3); [reflexivity|].
  destruct Hup as (H4 & _); [discriminate|].
  split; [exact H1|]. split; [|exact H4].
  rewrite H3 by reflexivity. reflexivity.
Defined.

(** X14: a failing database goes unnoticed by the service.  When the
    database does not open, [sendMessage] on a transport that can send still
    answers success and transmits the message, and [handleIncomingMessage]
    still invokes every callback; in both cases nothing is stored. *)
Theorem storage_failure_is_silent
    (purify : DOMPurify) (w : P2PService.World) (d : MessageData) (now : Z) :
  StorageService.isOpen (P2PService.db w) = false ->
  canSend (P2PService.p2pService w) ->
  snd (P2PService.sendMessage w d now) = P2PService.SendOk
  /\ P2PService.db (fst (P2PService.sendMessage w d now)) = P2PService.db w
  /\ P2PService.effects (fst (P2PService.sendMessage w d now))
     = P2PService.effects w
       ++ (if P2PService.useWebSocketFallback (P2PService.p2pService w)
           then [P2PService.EmitChatMessage
                   (P2PService.roomId (P2PService.p2pService w)) d]
           else sendsTo d (List.filter P2PService.conn_open
                             (P2PService.values
                                (P2PService.connections (P2PService.p2pService w)))))
  /\ P2PService.db (P2PService.handleIncomingMessage w d now) = P2PService.db w
  /\ P2PService.effects (P2PService.handleIncomingMessage w d now)
     = P2PService.effects w
       ++ callsOf d (P2PService.messageCallbacks (P2PService.p2pService w)).
Proof.
  intros Hclosed Hcan.
  assert (Hsave : fst (StorageService.saveMessage (P2PService.db w) d now)
                  = P2PService.db w) by (by rewrite saveMessage_closed).
  rewrite sendMessage_db, handleIncomingMessage_unfold. simpl. rewrite Hsave.
  unfold P2PService.sendMessage. simpl.
  destruct (P2PService.useWebSocketFallback (P2PService.p2pService w)) eqn:Hf.
  - destruct (P2PService.socket (P2PService.p2pService w)) eqn:Hs;
      [|by destruct (Hcan Hf)].
    by repeat split.
  - rewrite fold_sendToOpen. by repeat split.
Qed.

Lemma storage_failure_is_silent_witness :
  snd (P2PService.sendMessage (purify := Reference.dropScripts)
         Sample.closedWorld Sample.markup 10) = P2PService.SendOk
  /\ P2PService.db (P2PService.handleIncomingMessage (purify := Reference.dropScripts)
                      Sample.closedWorld Sample.markup 10)
     = P2PService.db Sample.closedWorld
  /\ P2PService.effects (P2PService.handleIncomingMessage (purify := Reference.dropScripts)
                           Sample.closedWorld Sample.markup 10)
     = [P2PService.Callback 7 Sample.markup].
Proof.
  destruct (storage_failure_is_silent Reference.dropScripts Sample.closedWorld
              Sample.markup 10) as (H1 & _ & _ & H4 & H5).
  - reflexivity.
  - intros H. discriminate H.
  - split; [exact H1|]. split; [exact H4|]. rewrite H5. reflexivity.
Defined.

(** ** Subscribers *)

(** X15: a callback is never unregistered.  Once [onMessage] registered a
    callback, it stays registered after any further calls and events,
    [cleanup] included, and every later incoming message invokes it: the
    handler invokes each registered callback, in registration order, once per
    occurrence in the list. *)
Theorem callbacks_are_never_removed
    (purify : DOMPurify) (w : P2PService.World) (callback : nat)
    (ops : list P2PService.Op) (d : MessageData) (now : Z) :
  let w' := P2PService.run (P2PService.onMessage w callback) ops in
  (exists later,
     P2PService.messageCallbacks (P2PService.p2pService w')
     = P2PService.messageCallbacks (P2PService.p2pService w) ++ callback :: later)
  /\ P2PService.effects (P2PService.handleIncomingMessage w' d now)
     = P2PService.effects w'
       ++ callsOf d (P2PService.messageCallbacks (P2PService.p2pService w'))
  /\ In (P2PService.Callback callback d)
       (callsOf d (P2PService.messageCallbacks (P2PService.p2pService w'))).
Proof.
  intros w'.
  destruct (run_callbacks ops (P2PService.onMessage w callback)) as (more & Hmore).
  fold w' in Hmore. simpl in Hmore. rewrite <- app_assoc in Hmore. simpl in Hmore.
  split; [by exists more|]. split.
  - by rewrite handleIncomingMessage_unfold.
  - rewrite Hmore. unfold callsOf. apply List.in_map_iff. exists callback.
    split; [done|]. apply List.in_or_app. right. by left.
Qed.

Example stale_callback_after_cleanup :
  P2PService.effects
    (P2PService.run (purify := Reference.dropScripts) Sample.lonely
       [P2PService.OnMessage 1; P2PService.Cleanup; P2PService.OnMessage 2;
        P2PService.SocketChatMessage Sample.markup 10])
  = [P2PService.Callback 1 Sample.markup; P2PService.Callback 2 Sample.markup].
Proof. reflexivity. Qed.

(** ** What a session never changes *)

(** X16: the stored identity is immutable and nothing else of
    [chrome.storage.local] is written by the service.  Whatever calls and
    events follow, every key other than [peerId] keeps its value, and once a
    non-empty peer id is stored the whole storage stays as it is. *)
Theorem service_keeps_the_stored_identity
    (purify : DOMPurify) (w : P2PService.World) (ops : list P2PService.Op) :
  (forall key,
     key <> "peerId" ->
     P2PService.storageLocal (P2PService.run w ops) !! key
     = P2PService.storageLocal w !! key)
  /\ (Js.truthyProp (P2PService.storageLocal w !! "peerId") = true ->
      P2PService.storageLocal (P2PService.run w ops) = P2PService.storageLocal w).
Proof.
  revert w. induction ops as [|op ops IH]; intros w; simpl; [done|].
  destruct (IH (P2PService.step w op)) as [IHkey IHid].
  destruct (step_storageLocal w op) as [Hsame | (Hfalsy & id & Hset)].
  - rewrite Hsame in IHkey, IHid. split; [exact IHkey|].
    intros Ht. by apply IHid.
  - split.
    + intros key Hkey. rewrite IHkey by done. rewrite Hset.
      by rewrite lookup_insert_ne.
    + intros Ht. congruence.
Qed.

Lemma service_keeps_the_stored_identity_witness :
  P2PService.storageLocal
    (P2PService.run (purify := Reference.dropScripts) Sample.relayed
       [P2PService.Cleanup; P2PService.Initialize "other" Sample.meshUp;
        P2PService.JoinRoom "R"])
  = P2PService.storageLocal Sample.relayed.
Proof.
  destruct (service_keeps_the_stored_identity Reference.dropScripts Sample.relayed
              [P2PService.Cleanup; P2PService.Initialize "other" Sample.meshUp;
               P2PService.JoinRoom "R"]) as [_ H].
  apply H. reflexivity.
Defined.

Lemma saveMessage_grows
    (purify : DOMPurify) (db : StorageService.Db) (d : MessageData) (now : Z) :
  exists more,
    Dexie.rows (StorageService.messages (fst (StorageService.saveMessage db d now)))
    = Dexie.rows (StorageService.messages db) ++ more
    /\ length more <= 1
    /\ StorageService.rooms (fst (StorageService.saveMessage db d now))
       = StorageService.rooms db.
Proof.
  destruct (StorageService.isOpen db) eqn:Hopen.
  - rewrite saveMessage_open by done. simpl. eexists. split; [reflexivity|].
    split; [simpl; lia | done].
  - rewrite saveMessage_closed by done. exists []. rewrite app_nil_r. simpl.
    split; [done|]. split; [lia | done].
Qed.

(** X17: the service never deletes or rewrites a stored message.  After any
    calls and events, the rows the store held are still its first rows,
    unchanged and in the same order, at most one row was added per call or
    event, and the stored rooms and whether the database is open are as
    before. *)
Theorem service_only_appends_messages
    (purify : DOMPurify) (w : P2PService.World) (ops : list P2PService.Op) :
  exists more,
    Dexie.rows (StorageService.messages (P2PService.db (P2PService.run w ops)))
    = Dexie.rows (StorageService.messages (P2PService.db w)) ++ more
    /\ length more <= length ops
    /\ StorageService.rooms (P2PService.db (P2PService.run w ops))
       = StorageService.rooms (P2PService.db w)
    /\ StorageService.isOpen (P2PService.db (P2PService.run w ops))
       = StorageService.isOpen (P2PService.db w).
Proof.
  revert w. induction ops as [|op ops IH]; intros w; simpl.
  - exists []. rewrite app_nil_r. repeat split; done.
  - destruct (IH (P2PService.step w op)) as (m2 & E2 & L2 & R2 & O2).
    destruct (step_db w op) as [Hsame | (d & now & Hsave)].
    + rewrite Hsame in E2, R2, O2. exists m2. repeat split; try done. lia.
    + rewrite Hsave in E2, R2, O2.
      destruct (saveMessage_grows purify (P2PService.db w) d now) as (m1 & E1 & L1 & R1).
      rewrite E1 in E2. rewrite R1 in R2. rewrite saveMessage_isOpen in O2.
      exists (m1 ++ m2). rewrite app_assoc. repeat split; try done.
      rewrite length_app. lia.
Qed.

(** ** Cleaning up *)

(** X18: [cleanup] forgets the connections and nothing else.  It destroys
    the peer and disconnects the socket when there are any, in that order,
    and empties [connections]; the fallback flag, the socket, the room, the
    peer id and the callbacks stay.  So a send on the mesh right after it
    reaches nobody and answers success, and a send on the relay still emits
    on the socket that was disconnected and answers success. *)
Theorem cleanup_forgets_only_the_connections
    (purify : DOMPurify) (w : P2PService.World) (d : MessageData) (now : Z) :
  let w' := P2PService.cleanup w in
  P2PService.p2pService w'
  = P2PService.setConnections [] (P2PService.p2pService w)
  /\ P2PService.effects w'
     = P2PService.effects w
       ++ match P2PService.peer (P2PService.p2pService w) with
          | Some _ => [P2PService.PeerDestroy]
          | None => []
          end
       ++ match P2PService.socket (P2PService.p2pService w) with
          | Some _ => [P2PService.SocketDisconnect]
          | None => []
          end
  /\ (P2PService.useWebSocketFallback (P2PService.p2pService w) = false ->
      snd (P2PService.sendMessage w' d now) = P2PService.SendOk
      /\ P2PService.effects (fst (P2PService.sendMessage w' d now))
         = P2PService.effects w')
  /\ (P2PService.useWebSocketFallback (P2PService.p2pService w) = true ->
      P2PService.socket (P2PService.p2pService w) <> None ->
      snd (P2PService.sendMessage w' d now) = P2PService.SendOk
      /\ P2PService.effects (fst (P2PService.sendMessage w' d now))
         = P2PService.effects w'
           ++ [P2PService.EmitChatMessage
                 (P2PService.roomId (P2PService.p2pService w)) d]).
Proof.
  intros w'. subst w'.
  assert (Hsvc : P2PService.p2pService (P2PService.cleanup w)
                 = P2PService.setConnections [] (P2PService.p2pService w)).
  { unfold P2PService.cleanup.
    by destruct (P2PService.peer _), (P2PService.socket _). }
  split; [exact Hsvc|]. split; [|split].
  - unfold P2PService.cleanup.
    destruct (P2PService.peer (P2PService.p2pService w)) eqn:Hp; simpl;
      destruct (P2PService.socket (P2PService.p2pService w)) eqn:Hs; simpl;
      rewrite ?Hs; simpl; rewrite <- ?app_assoc, ?app_nil_r; done.
  - intros Hmesh. clear Hsvc. destruct w as [s database m l]; simpl in *.
    unfold P2PService.cleanup, P2PService.sendMessage; simpl.
    destruct (P2PService.peer s) eqn:Hp; simpl;
      destruct (P2PService.socket s) eqn:Hs; simpl;
      rewrite ?Hs; simpl; rewrite Hmesh; simpl; by split.
  - intros Hrelay Hsocket. clear Hsvc. destruct w as [s database m l]; simpl in *.
    unfold P2PService.cleanup, P2PService.sendMessage; simpl.
    destruct (P2PService.peer s) eqn:Hp; simpl;
      destruct (P2PService.socket s) eqn:Hs; simpl; try done;
      rewrite ?Hs; simpl; rewrite Hrelay; simpl; rewrite ?Hs; simpl; by split.
Qed.

Lemma cleanup_forgets_only_the_connections_witness :
  snd (P2PService.sendMessage (purify := Reference.dropScripts)
         (P2PService.cleanup Sample.meshed) Sample.markup 10) = P2PService.SendOk
  /\ P2PService.effects
       (fst (P2PService.sendMessage (purify := Reference.dropScripts)
               (P2PService.cleanup Sample.meshed) Sample.markup 10))
     = P2PService.effects (P2PService.cleanup Sample.meshed).
Proof.
  destruct (cleanup_forgets_only_the_connections Reference.dropScripts Sample.meshed
              Sample.markup 10) as (_ & _ & H & _).
  apply H. reflexivity.
Defined.

(** ** Initializing again *)

(** X19: initializing a session that already fell back.  When PeerJS opens
    this time, [initialize] answers with a success that does not say
    [usingFallback], yet the flag stays set and the next send goes to the
    socket, not to the mesh; when PeerJS fails again, it answers failure
    without opening the relay again. *)
Theorem initialize_on_a_fallen_back_session
    (purify : DOMPurify) (w : P2PService.World) (video : string)
    (env : P2PService.InitEnv) (d : MessageData) (now : Z) :
  P2PService.useWebSocketFallback (P2PService.p2pService w) = true ->
  let w' := fst (P2PService.initialize w video env) in
  P2PService.useWebSocketFallback (P2PService.p2pService w') = true
  /\ P2PService.socket (P2PService.p2pService w') = P2PService.socket (P2PService.p2pService w)
  /\ (exists id, P2PService.effects w' = P2PService.effects w ++ [P2PService.NewPeer id])
  /\ (P2PService.peerOpens env = true ->
      exists id room,
        snd (P2PService.initialize w video env) = P2PService.InitOk id room false)
  /\ (P2PService.peerOpens env = false ->
      snd (P2PService.initialize w video env) = P2PService.InitErr)
  /\ Forall (fun e => isConnSend e = false)
       (skipn (length (P2PService.effects w'))
          (P2PService.effects (fst (P2PService.sendMessage w' d now)))).
Proof.
  intros Hrelay w'.
  assert (Hflag : P2PService.useWebSocketFallback (P2PService.p2pService w') = true).
  { subst w'. unfold P2PService.initialize, P2PService.initializePeerJS.
    destruct (Js.truthyProp _), (P2PService.peerOpens env); simpl;
      rewrite ?Hrelay; simpl; done. }
  split; [exact Hflag|]. split; [|split; [|split; [|split]]].
  - subst w'. unfold P2PService.initialize, P2PService.initializePeerJS.
    destruct (Js.truthyProp _), (P2PService.peerOpens env); simpl;
      rewrite ?Hrelay; simpl; done.
  - subst w'. unfold P2PService.initialize, P2PService.initializePeerJS.
    destruct (Js.truthyProp _), (P2PService.peerOpens env); simpl;
      rewrite ?Hrelay; simpl; by eexists.
  - intros Hopens. unfold P2PService.initialize, P2PService.initializePeerJS.
    rewrite Hopens. destruct (Js.truthyProp _); simpl; by eexists _, _.
  - intros Hfails. unfold P2PService.initialize, P2PService.initializePeerJS.
    rewrite Hfails. destruct (Js.truthyProp _); simpl; by rewrite Hrelay.
  - unfold P2PService.sendMessage. simpl. rewrite Hflag.
    destruct (P2PService.socket (P2PService.p2pService w')); simpl.
    + rewrite skipn_app, skipn_all, Nat.sub_diag. simpl. by repeat constructor.
    + rewrite skipn_all. constructor.
Qed.

Lemma initialize_on_a_fallen_back_session_witness :
  P2PService.useWebSocketFallback
    (P2PService.p2pService (fst (P2PService.initialize Sample.relayed "vid" Sample.meshUp)))
  = true
  /\ exists id room,
       snd (P2PService.initialize Sample.relayed "vid" Sample.meshUp)
       = P2PService.InitOk id room false.
Proof.
  destruct (initialize_on_a_fallen_back_session Reference.dropScripts Sample.relayed "vid"
              Sample.meshUp Sample.markup 10) as (H1 & _ & _ & H4 & _); [reflexivity|].
  split; [exact H1|]. apply H4. reflexivity.
Defined.

(* ===================================================================== *)
(** * Further properties of the interface *)
(* ===================================================================== *)

Lemma trim_truthy_iff (s : string) :
  Js.truthy (Js.trim s) = true <-> Js.whitespaceOnly s = false.
Proof.
  pose proof (trim_falsy_iff s) as H.
  destruct (Js.truthy (Js.trim s)), (Js.whitespaceOnly s); split; intros; try done.
  - by destruct H as [_ H]; specialize (H eq_refl).
  - by destruct H as [H _]; specialize (H eq_refl).
Qed.

Lemma sendMessage_succeeds
    (purify : DOMPurify) (w : P2PService.World) (d : MessageData) (now : Z) :
  canSend (P2PService.p2pService w) ->
  snd (P2PService.sendMessage w d now) = P2PService.SendOk.
Proof.
  intros Hcan. unfold P2PService.sendMessage. simpl.
  destruct (P2PService.useWebSocketFallback (P2PService.p2pService w)) eqn:Hf; [|done].
  destruct (P2PService.socket (P2PService.p2pService w)) eqn:Hs; [done|].
  by destruct (Hcan Hf).
Qed.

Lemma InputBox_sendMessage_unfold
    (purify : DOMPurify) (props : InputBox.Props) (s : InputBox.State) (now later : Z) :
  Js.whitespaceOnly (InputBox.messageText s) = false ->
  InputBox.sendMessage props s now later
  = match snd (P2PService.sendMessage (InputBox.world s) (typedMessage props s now) later)
    with
    | P2PService.SendOk =>
        {| InputBox.world :=
             fst (P2PService.sendMessage (InputBox.world s) (typedMessage props s now)
                    later);
           InputBox.messageText := "";
           InputBox.messages := InputBox.messages s ++ [typedMessage props s now] |}
    | P2PService.SendErr _ =>
        {| InputBox.world :=
             fst (P2PService.sendMessage (InputBox.world s) (typedMessage props s now)
                    later);
           InputBox.messageText := InputBox.messageText s;
           InputBox.messages := InputBox.messages s |}
    end.
Proof.
  intros Htext. apply trim_truthy_iff in Htext.
  unfold InputBox.sendMessage. rewrite Htext. simpl.
  fold (typedMessage props s now).
  by destruct (P2PService.sendMessage _ _ _) as [w' []].
Qed.

Lemma read_last_saved
    (purify : DOMPurify) (db : StorageService.Db) (d : MessageData) (now : Z)
    (room : string) :
  StorageService.isOpen db = true ->
  roomId d = Some room ->
  StorageService.getMessagesForRoom (fst (StorageService.saveMessage db d now)) room 1
  = [recordOf (Dexie.keyGen (StorageService.messages db)) d now].
Proof.
  intros Hopen Hroom.
  rewrite getMessagesForRoom_open by (by rewrite saveMessage_isOpen).
  rewrite roomMessages_saved_same_room by done.
  rewrite length_app. simpl.
  replace (length (roomMessages db room) + 1 - 1) with (length (roomMessages db room))
    by lia.
  by rewrite skipn_app, skipn_all, Nat.sub_diag.
Qed.

(** X20: a message typed into the input box and sent on a transport that
    can send is stored, shown and cleared from the input.  For a text that is
    not blank: the input becomes empty, the message object (with the text as
    typed) is appended to the displayed list, and with the database open the
    newest stored message of the room is that message with its text
    sanitized. *)
Theorem InputBox_sendMessage_delivers
    (purify : DOMPurify) (props : InputBox.Props) (s : InputBox.State)
    (now later : Z) (room : string) :
  Js.whitespaceOnly (InputBox.messageText s) = false ->
  canSend (P2PService.p2pService (InputBox.world s)) ->
  StorageService.isOpen (P2PService.db (InputBox.world s)) = true ->
  InputBox.props_roomId props = Some room ->
  let s' := InputBox.sendMessage props s now later in
  let d := typedMessage props s now in
  InputBox.messageText s' = ""
  /\ InputBox.messages s' = InputBox.messages s ++ [d]
  /\ text d = InputBox.messageText s
  /\ exists stored,
       StorageService.getMessagesForRoom (P2PService.db (InputBox.world s')) room 1
       = [stored]
       /\ m_text stored = sanitize (InputBox.messageText s)
       /\ m_nickname stored = Js.orString (Some (InputBox.props_nickname props)) "Anonymous"
       /\ m_timestamp stored = Js.orNumber (Some now) later.
Proof.
  intros Htext Hcan Hopen Hroom s' d. subst s' d.
  rewrite InputBox_sendMessage_unfold by done.
  rewrite sendMessage_succeeds by done. simpl.
  repeat split.
  rewrite sendMessage_db.
  rewrite read_last_saved with (room := room) by done.
  eexists. split; [reflexivity|]. by repeat split.
Qed.

Lemma InputBox_sendMessage_delivers_witness :
  InputBox.messageText
    (InputBox.sendMessage (purify := Reference.dropScripts)
       {| InputBox.props_nickname := "Eve"; InputBox.props_roomId := Some "R" |}
       {| InputBox.world := Sample.meshed; InputBox.messageText := " <i>hey</i> ";
          InputBox.messages := [] |} 5 6)
  = ""
  /\ map text
       (InputBox.messages
          (InputBox.sendMessage (purify := Reference.dropScripts)
             {| InputBox.props_nickname := "Eve"; InputBox.props_roomId := Some "R" |}
             {| InputBox.world := Sample.meshed; InputBox.messageText := " <i>hey</i> ";
                InputBox.messages := [] |} 5 6))
     = [" <i>hey</i> "].
Proof.
  destruct (InputBox_sendMessage_delivers Reference.dropScripts
              {| InputBox.props_nickname := "Eve"; InputBox.props_roomId := Some "R" |}
              {| InputBox.world := Sample.meshed; InputBox.messageText := " <i>hey</i> ";
                 InputBox.messages := [] |} 5 6 "R") as (H1 & H2 & _).
  - reflexivity.
  - intros H. discriminate H.
  - reflexivity.
  - reflexivity.
  - split; [exact H1|]. rewrite H2. reflexivity.
Defined.

(** X21: a send that fails still stores.  On the relay without a socket, a
    message that is not blank is saved before the send fails: the input keeps
    its text and the displayed list is unchanged, yet with the database open
    the store has one more record, and pressing send again stores a second
    copy under the next id. *)
Theorem InputBox_failed_send_still_stores
    (purify : DOMPurify) (props : InputBox.Props) (s : InputBox.State)
    (now1 later1 now2 later2 : Z) :
  Js.whitespaceOnly (InputBox.messageText s) = false ->
  P2PService.useWebSocketFallback (P2PService.p2pService (InputBox.world s)) = true ->
  P2PService.socket (P2PService.p2pService (InputBox.world s)) = None ->
  StorageService.isOpen (P2PService.db (InputBox.world s)) = true ->
  let s1 := InputBox.sendMessage props s now1 later1 in
  let s2 := InputBox.sendMessage props s1 now2 later2 in
  let k := Dexie.keyGen (StorageService.messages (P2PService.db (InputBox.world s))) in
  InputBox.messageText s1 = InputBox.messageText s
  /\ InputBox.messages s1 = InputBox.messages s
  /\ P2PService.effects (InputBox.world s1) = P2PService.effects (InputBox.world s)
  /\ Dexie.rows (StorageService.messages (P2PService.db (InputBox.world s1)))
     = Dexie.rows (StorageService.messages (P2PService.db (InputBox.world s)))
       ++ [recordOf k (typedMessage props s now1) later1]
  /\ Dexie.rows (StorageService.messages (P2PService.db (InputBox.world s2)))
     = Dexie.rows (StorageService.messages (P2PService.db (InputBox.world s)))
       ++ [recordOf k (typedMessage props s now1) later1;
           recordOf (N.succ k) (typedMessage props s now2) later2].
Proof.
  intros Htext Hrelay Hsocket Hopen s1 s2 k.
  assert (Hfail : forall w d t,
             P2PService.useWebSocketFallback (P2PService.p2pService w) = true ->
             P2PService.socket (P2PService.p2pService w) = None ->
             P2PService.sendMessage w d t
             = (P2PService.withDb (fst (StorageService.saveMessage (P2PService.db w) d t)) w,
                P2PService.SendErr P2PService.SocketIsNull)).
  { intros w d t Hf Hs. unfold P2PService.sendMessage. simpl. by rewrite Hf, Hs. }
  assert (E1 : s1 = {| InputBox.world :=
                         P2PService.withDb
                           (fst (StorageService.saveMessage
                                   (P2PService.db (InputBox.world s))
                                   (typedMessage props s now1) later1))
                           (InputBox.world s);
                       InputBox.messageText := InputBox.messageText s;
                       InputBox.messages := InputBox.messages s |}).
  { subst s1. rewrite InputBox_sendMessage_unfold by done. by rewrite Hfail. }
  assert (E2 : s2 = {| InputBox.world :=
                         P2PService.withDb
                           (fst (StorageService.saveMessage
                                   (P2PService.db (InputBox.world s1))
                                   (typedMessage props s1 now2) later2))
                           (InputBox.world s1);
                       InputBox.messageText := InputBox.messageText s1;
                       InputBox.messages := InputBox.messages s1 |}).
  { subst s2. rewrite InputBox_sendMessage_unfold by (by rewrite E1).
    rewrite Hfail; [done | by rewrite E1 | by rewrite E1]. }
  rewrite E2, E1. simpl. unfold typedMessage. simpl.
  rewrite (saveMessage_open (P2PService.db (InputBox.world s))) by done. simpl.
  repeat split.
  unfold StorageService.saveMessage, Dexie.add. simpl.
  by rewrite <- app_assoc.
Qed.

Lemma InputBox_failed_send_still_stores_witness :
  map m_text
    (Dexie.rows
       (StorageService.messages
          (P2PService.db
             (InputBox.world
                (InputBox.sendMessage (purify := Reference.dropScripts)
                   {| InputBox.props_nickname := "Eve"; InputBox.props_roomId := Some "R" |}
                   (InputBox.sendMessage (purify := Reference.dropScripts)
                      {| InputBox.props_nickname := "Eve";
                         InputBox.props_roomId := Some "R" |}
                      {| InputBox.world := Sample.relayDown;
                         InputBox.messageText := "hey"; InputBox.messages := [] |} 5 6)
                   7 8)))))
  = ["hey"; "hey"].
Proof.
  destruct (InputBox_failed_send_still_stores Reference.dropScripts
              {| InputBox.props_nickname := "Eve"; InputBox.props_roomId := Some "R" |}
              {| InputBox.world := Sample.relayDown;
                 InputBox.messageText := "hey"; InputBox.messages := [] |} 5 6 7 8)
    as (_ & _ & _ & _ & H); [reflexivity | reflexivity | reflexivity | reflexivity |].
  rewrite H. reflexivity.
Defined.

(** ** Trimming *)

Lemma trimStart_startsClean (s : string) : startsClean (Js.trimStart s).
Proof.
  induction s as [|c s IH]; simpl; [done|].
  destruct (Js.isWhiteSpace c) eqn:Hc; [exact IH | exact Hc].
Qed.

Lemma trimStart_clean_id (s : string) : startsClean s -> Js.trimStart s = s.
Proof. destruct s as [|c s]; simpl; [done|]. by intros ->. Qed.

Lemma trimEnd_startsClean (s : string) : startsClean s -> startsClean (Js.trimEnd s).
Proof.
  destruct s as [|c s]; simpl; [done|]. intros Hc.
  destruct (Js.trimEnd s); simpl; [by rewrite Hc | exact Hc].
Qed.

Lemma trimEnd_idempotent (s : string) : Js.trimEnd (Js.trimEnd s) = Js.trimEnd s.
Proof.
  induction s as [|c s IH]; simpl; [done|].
  destruct (Js.trimEnd s) as [|a t] eqn:Ht.
  - destruct (Js.isWhiteSpace c) eqn:Hc; simpl; [done|]. by rewrite Hc.
  - change (Js.trimEnd (String c (String a t)))
      with (match Js.trimEnd (String a t) with
            | EmptyString => if Js.isWhiteSpace c then EmptyString
                             else String c EmptyString
            | u => String c u
            end).
    by rewrite IH.
Qed.

Lemma trim_idempotent (s : string) : Js.trim (Js.trim s) = Js.trim s.
Proof.
  unfold Js.trim.
  rewrite (trimStart_clean_id (Js.trimEnd (Js.trimStart s)))
    by apply trimEnd_startsClean, trimStart_startsClean.
  apply trimEnd_idempotent.
Qed.

(** ** The content script *)

(** X22: what the content script sends.  For an input that is not blank,
    [sendMessage] clears the input and appends exactly one message, marked as
    own, to the messages area, and that is the message handed to the
    background worker: its text is the trimmed input, which is not empty and
    has no white space left to trim, its nickname is never empty (the stored
    one, or ["Anonymous"] when none or an empty one is stored), and it
    carries no room id. *)
Theorem Content_sendMessage_sends_trimmed
    (stored : gmap string string) (page : Content.Page) (now : Z) :
  Js.whitespaceOnly (Content.inputValue page) = false ->
  let page' := Content.sendMessage stored page now in
  Content.inputValue page' = ""
  /\ exists d,
       Content.messagesArea page' = Content.messagesArea page ++ [Content.ChatMessage true d]
       /\ Content.sentToBackground page' = Content.sentToBackground page ++ [d]
       /\ text d = Js.trim (Content.inputValue page)
       /\ Js.truthy (text d) = true
       /\ Js.trim (text d) = text d
       /\ (exists n, nickname d = Some n /\ Js.truthy n = true)
       /\ (nicknameNotEmpty stored ->
           nickname d = Some (default "Anonymous" (stored !! "nickname")))
       /\ userId d = stored !! "userId"
       /\ roomId d = None
       /\ timestamp d = Some now.
Proof.
  intros Htext page'. subst page'. apply trim_truthy_iff in Htext.
  unfold Content.sendMessage. rewrite Htext. simpl.
  split; [done|]. eexists. split; [reflexivity|]. simpl.
  repeat split; try done.
  - apply trim_idempotent.
  - eexists. split; [reflexivity|]. by apply orString_truthy.
  - unfold nicknameNotEmpty. destruct (stored !! "nickname") as [n|]; simpl; [|done].
    by intros ->.
Qed.

Lemma Content_sendMessage_sends_trimmed_witness :
  Content.inputValue
    (Content.sendMessage (<["nickname" := ""]> ∅)
       {| Content.inputValue := "  hello  "; Content.messagesArea := [];
          Content.sentToBackground := [] |} 5)
  = "".
Proof.
  destruct (Content_sendMessage_sends_trimmed (<["nickname" := ""]> ∅)
              {| Content.inputValue := "  hello  "; Content.messagesArea := [];
                 Content.sentToBackground := [] |} 5) as [H _]; [reflexivity|].
  exact H.
Defined.

(** ** The chat container *)

Lemma searchMessages_sorted (F : Fuse) (db : StorageService.Db) (room query : string) :
  StronglySorted byTimestamp (StorageService.searchMessages db room query).
Proof.
  destruct (StorageService.isOpen db) eqn:Hopen.
  - rewrite searchMessages_open by done. apply (sortBy_StronglySorted m_timestamp).
  - rewrite searchMessages_closed by done. constructor.
Qed.

Lemma getMessagesForRoom_at_most (db : StorageService.Db) (room : string) (limit : nat) :
  length (StorageService.getMessagesForRoom db room limit) <= limit.
Proof.
  unfold StorageService.getMessagesForRoom, Dexie.whereEquals.
  destruct (StorageService.isOpen db); simpl; [|lia].
  rewrite List.length_rev, List.length_firstn. lia.
Qed.

(** X23: the search view.  A blank query leaves the search view without
    querying the store, and the list shows the messages again; any other
    query enters the search view, whose results are in ascending timestamp
    order and, when a room is known, are what [searchMessages] returns for
    that room; [clearSearch] always brings the messages back and empties the
    query.  The messages themselves are never changed by searching. *)
Theorem ChatContainer_search_view
    (F : Fuse) (props : ChatContainer.Props) (s : ChatContainer.State) :
  let s' := ChatContainer.handleSearch props s in
  ChatContainer.messages s' = ChatContainer.messages s
  /\ ChatContainer.service s' = ChatContainer.service s
  /\ StronglySorted byTimestamp (ChatContainer.searchResults s')
  /\ (Js.whitespaceOnly (ChatContainer.searchQuery s) = true ->
      ChatContainer.isSearching s' = false
      /\ ChatContainer.listed s' = ChatContainer.messages s)
  /\ (Js.whitespaceOnly (ChatContainer.searchQuery s) = false ->
      ChatContainer.isSearching s' = true
      /\ forall room,
           ChatContainer.searchRoom props s = Some room ->
           ChatContainer.listed s'
           = map ChatContainer.FromStore
               (StorageService.searchMessages
                  (P2PService.db (ChatContainer.service s)) room
                  (ChatContainer.searchQuery s)))
  /\ ChatContainer.listed (ChatContainer.clearSearch s') = ChatContainer.messages s
  /\ ChatContainer.searchQuery (ChatContainer.clearSearch s') = "".
Proof.
  intros s'. subst s'. unfold ChatContainer.handleSearch.
  destruct (Js.truthy (Js.trim (ChatContainer.searchQuery s))) eqn:Hq; simpl.
  - apply trim_truthy_iff in Hq. rewrite Hq. repeat split; try done.
    + destruct (ChatContainer.searchRoom props s); [apply searchMessages_sorted|].
      constructor.
    + intros room Hroom. unfold ChatContainer.listed. simpl. by rewrite Hroom.
  - apply trim_falsy_iff in Hq. rewrite Hq. repeat split; try done. constructor.
Qed.

Lemma ChatContainer_search_view_witness :
  ChatContainer.isSearching
    (ChatContainer.handleSearch (fuse := Reference.substringSearch)
       {| ChatContainer.props_videoId := "vid"; ChatContainer.props_roomId := Some "R" |}
       (ChatContainer.mounted (P2PService.world0 Sample.twoRooms ∅)))
  = false.
Proof.
  destruct (ChatContainer_search_view Reference.substringSearch
              {| ChatContainer.props_videoId := "vid";
                 ChatContainer.props_roomId := Some "R" |}
              (ChatContainer.mounted (P2PService.world0 Sample.twoRooms ∅)))
    as (_ & _ & _ & H & _).
  destruct H as [H _]; [reflexivity | exact H].
Defined.

(** X24: mounting the container on a known room.  With a non-empty room id
    in its props and a transport that can send, [initializeChat] joins that
    room, marks the container connected, shows the messages stored for the
    room (at most 50, as [getMessagesForRoom] returns them) and registers its
    callback after those already registered.  On the relay without a socket
    it shows the connection error and registers nothing, although the
    service's room has already been switched. *)
Theorem ChatContainer_mounts_on_a_room
    (props : ChatContainer.Props) (s : ChatContainer.State)
    (callback : nat) (env : P2PService.InitEnv) (room : string) :
  ChatContainer.props_roomId props = Some room ->
  Js.truthy room = true ->
  let w := ChatContainer.service s in
  let s' := ChatContainer.initializeChat props s callback env in
  P2PService.roomId (P2PService.p2pService (ChatContainer.service s')) = Some room
  /\ P2PService.db (ChatContainer.service s') = P2PService.db w
  /\ (canSend (P2PService.p2pService w) ->
      ChatContainer.isConnected s' = true
      /\ ChatContainer.error s' = ChatContainer.error s
      /\ ChatContainer.messages s'
         = map ChatContainer.FromStore
             (StorageService.getMessagesForRoom (P2PService.db w) room 50)
      /\ length (ChatContainer.messages s') <= 50
      /\ P2PService.messageCallbacks (P2PService.p2pService (ChatContainer.service s'))
         = P2PService.messageCallbacks (P2PService.p2pService w) ++ [callback])
  /\ (P2PService.useWebSocketFallback (P2PService.p2pService w) = true ->
      P2PService.socket (P2PService.p2pService w) = None ->
      ChatContainer.isConnected s' = ChatContainer.isConnected s
      /\ ChatContainer.error s' = Some "Failed to connect to chat"
      /\ ChatContainer.messages s' = ChatContainer.messages s
      /\ P2PService.messageCallbacks (P2PService.p2pService (ChatContainer.service s'))
         = P2PService.messageCallbacks (P2PService.p2pService w)).
Proof.
  intros Hprops Hroom w s'. subst w s'.
  unfold ChatContainer.initializeChat, ChatContainer.connect.
  rewrite Hprops. simpl. rewrite Hroom.
  unfold P2PService.joinRoom. simpl.
  destruct (P2PService.useWebSocketFallback
              (P2PService.p2pService (ChatContainer.service s))) eqn:Hf; simpl.
  - destruct (P2PService.socket (P2PService.p2pService (ChatContainer.service s)))
      eqn:Hs; simpl.
    + repeat split; try done.
      * rewrite length_map. apply getMessagesForRoom_at_most.
    + repeat split; try done;
        match goal with Hcan : canSend _ |- _ => by destruct (Hcan Hf) end.
  - repeat split; try done.
    rewrite length_map. apply getMessagesForRoom_at_most.
Qed.

Lemma ChatContainer_mounts_on_a_room_witness :
  ChatContainer.isConnected
    (ChatContainer.initializeChat
       {| ChatContainer.props_videoId := "vid"; ChatContainer.props_roomId := Some "R" |}
       (ChatContainer.mounted
          (P2PService.world0 Sample.inOrder ∅)) 7 Sample.meshUp)
  = true
  /\ length
       (ChatContainer.messages
          (ChatContainer.initializeChat
             {| ChatContainer.props_videoId := "vid";
                ChatContainer.props_roomId := Some "R" |}
             (ChatContainer.mounted
                (P2PService.world0 Sample.inOrder ∅)) 7 Sample.meshUp))
     <= 50.
Proof.
  destruct (ChatContainer_mounts_on_a_room
              {| ChatContainer.props_videoId := "vid";
                 ChatContainer.props_roomId := Some "R" |}
              (ChatContainer.mounted (P2PService.world0 Sample.inOrder ∅))
              7 Sample.meshUp "R") as (_ & _ & H & _); [reflexivity | reflexivity |].
  destruct H as (H1 & _ & _ & H4 & _).
  - intros Hf. discriminate Hf.
  - split; [exact H1 | exact H4].
Defined.

(** ** Nicknames *)

(** X25: the header never stores an empty nickname.  [saveNickname] always
    closes the settings panel and leaves the typed text as it is.  When the
    sanitized, trimmed input is not empty, that very string becomes the shown
    nickname and is written under the key [nickname] of
    [chrome.storage.local]; when it is empty, neither the shown nickname nor
    the storage changes.  So a stored nickname that was absent or non-empty is
    so afterwards, a non-empty shown nickname stays non-empty, and no other
    key of [chrome.storage.local] is written. *)
Theorem ChatHeader_never_stores_an_empty_nickname
    (purify : DOMPurify) (s : ChatHeader.State) :
  let s' := ChatHeader.saveNickname s in
  let typed := sanitize (Js.trim (ChatHeader.tempNickname s)) in
  ChatHeader.isSettingsOpen s' = false
  /\ (nicknameNotEmpty (ChatHeader.local s) -> nicknameNotEmpty (ChatHeader.local s'))
  /\ (Js.truthy (ChatHeader.nickname s) = true -> Js.truthy (ChatHeader.nickname s') = true)
  /\ (forall key, key <> "nickname" ->
        ChatHeader.local s' !! key = ChatHeader.local s !! key)
  /\ (ChatHeader.local s' <> ChatHeader.local s ->
      ChatHeader.local s' !! "nickname" = Some (ChatHeader.nickname s')
      /\ isSanitized (ChatHeader.nickname s'))
  /\ ChatHeader.tempNickname s' = ChatHeader.tempNickname s
  /\ (Js.truthy typed = true ->
      ChatHeader.nickname s' = typed
      /\ ChatHeader.local s' = <["nickname" := typed]> (ChatHeader.local s))
  /\ (Js.truthy typed = false ->
      ChatHeader.nickname s' = ChatHeader.nickname s
      /\ ChatHeader.local s' = ChatHeader.local s).
Proof.
  intros s' typed. subst s' typed. unfold ChatHeader.saveNickname.
  destruct (Js.truthy (sanitize (Js.trim (ChatHeader.tempNickname s)))) eqn:Ht; simpl.
  - split; [done|]. split.
    { intros _. unfold nicknameNotEmpty. by rewrite lookup_insert_eq. }
    split; [done|]. split.
    { intros key Hkey. by rewrite lookup_insert_ne. }
    split.
    { intros _. split; [by rewrite lookup_insert_eq | by eexists]. }
    split; [done|]. split; [done|]. intros Hno. discriminate Hno.
  - split; [done|]. split; [done|]. split; [done|]. split; [done|].
    split; [intros Hne; by destruct Hne|].
    split; [done|]. split; [intros Hyes; discriminate Hyes | done].
Qed.

Lemma ChatHeader_never_stores_an_empty_nickname_witness :
  ChatHeader.nickname
    (ChatHeader.saveNickname (purify := Reference.dropScripts)
       {| ChatHeader.nickname := "Eve";
          ChatHeader.tempNickname := " Ann<script>x</script> ";
          ChatHeader.isSettingsOpen := true; ChatHeader.local := ∅ |})
  = "Ann"
  /\ ChatHeader.local
       (ChatHeader.saveNickname (purify := Reference.dropScripts)
          {| ChatHeader.nickname := "Eve";
             ChatHeader.tempNickname := " Ann<script>x</script> ";
             ChatHeader.isSettingsOpen := true; ChatHeader.local := ∅ |})
     = {["nickname" := "Ann"]}.
Proof.
  destruct (ChatHeader_never_stores_an_empty_nickname Reference.dropScripts
              {| ChatHeader.nickname := "Eve";
                 ChatHeader.tempNickname := " Ann<script>x</script> ";
                 ChatHeader.isSettingsOpen := true; ChatHeader.local := ∅ |})
    as (_ & _ & _ & _ & _ & _ & H & _).
  destruct H as [Hshown Hstored]; [reflexivity|].
  split; [exact Hshown | exact Hstored].
Defined.

Example ChatHeader_rejects_script_only :
  ChatHeader.saveNickname (purify := Reference.dropScripts)
    {| ChatHeader.nickname := "Eve"; ChatHeader.tempNickname := " <script>x</script> ";
       ChatHeader.isSettingsOpen := true; ChatHeader.local := ∅ |}
  = {| ChatHeader.nickname := "Eve"; ChatHeader.tempNickname := " <script>x</script> ";
       ChatHeader.isSettingsOpen := false; ChatHeader.local := ∅ |}.
Proof. reflexivity. Qed.

(** X26: saving the nickname in the popup.  The nickname is written to
    [chrome.storage.local] as it is, empty or not, and the popup always
    reports success.  With a user id loaded and the database open, [getUser]
    then returns that user with the nickname and the clock reading; with the
    database closed the user record is not written, and success is reported
    all the same. *)
Theorem Popup_saveNickname_round_trip
    (opened : bool) (users : Dexie.Table Users.UserRecord)
    (stored : gmap string string) (s : Popup.State) (now : Z) (user : string) :
  Popup.userId s = Some user ->
  Js.truthy user = true ->
  let '(stored', users', alert) := Popup.saveNickname opened users stored s now in
  alert = Popup.NicknameSaved
  /\ stored' !! "nickname" = Some (Popup.nickname s)
  /\ (opened = true ->
      Users.getUser opened users' user
      = Some {| Users.u_id := user;
                Users.u_nickname := Some (Popup.nickname s);
                Users.u_lastSeen := now |})
  /\ (opened = false -> users' = users).
Proof.
  intros Huser Htruthy. unfold Popup.saveNickname. rewrite Huser. simpl.
  rewrite Htruthy. repeat split.
  - by rewrite lookup_insert_eq.
  - intros ->. unfold Users.updateUser, Users.getUser, Dexie.put, Dexie.get. simpl.
    apply (find_putRow_same Users.u_id
             {| Users.u_id := user; Users.u_nickname := Some (Popup.nickname s);
                Users.u_lastSeen := now |}).
  - by intros ->.
Qed.

Lemma Popup_saveNickname_round_trip_witness :
  let '(stored', users', alert) :=
    Popup.saveNickname true Dexie.emptyTable ∅
      {| Popup.nickname := ""; Popup.rooms := []; Popup.userId := Some "u1";
         Popup.isLoading := false |} 10 in
  alert = Popup.NicknameSaved
  /\ stored' !! "nickname" = Some ""
  /\ (true = true ->
      Users.getUser true users' "u1"
      = Some {| Users.u_id := "u1"; Users.u_nickname := Some "";
                Users.u_lastSeen := 10 |})
  /\ (true = false -> users' = Dexie.emptyTable).
Proof.
  apply (Popup_saveNickname_round_trip true Dexie.emptyTable ∅
           {| Popup.nickname := ""; Popup.rooms := []; Popup.userId := Some "u1";
              Popup.isLoading := false |} 10 "u1"); reflexivity.
Defined.

(** ** Room ids and the background worker *)

Lemma length_append (s1 s2 : string) :
  String.length (s1 +:+ s2) = String.length s1 + String.length s2.
Proof. induction s1 as [|c s1 IH]; simpl; [done|]. by rewrite IH. Qed.

Lemma length_substring_0 (n : nat) (s : string) :
  String.length (String.substring 0 n s) = Nat.min n (String.length s).
Proof.
  revert n. induction s as [|c s IH]; intros [|n]; simpl; try done.
  by rewrite IH.
Qed.

Lemma prefix_append (s1 s2 : string) : String.prefix s1 (s1 +:+ s2) = true.
Proof.
  induction s1 as [|c s1 IH]; simpl; [by destruct s2|].
  destruct (ascii_dec c c); [exact IH | done].
Qed.

Lemma append_assoc (s1 s2 s3 : string) : (s1 +:+ s2) +:+ s3 = s1 +:+ (s2 +:+ s3).
Proof.
  induction s1 as [|c s1 IH]; [done|].
  change (String c ((s1 +:+ s2) +:+ s3) = String c (s1 +:+ (s2 +:+ s3))).
  by f_equal.
Qed.

(** X27: the room ids the extension makes.  [initialize] of the service and
    [initializeP2P] of the background worker both name the new room
    [yt-<video>-] followed by the first eight code units of a fresh UUID (all
    of it when it is shorter): the id starts with [yt-<video>-] and has
    [4 + |video| + min 8 |uuid|] code units; and both answer with the very
    room they recorded ([this.roomId], respectively [currentRoom]). *)
Theorem made_room_ids
    (w : P2PService.World) (b : Background.Worker) (video uuidPeer uuidRoom : string)
    (env : P2PService.InitEnv) :
  P2PService.uuidRoom env = uuidRoom ->
  exists room,
    room = "yt-" +:+ video +:+ "-" +:+ String.substring 0 8 uuidRoom
    /\ String.prefix ("yt-" +:+ video +:+ "-") room = true
    /\ String.length room = 4 + String.length video + Nat.min 8 (String.length uuidRoom)
    /\ P2PService.roomId (P2PService.p2pService (fst (P2PService.initialize w video env)))
       = Some room
    /\ (forall id r f,
          snd (P2PService.initialize w video env) = P2PService.InitOk id r f ->
          r = Some room)
    /\ snd (Background.initializeP2P b video uuidPeer uuidRoom)
       = Background.Initialized uuidPeer room
    /\ Background.worker_local (fst (Background.initializeP2P b video uuidPeer uuidRoom))
       !! "currentRoom" = Some room.
Proof.
  intros Huuid. eexists. split; [reflexivity|]. split; [|split; [|split; [|split; [|split]]]].
  - assert (E : "yt-" +:+ video +:+ "-" +:+ String.substring 0 8 uuidRoom
                = ("yt-" +:+ video +:+ "-") +:+ String.substring 0 8 uuidRoom)
      by (by rewrite !append_assoc).
    rewrite E. apply prefix_append.
  - rewrite !length_append, length_substring_0. simpl. lia.
  - rewrite <- Huuid. unfold P2PService.initialize, P2PService.initializePeerJS,
      P2PService.initializeWebSocketFallback.
    destruct (Js.truthyProp _), (P2PService.peerOpens env); simpl; try done;
      destruct (P2PService.useWebSocketFallback _); simpl; try done;
      by destruct (P2PService.ioReturns env).
  - rewrite <- Huuid. intros id r f.
    unfold P2PService.initialize, P2PService.initializePeerJS,
      P2PService.initializeWebSocketFallback.
    destruct (Js.truthyProp _), (P2PService.peerOpens env); simpl;
      try (destruct (P2PService.useWebSocketFallback _); simpl);
      try (destruct (P2PService.ioReturns env); simpl);
      intros H; congruence.
  - reflexivity.
  - simpl. rewrite lookup_insert_ne by done. by rewrite lookup_insert_eq.
Qed.

Lemma made_room_ids_witness :
  exists room,
    room = "yt-" +:+ "vid" +:+ "-" +:+ String.substring 0 8 (P2PService.uuidRoom Sample.meshUp)
    /\ String.prefix ("yt-" +:+ "vid" +:+ "-") room = true
    /\ String.length room = 4 + String.length "vid"
                            + Nat.min 8 (String.length (P2PService.uuidRoom Sample.meshUp))
    /\ P2PService.roomId
         (P2PService.p2pService (fst (P2PService.initialize Sample.lonely "vid" Sample.meshUp)))
       = Some room.
Proof.
  destruct (made_room_ids Sample.lonely
              {| Background.worker_peerId := None; Background.worker_local := ∅ |}
              "vid" "p" (P2PService.uuidRoom Sample.meshUp) Sample.meshUp eq_refl)
    as (room & H1 & H2 & H3 & H4 & _).
  exists room. by repeat split.
Defined.

(** X28: what the background worker keeps.  [initializeP2P] writes the keys
    [currentRoom] (the room it made) and [currentVideo] of
    [chrome.storage.local] and no other; [joinRoom] writes [currentRoom] (the
    room asked for) and no other.  In particular the user id the install
    listener stored survives them, and a later run of the install listener
    leaves the storage alone.  [joinRoom] leaves [currentVideo] at the video
    of the room made before, and keeps the worker's peer id, while every
    [initializeP2P] replaces the peer id by a fresh one. *)
Theorem background_keeps_the_user_id
    (b : Background.Worker) (video uuidPeer uuidRoom room uuid user : string) :
  Background.worker_local b !! "userId" = Some user ->
  Js.truthy user = true ->
  let b1 := fst (Background.initializeP2P b video uuidPeer uuidRoom) in
  let b2 := fst (Background.joinRoom b1 room) in
  Background.worker_local b1 !! "userId" = Some user
  /\ Background.worker_local b2 !! "userId" = Some user
  /\ Background.onInstalled (Background.worker_local b2) uuid = Background.worker_local b2
  /\ Background.worker_local b2 !! "currentRoom" = Some room
  /\ Background.worker_local b2 !! "currentVideo" = Some video
  /\ Background.worker_peerId b2 = Some uuidPeer
  /\ snd (Background.joinRoom b1 room) = Background.Joined room
  /\ Background.worker_local b1 !! "currentRoom"
     = Some ("yt-" +:+ video +:+ "-" +:+ String.substring 0 8 uuidRoom)
  /\ Background.worker_local b1 !! "currentVideo" = Some video
  /\ (forall key, key <> "currentRoom" -> key <> "currentVideo" ->
      Background.worker_local b1 !! key = Background.worker_local b !! key)
  /\ (forall key, key <> "currentRoom" ->
      Background.worker_local b2 !! key = Background.worker_local b1 !! key).
Proof.
  intros Huser Htruthy b1 b2. subst b1 b2. simpl.
  assert (H2 : (<["currentRoom" := room]>
                  (<["currentVideo" := video]>
                     (<["currentRoom" := "yt-" +:+ video +:+ "-"
                                         +:+ String.substring 0 8 uuidRoom]>
                        (Background.worker_local b)))) !! "userId" = Some user).
  { by rewrite !lookup_insert_ne. }
  split; [by rewrite !lookup_insert_ne|].
  split; [exact H2|].
  split; [unfold Background.onInstalled; rewrite H2; simpl; by rewrite Htruthy|].
  split; [by rewrite lookup_insert_eq|].
  split; [rewrite lookup_insert_ne by done; by rewrite lookup_insert_eq|].
  split; [done|]. split; [done|].
  split; [rewrite lookup_insert_ne by done; by rewrite lookup_insert_eq|].
  split; [by rewrite lookup_insert_eq|].
  split.
  - intros key Hroom Hvideo. by rewrite !lookup_insert_ne.
  - intros key Hroom. by rewrite lookup_insert_ne.
Qed.

Lemma background_keeps_the_user_id_witness :
  Background.worker_local
    (fst (Background.joinRoom
            (fst (Background.initializeP2P
                    {| Background.worker_peerId := None;
                       Background.worker_local :=
                         Background.onInstalled ∅ "55555555-aaaa" |}
                    "vid" "p1" "22222222-aaaa"))
            "yt-other-12345678"))
  !! "userId" = Some "55555555-aaaa".
Proof.
  destruct (background_keeps_the_user_id
              {| Background.worker_peerId := None;
                 Background.worker_local := Background.onInstalled ∅ "55555555-aaaa" |}
              "vid" "p1" "22222222-aaaa" "yt-other-12345678" "u" "55555555-aaaa")
    as (_ & H & _); [reflexivity | reflexivity |].
  exact H.
Defined.
